(** * Dual-guide barcode pipeline: extraction and aggregation

    A shallow embedding of [dual_guide_parsing.py] and
    [dual_guide_aggregate.py].

    - Python strings are lists of characters ([str]).
    - A text file handle is the list of the lines still to be read;
      [readline] pops one and yields the empty string at end of file.
    - A pandas DataFrame is the list of its rows, a row is a record
      with one field per column.  A table the aggregation stage reads
      is the table [pd.read_csv] returns for the file.  Of the
      reference table [Intermediate_df.csv] every column but the two
      join keys may hold a null and is an [option]; so is the cluster
      center, which the right join of [merge_barcode_and_sgRNA_output]
      leaves empty for a pair without a cluster.
    - A float is not computed: the quotient of two integers is kept
      as the two integers.
    - A raised Python exception is the [Raise] branch of [result]. *)

From Stdlib Require Import Ascii String.
From Stdlib Require Import List Bool Arith Lia ZArith Permutation.
From Stdlib Require Import Sorted.
Import ListNotations.

Set Implicit Arguments.
Unset Strict Implicit.

Local Open Scope list_scope.
Local Open Scope nat_scope.

(** ** Python values shared by the two scripts *)

Definition str := list ascii.

(** A string literal of the source. *)
Definition py (s : string) : str := list_ascii_of_string s.

Definition str_eq_dec : forall a b : str, {a = b} + {a <> b} :=
  list_eq_dec ascii_dec.

Definition str_eqb (a b : str) : bool :=
  if str_eq_dec a b then true else false.

(** [x in l] on a Python list of strings. *)
Definition py_in (x : str) (l : list str) : bool := existsb (str_eqb x) l.

(** Code-point order on strings, the order pandas sorts group keys by. *)
Fixpoint str_leb (a b : str) : bool :=
  match a, b with
  | [], _ => true
  | _ :: _, [] => false
  | x :: a', y :: b' =>
      let nx := nat_of_ascii x in
      let ny := nat_of_ascii y in
      if nx <? ny then true
      else if ny <? nx then false
      else str_leb a' b'
  end.

Inductive exn : Type :=
| ZeroDivisionError
| TypeError
| ValueError.

Inductive result (A : Type) : Type :=
| Ok (a : A)
| Raise (e : exn).
Arguments Ok {A} a.
Arguments Raise {A} e.

Definition bind {A B} (m : result A) (k : A -> result B) : result B :=
  match m with
  | Ok a => k a
  | Raise e => Raise e
  end.

Notation "'do' x <- m ; k" := (bind m (fun x => k))
  (at level 10, x name, m at level 100, k at level 200).

(** Lexicographic order on a pair of columns. *)
Definition pair_leb {A B} (A_eq_dec : forall a b : A, {a = b} + {a <> b})
           (A_leb : A -> A -> bool) (B_leb : B -> B -> bool)
           (x y : A * B) : bool :=
  if A_eq_dec (fst x) (fst y) then B_leb (snd x) (snd y)
  else A_leb (fst x) (fst y).

Definition pair_eq_dec {A B} (A_eq_dec : forall a b : A, {a = b} + {a <> b})
           (B_eq_dec : forall a b : B, {a = b} + {a <> b})
  : forall x y : A * B, {x = y} + {x <> y}.
Proof. decide equality. Defined.

(** ** pandas [groupby]: distinct keys in sorted order *)

Section GroupBy.
Variables (K : Type) (K_eq_dec : forall a b : K, {a = b} + {a <> b})
          (K_leb : K -> K -> bool).

Fixpoint insert_sorted (k : K) (l : list K) : list K :=
  match l with
  | [] => [k]
  | x :: l' => if K_leb k x then k :: l else x :: insert_sorted k l'
  end.

Definition sort_keys (l : list K) : list K :=
  fold_right insert_sorted [] l.

(** The keys a [groupby] enumerates: every distinct key once,
    sorted ([sort=True] is the default). *)
Definition group_keys (l : list K) : list K :=
  sort_keys (nodup K_eq_dec l).

Variables (A : Type) (key : A -> option K).

(** A row whose key holds a null has key [None]; [groupby] drops it
    ([dropna=True] is the default). *)
Definition has_key (k : K) (r : A) : bool :=
  match key r with
  | Some k' => if K_eq_dec k' k then true else false
  | None => false
  end.

Definition non_null_keys (rows : list A) : list K :=
  flat_map (fun r => match key r with Some k => [k] | None => [] end) rows.

(** [rows.groupby(cols)]: the groups in key order, each with its rows
    in their original order. *)
Definition groupby (rows : list A) : list (K * list A) :=
  map (fun k => (k, filter (has_key k) rows))
      (group_keys (non_null_keys rows)).
End GroupBy.

(** The columns of [Unexpected_reads.csv] and [Intermediate_df.csv]
    as the extraction writes them. *)
Record extracted_row : Type := {
  gRNA1 : str;
  gRNA2 : str;
  Clonal_barcode : str;
  Read_ID : str;
  Sample_ID : str;
  Class : str;
  gRNA_combination : str
}.

(** ** [dual_guide_parsing.py] *)

Module dual_guide_parsing.

Local Open Scope char_scope.

Definition temp_dic : list (ascii * ascii) :=
  [ ("A", "T"); ("G", "C"); ("T", "A"); ("C", "G"); ("N", "N");
    ("a", "t"); ("g", "c"); ("t", "a"); ("c", "g"); ("n", "n") ].

(** [d.get(x, dflt)] *)
Fixpoint dict_get (d : list (ascii * ascii)) (x dflt : ascii) : ascii :=
  match d with
  | [] => dflt
  | (k, v) :: d' => if Ascii.eqb x k then v else dict_get d' x dflt
  end.

Definition find_reverse_complementary (input_string : str) : str :=
  map (fun x => dict_get temp_dic x x) (rev input_string).

Local Close Scope char_scope.

(** *** The fragment of regular expressions the two patterns use

    A pattern is a sequence of literals and capture groups of the
    form [(.{lo,hi})]. *)

Inductive item : Type :=
| Lit (s : str)
| Group (lo hi : nat).

Definition pattern := list item.

(** [.] matches any character but a newline. *)
Definition dot (c : ascii) : bool := negb (Ascii.eqb c "010"%char).

Fixpoint startswith (p s : str) : bool :=
  match p, s with
  | [], _ => true
  | _ :: _, [] => false
  | x :: p', y :: s' => Ascii.eqb x y && startswith p' s'
  end.

(** A greedy bounded repetition followed by the continuation [k]:
    [lo + extra] characters are tried first, then one fewer, down to
    [lo]. *)
Fixpoint try_group (k : str -> option (list str)) (lo extra : nat)
         (s : str) : option (list str) :=
  let n := lo + extra in
  let attempt :=
    if (n <=? length s) && forallb dot (firstn n s)
    then match k (skipn n s) with
         | Some gs => Some (firstn n s :: gs)
         | None => None
         end
    else None in
  match attempt with
  | Some r => Some r
  | None => match extra with
            | 0 => None
            | S e => try_group k lo e s
            end
  end.

(** A match that starts at the head of [s]; the captured groups. *)
Fixpoint match_here (p : pattern) (s : str) : option (list str) :=
  match p with
  | [] => Some []
  | Lit l :: p' =>
      if startswith l s then match_here p' (skipn (length l) s) else None
  | Group lo hi :: p' =>
      if lo <=? hi then try_group (match_here p') lo (hi - lo) s else None
  end.

(** [pattern.search(s)]: the match at the leftmost position that has one. *)
Fixpoint search (p : pattern) (s : str) : option (list str) :=
  match match_here p s with
  | Some gs => Some gs
  | None => match s with
            | [] => None
            | _ :: s' => search p s'
            end
  end.

(** [m.group(i)], for [i >= 1]. *)
Definition group (m : list str) (i : nat) : str := nth (i - 1) m [].

Definition temp_pattern1 : pattern :=
  [Lit (py "TAGTT"); Group 16 16; Lit (py "TATGG"); Group 16 21;
   Lit (py "GTTTA")].

Definition temp_pattern2 : pattern :=
  [Lit (py "TGTTG"); Group 16 21; Lit (py "GTTTG")].

(** *** Text handles *)

Definition isspace (c : ascii) : bool :=
  let n := nat_of_ascii c in
  ((9 <=? n) && (n <=? 13)) || ((28 <=? n) && (n <=? 32))
  || (n =? 133) || (n =? 160).

Fixpoint lstrip (s : str) : str :=
  match s with
  | [] => []
  | c :: s' => if isspace c then lstrip s' else s
  end.

Definition rstrip (s : str) : str := rev (lstrip (rev s)).

Definition readline (h : list str) : str * list str :=
  match h with
  | [] => ([], [])
  | l :: h' => (l, h')
  end.

(** [s.split(sep)] *)
Fixpoint split (sep : ascii) (s : str) : list str :=
  match s with
  | [] => [[]]
  | c :: s' =>
      if Ascii.eqb c sep then [] :: split sep s'
      else match split sep s' with
           | w :: ws => (c :: w) :: ws
           | [] => [[c]]
           end
  end.

Definition Expected : str := py "Expected".
Definition Unexpected : str := py "Unexpected".

(** *** [main] *)

(** The reference sgRNA table. *)
Record ref_row : Type := { Position : str; gRNA_complete : str }.

(** The two handles and the record read last. *)
Record cursor : Type := {
  handler1 : list str;
  handler2 : list str;
  read_id : str;
  seq1 : str;
  seq2 : str
}.

(** The counters and the output lists. *)
Record collected : Type := {
  total_reads : nat;
  extracted_reads : nat;
  matched_reads : nat;
  gRNA1_list_out : list str;
  gRNA2_list_out : list str;
  read_id_list : list str;
  clonal_barcode_list : list str;
  label_list : list str
}.

Definition collected_init : collected :=
  {| total_reads := 0; extracted_reads := 0; matched_reads := 0;
     gRNA1_list_out := []; gRNA2_list_out := []; read_id_list := [];
     clonal_barcode_list := []; label_list := [] |}.

(** The eight [readline] calls that fetch one record from both files
    (before the loop, and at the end of its body). *)
Definition next_record (h1 h2 : list str) : cursor :=
  let '(l, h1) := readline h1 in
  let rid := rstrip l in
  let '(_, h2) := readline h2 in
  let '(l, h1) := readline h1 in
  let s1 := rstrip l in
  let '(l, h2) := readline h2 in
  let s2 := find_reverse_complementary (rstrip l) in
  let '(_, h1) := readline h1 in
  let '(_, h1) := readline h1 in
  let '(_, h2) := readline h2 in
  let '(_, h2) := readline h2 in
  {| handler1 := h1; handler2 := h2; read_id := rid; seq1 := s1;
     seq2 := s2 |}.

(** The part of the loop body that works on the current record. *)
Definition loop_body (gRNA1_list gRNA2_list : list str) (cur : cursor)
           (acc : collected) : collected :=
  match search temp_pattern1 (seq1 cur), search temp_pattern2 (seq2 cur) with
  | Some match1, Some match2 =>
      let clonal_barcode := group match1 1 in
      let g1 := group match1 2 in
      let g2 := group match2 1 in
      let expected := py_in g1 gRNA1_list && py_in g2 gRNA2_list in
      {| total_reads := total_reads acc + 1;
         extracted_reads := extracted_reads acc + 1;
         matched_reads :=
           if expected then matched_reads acc + 1 else matched_reads acc;
         gRNA1_list_out := gRNA1_list_out acc ++ [g1];
         gRNA2_list_out := gRNA2_list_out acc ++ [g2];
         read_id_list := read_id_list acc ++ [read_id cur];
         clonal_barcode_list := clonal_barcode_list acc ++ [clonal_barcode];
         label_list :=
           label_list acc ++ [if expected then Expected else Unexpected]
      |}
  | _, _ =>
      {| total_reads := total_reads acc + 1;
         extracted_reads := extracted_reads acc;
         matched_reads := matched_reads acc;
         gRNA1_list_out := gRNA1_list_out acc;
         gRNA2_list_out := gRNA2_list_out acc;
         read_id_list := read_id_list acc;
         clonal_barcode_list := clonal_barcode_list acc;
         label_list := label_list acc |}
  end.

(** [while read_id: ...]; [None] when [fuel] iterations were not enough. *)
Fixpoint while_loop (fuel : nat) (gRNA1_list gRNA2_list : list str)
         (cur : cursor) (acc : collected) : option collected :=
  match read_id cur with
  | [] => Some acc
  | _ :: _ =>
      match fuel with
      | 0 => None
      | S fuel' =>
          while_loop fuel' gRNA1_list gRNA2_list
            (next_record (handler1 cur) (handler2 cur))
            (loop_body gRNA1_list gRNA2_list cur acc)
      end
  end.

(** The float [a / b] of two integers.  Its value is not computed:
    the model keeps the two operands. *)
Inductive float : Type :=
| quotient (a b : nat).

(** [a / b] on integers. *)
Definition truediv (a b : nat) : result float :=
  match b with
  | 0 => Raise ZeroDivisionError
  | S _ => Ok (quotient a b)
  end.

(** What the summary line reports: the sample, the three counters,
    and the two rates, each a float that the line shows with three
    decimals ([:.3f]). *)
Record summary : Type := {
  summary_sample : str;
  summary_total : nat;
  summary_extracted : nat;
  summary_extracted_rate : float;
  summary_matched : nat;
  summary_matched_rate : float
}.

Definition print_summary (sample_id : str) (acc : collected) : result summary :=
  do r1 <- truediv (extracted_reads acc) (total_reads acc);
  do r2 <- truediv (matched_reads acc) (total_reads acc);
  Ok {| summary_sample := sample_id;
        summary_total := total_reads acc;
        summary_extracted := extracted_reads acc;
        summary_extracted_rate := r1;
        summary_matched := matched_reads acc;
        summary_matched_rate := r2 |}.

(** [pd.DataFrame] of the five lists and the scalar [sample_id], with
    the [gRNA_combination] column added. *)
Fixpoint DataFrame (g1s g2s barcodes ids labels : list str) (sample_id : str)
  : list extracted_row :=
  match g1s, g2s, barcodes, ids, labels with
  | g1 :: g1s', g2 :: g2s', b :: barcodes', i :: ids', l :: labels' =>
      {| gRNA1 := g1; gRNA2 := g2; Clonal_barcode := b; Read_ID := i;
         Sample_ID := sample_id; Class := l;
         gRNA_combination := g1 ++ py "_" ++ g2 |}
      :: DataFrame g1s' g2s' barcodes' ids' labels' sample_id
  | _, _, _, _, _ => []
  end.

Definition Final_df_of (sample_id : str) (acc : collected) : list extracted_row :=
  DataFrame (gRNA1_list_out acc) (gRNA2_list_out acc)
            (clonal_barcode_list acc) (read_id_list acc) (label_list acc)
            sample_id.

Definition is_Unexpected (r : extracted_row) : bool :=
  str_eqb (Class r) Unexpected.

(** Everything the script writes. *)
Record outputs : Type := {
  stdout : summary;
  Unexpected_reads_csv : list extracted_row;
  Intermediate_df_csv : list extracted_row;
  Bartender_input_address : list str;
  bartender_files : list (str * list (str * str))
}.

Definition out_filename (output_dir group_name : str) : str :=
  output_dir ++ py "/Clonal_barcode/" ++ group_name ++ py ".bartender".

(** Line 132: [Final_df['gRNA1'] + '_' + Final_df['gRNA2']].  The
    columns of a frame built from empty lists are of type float64,
    and adding a string to such a column raises. *)
Definition add_gRNA_combination (Final_df : list extracted_row)
  : result (list extracted_row) :=
  match Final_df with
  | [] => Raise TypeError
  | _ :: _ => Ok Final_df
  end.

(** Lines 118 to 150: the summary, the two tables, the partition.
    When line 132 raises, the summary has been printed and no file
    written; what a run prints is kept only when it returns. *)
Definition report_and_write (output_dir sample_id : str) (acc : collected)
  : result outputs :=
  do line <- print_summary sample_id acc;
  do Final_df <- add_gRNA_combination (Final_df_of sample_id acc);
  let expected_df := filter (fun r => negb (is_Unexpected r)) Final_df in
  let sgRNA_groups :=
    groupby str_eq_dec str_leb (fun r => Some (gRNA_combination r))
            expected_df in
  Ok {| stdout := line;
        Unexpected_reads_csv := filter is_Unexpected Final_df;
        Intermediate_df_csv :=
          filter (fun r => negb (is_Unexpected r)) Final_df;
        Bartender_input_address :=
          map (fun g => out_filename output_dir (fst g)) sgRNA_groups;
        bartender_files :=
          map (fun g => (out_filename output_dir (fst g),
                         map (fun r => (Clonal_barcode r, Read_ID r)) (snd g)))
              sgRNA_groups |}.

(** Lines 74 to 116: the first record is read, then the loop runs.
    One iteration takes at least one line of the first file, so
    [S (length a1)] iterations are enough. *)
Definition extraction_loop (a1 a2 : list str) (gRNA1_list gRNA2_list : list str)
  : option collected :=
  while_loop (S (length a1)) gRNA1_list gRNA2_list
             (next_record a1 a2) collected_init.

Definition main (a1 a2 : list str) (ref_sgRNA_df : list ref_row)
           (output_dir : str) : option (result outputs) :=
  let gRNA1_list :=
    map gRNA_complete
        (filter (fun r => str_eqb (Position r) (py "G1")) ref_sgRNA_df) in
  let gRNA2_list :=
    map gRNA_complete
        (filter (fun r => str_eqb (Position r) (py "G2")) ref_sgRNA_df) in
  let sample_id := last (split "/"%char output_dir) [] in
  match extraction_loop a1 a2 gRNA1_list gRNA2_list with
  | Some acc => Some (report_and_write output_dir sample_id acc)
  | None => None
  end.
End dual_guide_parsing.

(** ** [dual_guide_aggregate.py] *)

Module dual_guide_aggregate.

(** [*_barcode.csv] *)
Record barcode_row : Type := {
  bc_Unique_reads : str;
  bc_Frequency : nat;
  bc_Cluster_ID : Z
}.

(** [*_cluster.csv] *)
Record cluster_row : Type := {
  cl_Cluster_ID : Z;
  cl_Center : str;
  cl_Cluster_Score : Z;
  cl_time_point_1 : nat
}.

(** [*.bartender], read with the column names of line 43. *)
Record bartender_row : Type := {
  bt_Clonal_barcode : str;
  bt_Read_ID : str
}.

(** [barcode_df] once [Frequency] is dropped. *)
Record barcode_df_row : Type := {
  bd_Unique_reads : str;
  bd_Cluster_ID : Z
}.

(** [cluster_df] once [Cluster.Score] and [time_point_1] are dropped. *)
Record cluster_df_row : Type := {
  cd_Cluster_ID : Z;
  cd_Center : str
}.

(** The inner join on [Cluster.ID], with the columns renamed. *)
Record joined_row : Type := {
  j_Clonal_barcode : str;
  j_Cluster_ID : Z;
  j_Clonal_barcode_center : str
}.

(** What [merge_barcode_and_sgRNA_output] returns. *)
Record merged_row : Type := {
  m_Clonal_barcode_center : option str;
  m_Clonal_barcode : str;
  m_Read_ID : str
}.

(** A row of [sgRNA_ref_df], the table [pd.read_csv] returns for
    [Intermediate_df.csv] at line 81.  A cell that is empty in the
    file, or holds one of the texts pandas takes for a missing value,
    is null: [None].  [Read_ID] and [Clonal_barcode] are the keys of
    the join of line 82. *)
Record reference_row : Type := {
  rf_gRNA1 : option str;
  rf_gRNA2 : option str;
  rf_Clonal_barcode : str;
  rf_Read_ID : str;
  rf_Sample_ID : option str;
  rf_Class : option str;
  rf_gRNA_combination : option str
}.

(** A row of [final_df], the unified table. *)
Record final_row : Type := {
  f_Clonal_barcode_center : option str;
  f_Clonal_barcode : str;
  f_Read_ID : str;
  f_gRNA1 : option str;
  f_gRNA2 : option str;
  f_Sample_ID : option str;
  f_Class : option str;
  f_gRNA_combination : option str
}.

(** A row of [deduplicated_raw]. *)
Record raw_row : Type := {
  raw_gRNA_combination : str;
  raw_Clonal_barcode_center : str;
  raw_gRNA1 : str;
  raw_gRNA2 : str;
  raw_Clonal_barcode : str;
  raw_Sample_ID : str;
  raw_Frequency : nat
}.

(** A row of [deduplicated_complete]; its [Clonal_barcode] is the
    renamed [Clonal_barcode_center]. *)
Record complete_row : Type := {
  cp_gRNA_combination : str;
  cp_Clonal_barcode : str;
  cp_gRNA1 : str;
  cp_gRNA2 : str;
  cp_Sample_ID : str;
  cp_Frequency : nat
}.

Definition drop_Frequency (r : barcode_row) : barcode_df_row :=
  {| bd_Unique_reads := bc_Unique_reads r; bd_Cluster_ID := bc_Cluster_ID r |}.

Definition drop_Score_time (r : cluster_row) : cluster_df_row :=
  {| cd_Cluster_ID := cl_Cluster_ID r; cd_Center := cl_Center r |}.

(** Line 46 and 47: [pd.merge(barcode_df, cluster_df, how='inner',
    on='Cluster.ID')], then the renaming. *)
Definition cluster_join (barcode_df : list barcode_df_row)
           (cluster_df : list cluster_df_row) : list joined_row :=
  flat_map
    (fun b =>
       map (fun c => {| j_Clonal_barcode := bd_Unique_reads b;
                        j_Cluster_ID := bd_Cluster_ID b;
                        j_Clonal_barcode_center := cd_Center c |})
           (filter (fun c => Z.eqb (bd_Cluster_ID b) (cd_Cluster_ID c))
                   cluster_df))
    barcode_df.

(** Line 49: [Cluster.ID] is dropped and the result is joined to
    [bartender_df] with [how='right']: a bartender row without a
    partner is kept, its center null. *)
Definition bartender_join (merged_df : list joined_row)
           (bartender_df : list bartender_row) : list merged_row :=
  flat_map
    (fun t =>
       match filter (fun j => str_eqb (j_Clonal_barcode j) (bt_Clonal_barcode t))
                    merged_df with
       | [] => [ {| m_Clonal_barcode_center := None;
                    m_Clonal_barcode := bt_Clonal_barcode t;
                    m_Read_ID := bt_Read_ID t |} ]
       | partners =>
           map (fun j => {| m_Clonal_barcode_center :=
                              Some (j_Clonal_barcode_center j);
                            m_Clonal_barcode := bt_Clonal_barcode t;
                            m_Read_ID := bt_Read_ID t |})
               partners
       end)
    bartender_df.

Definition merge_barcode_and_sgRNA_output
           (barcode_file : list barcode_row) (cluster_file : list cluster_row)
           (bartender_input_file : list bartender_row) : list merged_row :=
  let barcode_df := map drop_Frequency barcode_file in
  let cluster_df := map drop_Score_time cluster_file in
  let bartender_df := bartender_input_file in
  let merged_df := cluster_join barcode_df cluster_df in
  bartender_join merged_df bartender_df.

(** [pd.concat] raises on an empty list of frames. *)
Definition pd_concat {A} (frames : list (list A)) : result (list A) :=
  match frames with
  | [] => Raise ValueError
  | _ :: _ => Ok (concat frames)
  end.

(** Line 82: the inner join on [Read_ID] and [Clonal_barcode]. *)
Definition reference_join (combined_df : list merged_row)
           (sgRNA_ref_df : list reference_row) : list final_row :=
  flat_map
    (fun m =>
       map (fun r => {| f_Clonal_barcode_center := m_Clonal_barcode_center m;
                        f_Clonal_barcode := m_Clonal_barcode m;
                        f_Read_ID := m_Read_ID m;
                        f_gRNA1 := rf_gRNA1 r;
                        f_gRNA2 := rf_gRNA2 r;
                        f_Sample_ID := rf_Sample_ID r;
                        f_Class := rf_Class r;
                        f_gRNA_combination := rf_gRNA_combination r |})
           (filter (fun r => str_eqb (m_Read_ID m) (rf_Read_ID r)
                             && str_eqb (m_Clonal_barcode m)
                                        (rf_Clonal_barcode r))
                   sgRNA_ref_df))
    combined_df.

(** The key columns of the two groupings, in the order of
    [group_cols_raw] and [group_cols_complete]. *)
Definition complete_key : Type := str * str * str * str * str.
Definition raw_key : Type := str * str * str * str * str * str.

Definition complete_key_eq_dec : forall a b : complete_key, {a = b} + {a <> b} :=
  pair_eq_dec (pair_eq_dec (pair_eq_dec (pair_eq_dec str_eq_dec str_eq_dec)
                                        str_eq_dec) str_eq_dec) str_eq_dec.

Definition raw_key_eq_dec : forall a b : raw_key, {a = b} + {a <> b} :=
  pair_eq_dec
    (pair_eq_dec (pair_eq_dec (pair_eq_dec (pair_eq_dec str_eq_dec str_eq_dec)
                                           str_eq_dec) str_eq_dec) str_eq_dec)
    str_eq_dec.

Definition key4_leb : str * str * str * str -> str * str * str * str -> bool :=
  pair_leb (pair_eq_dec (pair_eq_dec str_eq_dec str_eq_dec) str_eq_dec)
    (pair_leb (pair_eq_dec str_eq_dec str_eq_dec)
       (pair_leb str_eq_dec str_leb str_leb) str_leb) str_leb.

Definition complete_key_leb : complete_key -> complete_key -> bool :=
  pair_leb (pair_eq_dec (pair_eq_dec (pair_eq_dec str_eq_dec str_eq_dec)
                                     str_eq_dec) str_eq_dec)
           key4_leb str_leb.

Definition raw_key_leb : raw_key -> raw_key -> bool :=
  pair_leb complete_key_eq_dec complete_key_leb str_leb.

(** The key of a row is null as soon as one of its columns is, and
    [groupby] then drops the row.  The raw barcode is the key of the
    joins of lines 49 and 82 and is text in every table. *)
Definition raw_key_of (r : final_row) : option raw_key :=
  match f_gRNA_combination r, f_Clonal_barcode_center r,
        f_gRNA1 r, f_gRNA2 r, f_Sample_ID r with
  | Some comb, Some center, Some g1, Some g2, Some sample =>
      Some (comb, center, g1, g2, f_Clonal_barcode r, sample)
  | _, _, _, _, _ => None
  end.

Definition complete_key_of (r : final_row) : option complete_key :=
  match f_gRNA_combination r, f_Clonal_barcode_center r,
        f_gRNA1 r, f_gRNA2 r, f_Sample_ID r with
  | Some comb, Some center, Some g1, Some g2, Some sample =>
      Some (comb, center, g1, g2, sample)
  | _, _, _, _, _ => None
  end.

(** [group['Read_ID'].count()]: the entries of the column that are
    not null; no [Read_ID] is. *)
Definition count_Read_ID (group_df : list final_row) : nat :=
  length (map f_Read_ID group_df).

Definition mk_raw_row (k : raw_key) (n : nat) : raw_row :=
  let '(comb, center, g1, g2, barcode, sample) := k in
  {| raw_gRNA_combination := comb; raw_Clonal_barcode_center := center;
     raw_gRNA1 := g1; raw_gRNA2 := g2; raw_Clonal_barcode := barcode;
     raw_Sample_ID := sample; raw_Frequency := n |}.

Definition mk_complete_row (k : complete_key) (n : nat) : complete_row :=
  let '(comb, center, g1, g2, sample) := k in
  {| cp_gRNA_combination := comb; cp_Clonal_barcode := center;
     cp_gRNA1 := g1; cp_gRNA2 := g2; cp_Sample_ID := sample;
     cp_Frequency := n |}.

(** Lines 85 to 87. *)
Definition deduplicate_raw (final_df : list final_row) : list raw_row :=
  map (fun g => mk_raw_row (fst g) (count_Read_ID (snd g)))
      (groupby raw_key_eq_dec raw_key_leb raw_key_of final_df).

(** Lines 89 to 91. *)
Definition deduplicate_complete (final_df : list final_row)
  : list complete_row :=
  map (fun g => mk_complete_row (fst g) (count_Read_ID (snd g)))
      (groupby complete_key_eq_dec complete_key_leb complete_key_of final_df).

(** The three files that belong to one [*_cluster.csv]. *)
Record partition_files : Type := {
  barcode_file : list barcode_row;
  cluster_file : list cluster_row;
  bartender_input_file : list bartender_row
}.

(** A sample folder: its name, the partitions the glob finds under
    it, and its [Intermediate_df.csv] as [pd.read_csv] returns it. *)
Record sample_folder : Type := {
  basename : str;
  barcode_files : list partition_files;
  ref_file : list reference_row
}.

(** Lines 70 to 82: the unified table of a sample. *)
Definition unified_table (input_folder : sample_folder)
  : result (list final_row) :=
  let barcode_dataframes :=
    map (fun p => merge_barcode_and_sgRNA_output
                    (barcode_file p) (cluster_file p) (bartender_input_file p))
        (barcode_files input_folder) in
  do combined_df <- pd_concat barcode_dataframes;
  let sgRNA_ref_df := ref_file input_folder in
  Ok (reference_join combined_df sgRNA_ref_df).

Definition combine_sgRNA_barcode_from_same_mouse (input_folder : sample_folder)
  : result (list raw_row * list complete_row) :=
  do final_df <- unified_table input_folder;
  Ok (deduplicate_raw final_df, deduplicate_complete final_df).

(** What [main] writes for one sample. *)
Record sample_output : Type := {
  sample_id : str;
  Combined_ND_df : list raw_row;
  Combined_deduplexed_df : list complete_row
}.

(** The loop of [main] over the sample folders: the files written so
    far and [final_dataframes]. *)
Fixpoint for_subfolders (subfolders : list sample_folder)
  : result (list sample_output * list (list complete_row)) :=
  match subfolders with
  | [] => Ok ([], [])
  | subfolder :: rest =>
      do dfs <- combine_sgRNA_barcode_from_same_mouse subfolder;
      do later <- for_subfolders rest;
      Ok ({| sample_id := basename subfolder;
             Combined_ND_df := fst dfs;
             Combined_deduplexed_df := snd dfs |} :: fst later,
          snd dfs :: snd later)
  end.

Record outputs : Type := {
  per_sample : list sample_output;
  gRNA_clonalbarcode_combined : list complete_row
}.

Definition main (subfolders : list sample_folder) : result outputs :=
  do done <- for_subfolders subfolders;
  do final_combined_df <- pd_concat (snd done);
  Ok {| per_sample := fst done; gRNA_clonalbarcode_combined := final_combined_df |}.
End dual_guide_aggregate.

(** ** Notions the statements use *)

Module Notions.
Import dual_guide_parsing.




(** The Watson-Crick complement as the specification words it:
    A and T swap, C and G swap, N stays, in both cases; any other
    character is left alone. *)
Definition watson_crick (c : ascii) : ascii :=
  if Ascii.eqb c "A" then "T" else if Ascii.eqb c "T" then "A"
  else if Ascii.eqb c "C" then "G" else if Ascii.eqb c "G" then "C"
  else if Ascii.eqb c "a" then "t" else if Ascii.eqb c "t" then "a"
  else if Ascii.eqb c "c" then "g" else if Ascii.eqb c "g" then "c"
  else c.

(** The outline of a pattern: the lengths of its anchors and the
    bounds of its captures. *)
Inductive part : Type :=
| Anchor (len : nat)
| Capture (lo hi : nat).

Definition shape (p : pattern) : list part :=
  map (fun i => match i with
                | Lit s => Anchor (length s)
                | Group lo hi => Capture lo hi
                end) p.

(** [matches p gs m]: the text [m] is an instance of [p] whose
    captures are [gs]. *)
Inductive matches : pattern -> list str -> str -> Prop :=
| matches_nil : matches [] [] []
| matches_lit l p gs m :
    matches p gs m -> matches (Lit l :: p) gs (l ++ m)
| matches_group lo hi p g gs m :
    lo <= length g <= hi -> forallb dot g = true ->
    matches p gs m -> matches (Group lo hi :: p) (g :: gs) (g ++ m).

(** The two instance formats, with their captures. *)
Definition capture (lo hi : nat) (g : str) : Prop :=
  lo <= length g <= hi /\ forallb dot g = true.

Definition mate1_instance (barcode g1 : str) : str :=
  py "TAGTT" ++ barcode ++ py "TATGG" ++ g1 ++ py "GTTTA".

Definition mate2_instance (g2 : str) : str :=
  py "TGTTG" ++ g2 ++ py "GTTTG".

(** The row the loop body appends for the record under the cursor,
    if its two patterns match. *)
Definition extract (gRNA1_list gRNA2_list : list str) (sample_id : str)
           (cur : cursor) : option extracted_row :=
  match search temp_pattern1 (seq1 cur), search temp_pattern2 (seq2 cur) with
  | Some match1, Some match2 =>
      let g1 := group match1 2 in
      let g2 := group match2 1 in
      Some {| gRNA1 := g1; gRNA2 := g2;
              Clonal_barcode := group match1 1;
              Read_ID := read_id cur;
              Sample_ID := sample_id;
              Class := if py_in g1 gRNA1_list && py_in g2 gRNA2_list
                       then Expected else Unexpected;
              gRNA_combination := g1 ++ py "_" ++ g2 |}
  | _, _ => None
  end.

(** The five output lists are filled together. *)
Definition aligned (acc : collected) : Prop :=
  length (gRNA2_list_out acc) = length (gRNA1_list_out acc)
  /\ length (clonal_barcode_list acc) = length (gRNA1_list_out acc)
  /\ length (read_id_list acc) = length (gRNA1_list_out acc)
  /\ length (label_list acc) = length (gRNA1_list_out acc).

(** The records the loop works on: from the cursor on, up to the
    first one whose identifier is empty. *)
Fixpoint records_from (fuel : nat) (cur : cursor) : list cursor :=
  match read_id cur with
  | [] => []
  | _ :: _ =>
      match fuel with
      | 0 => []
      | S fuel' =>
          cur :: records_from fuel' (next_record (handler1 cur) (handler2 cur))
      end
  end.

Definition records (a1 a2 : list str) : list cursor :=
  records_from (S (length a1)) (next_record a1 a2).

(** The loop body applied to a list of records in turn. *)
Definition run (gRNA1_list gRNA2_list : list str) (recs : list cursor)
           (acc : collected) : collected :=
  fold_left (fun a c => loop_body gRNA1_list gRNA2_list c a) recs acc.

Definition gRNA_list (position : string) (ref_sgRNA_df : list ref_row)
  : list str :=
  map gRNA_complete
      (filter (fun r => str_eqb (Position r) (py position)) ref_sgRNA_df).

Definition sample_id_of (output_dir : str) : str :=
  last (split "/"%char output_dir) [].

Definition is_Expected (r : extracted_row) : bool :=
  str_eqb (Class r) Expected.

(** The rows of the reads whose two patterns match, in read order. *)
Definition extracted (gRNA1_list gRNA2_list : list str) (sample_id : str)
           (recs : list cursor) : list extracted_row :=
  flat_map (fun c => match extract gRNA1_list gRNA2_list sample_id c with
                     | Some r => [r]
                     | None => []
                     end) recs.

Definition barcode_read_pair (r : extracted_row) : str * str :=
  (Clonal_barcode r, Read_ID r).

(** The four lines of a FASTQ record: identifier, sequence,
    separator, quality. *)
Definition fastq_record : Type := str * str * str * str.

Definition id_line (r : fastq_record) : str := fst (fst (fst r)).

Definition lines_of (recs : list fastq_record) : list str :=
  flat_map (fun r => let '(i, s, p, q) := r in [i; s; p; q]) recs.
End Notions.

(** Small inputs on which the statements are tried. *)
Module Fixtures.
Import dual_guide_parsing Notions.

Definition barcode : str := py "AAAACCCCGGGGTTTT".
Definition tag1 : str := py "ACGTACGTACGTACGTAC".
Definition tag2 : str := py "CCGGAATTCCGGAATTCCG".

Definition line (s : str) : str := s ++ ["010"%char].

Definition read1 : fastq_record :=
  (line (py "@read1"), line (mate1_instance barcode tag1),
   line (py "+"), line (py "IIII")).

Definition fastq1 : list str := lines_of [read1].

Definition fastq2 : list str :=
  [line (py "@read1");
   line (find_reverse_complementary (mate2_instance tag2));
   line (py "+"); line (py "IIII")].

Definition reference : list ref_row :=
  [ {| Position := py "G1"; gRNA_complete := tag1 |};
    {| Position := py "G2"; gRNA_complete := tag2 |} ].

Definition cursor1 : cursor := next_record fastq1 fastq2.
End Fixtures.

(** Notions and small inputs for the aggregation. *)
Module AggregateNotions.
Import dual_guide_aggregate.

Definition key_of_raw_row (x : raw_row) : raw_key :=
  (raw_gRNA_combination x, raw_Clonal_barcode_center x, raw_gRNA1 x,
   raw_gRNA2 x, raw_Clonal_barcode x, raw_Sample_ID x).

Definition key_of_complete_row (y : complete_row) : complete_key :=
  (cp_gRNA_combination y, cp_Clonal_barcode y, cp_gRNA1 y, cp_gRNA2 y,
   cp_Sample_ID y).

(** The key of the complete grouping that a key of the raw grouping
    falls under: the raw barcode is left out. *)
Definition drop_barcode (k : raw_key) : complete_key :=
  let '(comb, center, g1, g2, _, sample) := k in
  (comb, center, g1, g2, sample).

Definition raw_key_eqb (a b : raw_key) : bool :=
  if raw_key_eq_dec a b then true else false.

Definition complete_key_eqb (a b : complete_key) : bool :=
  if complete_key_eq_dec a b then true else false.

(** The unified rows that bear a key tuple. *)
Definition bearing_raw (k : raw_key) (final_df : list final_row)
  : list final_row :=
  filter (fun r => match raw_key_of r with
                   | Some k' => raw_key_eqb k' k
                   | None => false
                   end) final_df.

Definition bearing_complete (k : complete_key) (final_df : list final_row)
  : list final_row :=
  filter (fun r => match complete_key_of r with
                   | Some k' => complete_key_eqb k' k
                   | None => false
                   end) final_df.

Definition has_center (r : final_row) : bool :=
  match f_Clonal_barcode_center r with
  | Some _ => true
  | None => false
  end.

Definition notna {A} (cell : option A) : bool :=
  match cell with
  | Some _ => true
  | None => false
  end.

(** No key column of the row holds a null. *)
Definition has_full_key (r : final_row) : bool :=
  notna (f_gRNA_combination r) && notna (f_Clonal_barcode_center r)
  && notna (f_gRNA1 r) && notna (f_gRNA2 r) && notna (f_Sample_ID r).

(** A row of the intermediate table when [pd.read_csv] returns every
    cell as the text that was written: no cell is taken for a number
    or for a missing value. *)
Definition read_as_written (r : extracted_row) : reference_row :=
  {| rf_gRNA1 := Some (gRNA1 r); rf_gRNA2 := Some (gRNA2 r);
     rf_Clonal_barcode := Clonal_barcode r; rf_Read_ID := Read_ID r;
     rf_Sample_ID := Some (Sample_ID r); rf_Class := Some (Class r);
     rf_gRNA_combination := Some (gRNA_combination r) |}.

Definition total_Frequency_raw (t : list raw_row) : nat :=
  list_sum (map raw_Frequency t).

Definition total_Frequency_complete (t : list complete_row) : nat :=
  list_sum (map cp_Frequency t).

(** [df[df.Sample_ID == X]] on a complete table. *)
Definition filter_Sample_ID (X : str) (t : list complete_row)
  : list complete_row :=
  filter (fun y => str_eqb (cp_Sample_ID y) X) t.

(** A sample: two reads of one clone with two raw barcodes, and a
    third read whose barcode has no cluster. *)
Definition barcode_a : str := py "AAAACCCCGGGGTTTT".
Definition barcode_b : str := py "AAAACCCCGGGGTTTA".
Definition barcode_c : str := py "CCCCCCCCCCCCCCCC".
Definition tag1 : str := py "ACGTACGTACGTACGTAC".
Definition tag2 : str := py "CCGGAATTCCGGAATTCCG".

Definition intermediate_row (sample barcode read : str) : reference_row :=
  {| rf_gRNA1 := Some tag1; rf_gRNA2 := Some tag2;
     rf_Clonal_barcode := barcode; rf_Read_ID := read;
     rf_Sample_ID := Some sample; rf_Class := Some (py "Expected");
     rf_gRNA_combination := Some (tag1 ++ py "_" ++ tag2) |}.

(** The same row in a file whose [Sample_ID] cell is empty. *)
Definition nameless_row (barcode read : str) : reference_row :=
  {| rf_gRNA1 := Some tag1; rf_gRNA2 := Some tag2;
     rf_Clonal_barcode := barcode; rf_Read_ID := read;
     rf_Sample_ID := None; rf_Class := Some (py "Expected");
     rf_gRNA_combination := Some (tag1 ++ py "_" ++ tag2) |}.

Definition unmatched_entry : barcode_row :=
  {| bc_Unique_reads := barcode_c; bc_Frequency := 1; bc_Cluster_ID := 7 |}.

Definition clusters : list cluster_row :=
  [ {| cl_Cluster_ID := 1; cl_Center := barcode_a; cl_Cluster_Score := 0;
       cl_time_point_1 := 2 |} ].

Definition matched_entries : list barcode_row :=
  [ {| bc_Unique_reads := barcode_a; bc_Frequency := 1; bc_Cluster_ID := 1 |};
    {| bc_Unique_reads := barcode_b; bc_Frequency := 1; bc_Cluster_ID := 1 |} ].

Definition bartender : list bartender_row :=
  [ {| bt_Clonal_barcode := barcode_a; bt_Read_ID := py "@read1" |};
    {| bt_Clonal_barcode := barcode_b; bt_Read_ID := py "@read2" |};
    {| bt_Clonal_barcode := barcode_c; bt_Read_ID := py "@read3" |} ].

Definition folder (sample : str) : sample_folder :=
  {| basename := sample;
     barcode_files :=
       [ {| barcode_file := matched_entries ++ [unmatched_entry];
            cluster_file := clusters;
            bartender_input_file := bartender |} ];
     ref_file :=
       [ intermediate_row sample barcode_a (py "@read1");
         intermediate_row sample barcode_b (py "@read2");
         intermediate_row sample barcode_c (py "@read3") ] |}.
End AggregateNotions.

(** ** The paths of the aggregation, and further notions *)

Module Paths.
Import dual_guide_parsing.

(** [s.replace(old, new)]: the occurrences of [old] are replaced from
    the left, without overlap ([skip] characters of an occurrence
    just replaced are still to be passed over); an empty [old] puts
    [new] before every character and at the end. *)
Fixpoint replace_from (old new : str) (skip : nat) (s : str) : str :=
  match s with
  | [] => []
  | c :: s' =>
      match skip with
      | S k => replace_from old new k s'
      | 0 =>
          if startswith old s
          then new ++ replace_from old new (length old - 1) s'
          else c :: replace_from old new 0 s'
      end
  end.

Definition replace (old new s : str) : str :=
  match old with
  | [] => new ++ flat_map (fun c => c :: new) s
  | _ :: _ => replace_from old new 0 s
  end.

(** Line 72. *)
Definition barcode_file_of (cluster_file : str) : str :=
  replace (py "cluster") (py "barcode") cluster_file.

(** Line 73. *)
Definition bartender_input_file_of (cluster_file : str) : str :=
  replace (py "_cluster.csv") (py ".bartender") cluster_file.

(** Whether [old] occurs in [s] at a position below [n]. *)
Definition occurs_before (old s : str) (n : nat) : bool :=
  existsb (fun i => startswith old (skipn i s)) (seq 0 n).

(** [sep.join(parts)] *)
Fixpoint join (sep : str) (parts : list str) : str :=
  match parts with
  | [] => []
  | [w] => w
  | w :: ws => w ++ sep ++ join sep ws
  end.

(** A string that does not end in whitespace. *)
Definition ends_clean (s : str) : bool :=
  match rev s with
  | [] => true
  | c :: _ => negb (isspace c)
  end.

(** A total order given by a boolean comparison. *)
Definition total_order {K} (leb : K -> K -> bool) : Prop :=
  (forall a b, leb a b = true \/ leb b a = true)
  /\ (forall a b, leb a b = true -> leb b a = true -> a = b)
  /\ (forall a b c, leb a b = true -> leb b c = true -> leb a c = true).

Definition ascending {K} (leb : K -> K -> bool) (l : list K) : Prop :=
  StronglySorted (fun a b => leb a b = true) l.
End Paths.

(** * Properties *)

Import dual_guide_parsing Notions.

(** ** Strings and grouping *)

Lemma str_eqb_eq a b : str_eqb a b = true <-> a = b.
Proof. unfold str_eqb; destruct (str_eq_dec a b); split; congruence. Qed.

Lemma str_eqb_refl a : str_eqb a a = true.
Proof. now apply str_eqb_eq. Qed.

Lemma str_eqb_neq a b : str_eqb a b = false <-> a <> b.
Proof. unfold str_eqb; destruct (str_eq_dec a b); split; congruence. Qed.

Lemma py_in_In x l : py_in x l = true <-> In x l.
Proof.
  unfold py_in; rewrite existsb_exists; split.
  - intros [y [Hy E]]; apply str_eqb_eq in E; now subst.
  - intros H; exists x; split; [assumption | apply str_eqb_refl].
Qed.

Section GroupByFacts.
Variables (K : Type) (K_eq_dec : forall a b : K, {a = b} + {a <> b})
          (K_leb : K -> K -> bool).

Lemma insert_sorted_perm k l :
  Permutation (k :: l) (insert_sorted K_leb k l).
Proof.
  induction l as [|x l IH]; simpl; [reflexivity|].
  destruct (K_leb k x); [reflexivity|].
  rewrite perm_swap; now constructor.
Qed.

Lemma sort_keys_perm l : Permutation l (sort_keys K_leb l).
Proof.
  induction l as [|x l IH]; simpl; [constructor|].
  rewrite <- insert_sorted_perm; now constructor.
Qed.

Lemma group_keys_In l k : In k (group_keys K_eq_dec K_leb l) <-> In k l.
Proof.
  unfold group_keys; split; intros H.
  - apply (nodup_In K_eq_dec).
    eapply Permutation_in; [symmetry; apply sort_keys_perm | exact H].
  - eapply Permutation_in; [apply sort_keys_perm |].
    now apply nodup_In.
Qed.

Lemma group_keys_NoDup l : NoDup (group_keys K_eq_dec K_leb l).
Proof.
  unfold group_keys.
  eapply Permutation_NoDup; [apply sort_keys_perm | apply NoDup_nodup].
Qed.

Lemma filter_key_NoDup (l : list K) k :
  NoDup l ->
  filter (fun x => if K_eq_dec x k then true else false) l
  = if in_dec K_eq_dec k l then [k] else [].
Proof.
  induction 1 as [|x l Hx Hnd IH]; simpl; [reflexivity|].
  rewrite IH; destruct (K_eq_dec x k) as [->|Hne].
  - destruct (in_dec K_eq_dec k l); [contradiction | reflexivity].
  - destruct (in_dec K_eq_dec k l); reflexivity.
Qed.

Variables (A : Type) (key : A -> option K).

Lemma has_key_true k r : has_key K_eq_dec key k r = true <-> key r = Some k.
Proof.
  unfold has_key; destruct (key r) as [k'|]; [|split; discriminate].
  destruct (K_eq_dec k' k); split; congruence.
Qed.

Lemma non_null_keys_In rows k :
  In k (non_null_keys key rows) <-> exists r, In r rows /\ key r = Some k.
Proof.
  unfold non_null_keys; rewrite in_flat_map; split.
  - intros (r & Hr & Hk); exists r; split; [assumption|].
    destruct (key r); simpl in Hk; [|contradiction].
    destruct Hk as [->|[]]; reflexivity.
  - intros (r & Hr & Hk); exists r; split; [assumption|].
    rewrite Hk; now left.
Qed.

Lemma groupby_In rows k g :
  In (k, g) (groupby K_eq_dec K_leb key rows) <->
  (exists r, In r rows /\ key r = Some k)
  /\ g = filter (has_key K_eq_dec key k) rows.
Proof.
  unfold groupby; rewrite in_map_iff, <- non_null_keys_In; split.
  - intros (k' & [= -> <-] & Hk); split; [|reflexivity].
    exact (proj1 (group_keys_In _ _) Hk).
  - intros [Hk ->]; exists k; split; [reflexivity|].
    exact (proj2 (group_keys_In _ _) Hk).
Qed.

(** A key that occurs has exactly one group, a key that does not has
    none. *)
Lemma groupby_select rows k :
  filter (fun g => if K_eq_dec (fst g) k then true else false)
         (groupby K_eq_dec K_leb key rows)
  = if in_dec K_eq_dec k (non_null_keys key rows)
    then [(k, filter (has_key K_eq_dec key k) rows)] else [].
Proof.
  unfold groupby.
  set (f := fun k0 => (k0, filter (has_key K_eq_dec key k0) rows)).
  assert (E : forall l,
             filter (fun g => if K_eq_dec (fst g) k then true else false)
                    (map f l)
             = map f (filter (fun x => if K_eq_dec x k then true else false) l)).
  { induction l as [|x l IH]; simpl; [reflexivity|].
    destruct (K_eq_dec x k); simpl; now rewrite IH. }
  rewrite E, filter_key_NoDup by apply group_keys_NoDup.
  destruct (in_dec K_eq_dec k (group_keys K_eq_dec K_leb (non_null_keys key rows)))
    as [Hin|Hout];
    destruct (in_dec K_eq_dec k (non_null_keys key rows)) as [Hin'|Hout'];
    try reflexivity; exfalso.
  - apply Hout'; exact (proj1 (group_keys_In _ _) Hin).
  - apply Hout; exact (proj2 (group_keys_In _ _) Hin').
Qed.
End GroupByFacts.

(** ** The reverse complement *)

Lemma dict_get_watson_crick (c : ascii) :
  dict_get temp_dic c c = watson_crick c.
Proof.
  destruct c as [[] [] [] [] [] [] [] []]; reflexivity.
Qed.

Lemma watson_crick_involutive (c : ascii) :
  watson_crick (watson_crick c) = c.
Proof.
  destruct c as [[] [] [] [] [] [] [] []]; reflexivity.
Qed.



Lemma find_reverse_complementary_spec (s : str) :
  find_reverse_complementary s = map watson_crick (rev s).
Proof.
  unfold find_reverse_complementary.
  apply map_ext; intros c; apply dict_get_watson_crick.
Qed.

Lemma find_reverse_complementary_involutive (s : str) :
  find_reverse_complementary (find_reverse_complementary s) = s.
Proof.
  rewrite !find_reverse_complementary_spec.
  rewrite <- map_rev, rev_involutive, map_map.
  rewrite <- (map_id s) at 2.
  apply map_ext; intros c; apply watson_crick_involutive.
Qed.



(** ** The pattern matcher *)

Lemma startswith_app l r : startswith l (l ++ r) = true.
Proof.
  induction l as [|x l IH]; simpl; [reflexivity|].
  now rewrite Ascii.eqb_refl.
Qed.

Lemma startswith_inv l s :
  startswith l s = true -> s = l ++ skipn (length l) s.
Proof.
  revert s; induction l as [|x l IH]; intros [|y s]; simpl; try easy.
  intros H; apply andb_true_iff in H as [E H].
  apply Ascii.eqb_eq in E; subst y; f_equal; now apply IH.
Qed.

Lemma skipn_length_app {A} (l r : list A) : skipn (length l) (l ++ r) = r.
Proof. induction l; simpl; auto. Qed.

Lemma firstn_length_app {A} (l r : list A) : firstn (length l) (l ++ r) = l.
Proof. induction l; simpl; f_equal; auto. Qed.

Lemma try_group_sound k lo extra s r :
  try_group k lo extra s = Some r ->
  exists n gs,
    lo <= n <= lo + extra /\ n <= length s
    /\ forallb dot (firstn n s) = true
    /\ k (skipn n s) = Some gs /\ r = firstn n s :: gs.
Proof.
  revert r; induction extra as [|e IH]; intros r; simpl.
  - destruct ((lo + 0 <=? length s) && forallb dot (firstn (lo + 0) s)) eqn:G;
      [|discriminate].
    destruct (k (skipn (lo + 0) s)) as [gs|] eqn:Ek; [|discriminate].
    intros [= <-]; apply andb_true_iff in G as [G1 G2].
    apply Nat.leb_le in G1.
    exists (lo + 0), gs; repeat split; auto; lia.
  - destruct ((lo + S e <=? length s) && forallb dot (firstn (lo + S e) s))
      eqn:G.
    + destruct (k (skipn (lo + S e) s)) as [gs|] eqn:Ek.
      * intros [= <-]; apply andb_true_iff in G as [G1 G2].
        apply Nat.leb_le in G1.
        exists (lo + S e), gs; repeat split; auto; lia.
      * intros H; destruct (IH _ H) as (n & gs & Hn & rest).
        exists n, gs; split; [lia | exact rest].
    + intros H; destruct (IH _ H) as (n & gs & Hn & rest).
      exists n, gs; split; [lia | exact rest].
Qed.

Lemma try_group_complete k lo extra s n gs :
  lo <= n <= lo + extra -> n <= length s ->
  forallb dot (firstn n s) = true -> k (skipn n s) = Some gs ->
  exists r, try_group k lo extra s = Some r.
Proof.
  induction extra as [|e IH]; intros Hn Hlen Hdot Hk; simpl.
  - assert (n = lo + 0) by lia; subst n.
    apply Nat.leb_le in Hlen; rewrite Hlen, Hdot, Hk; simpl; eauto.
  - destruct ((lo + S e <=? length s) && forallb dot (firstn (lo + S e) s))
      eqn:G.
    + destruct (k (skipn (lo + S e) s)) as [gs'|] eqn:Ek; [eauto|].
      apply IH; auto.
      destruct (Nat.eq_dec n (lo + S e)) as [->|]; [congruence | lia].
    + apply IH; auto.
      destruct (Nat.eq_dec n (lo + S e)) as [->|]; [|lia].
      apply Nat.leb_le in Hlen; rewrite Hlen, Hdot in G; discriminate.
Qed.

Lemma match_here_sound p : forall s gs,
  match_here p s = Some gs ->
  exists m post, s = m ++ post /\ matches p gs m.
Proof.
  induction p as [|[l|lo hi] p IH]; intros s gs; simpl.
  - intros [= <-]; exists [], s; split; [reflexivity | constructor].
  - destruct (startswith l s) eqn:E; [|discriminate].
    intros H; destruct (IH _ _ H) as (m & post & Hs & Hm).
    exists (l ++ m), post; split; [|now constructor].
    rewrite <- app_assoc, <- Hs; now apply startswith_inv.
  - destruct (lo <=? hi) eqn:L; [|discriminate].
    apply Nat.leb_le in L.
    intros H; apply try_group_sound in H
      as (n & gs' & Hn & Hlen & Hdot & Hk & ->).
    destruct (IH _ _ Hk) as (m & post & Hs & Hm).
    exists (firstn n s ++ m), post; split.
    + rewrite <- app_assoc, <- Hs; symmetry; apply firstn_skipn.
    + constructor; auto.
      rewrite length_firstn, Nat.min_l by assumption; lia.
Qed.

Lemma match_here_complete p gs m :
  matches p gs m -> forall post, exists gs', match_here p (m ++ post) = Some gs'.
Proof.
  induction 1 as [|l p gs m _ IH|lo hi p g gs m Hb Hdot _ IH]; intros post;
    simpl.
  - eauto.
  - rewrite <- app_assoc, startswith_app, skipn_length_app; apply IH.
  - assert (L : (lo <=? hi) = true) by (apply Nat.leb_le; lia).
    rewrite L, <- app_assoc.
    destruct (IH post) as [gs' Hgs'].
    apply try_group_complete with (n := length g) (gs := gs').
    + lia.
    + rewrite length_app; lia.
    + now rewrite firstn_length_app.
    + now rewrite skipn_length_app.
Qed.

Lemma search_sound p : forall s gs,
  search p s = Some gs ->
  exists pre rest,
    s = pre ++ rest /\ match_here p rest = Some gs
    /\ forall i, i < length pre -> match_here p (skipn i s) = None.
Proof.
  induction s as [|c s IH]; intros gs; simpl.
  - destruct (match_here p []) as [gs'|] eqn:E; [|discriminate].
    intros [= <-]; exists [], []; repeat split; auto; simpl; lia.
  - destruct (match_here p (c :: s)) as [gs'|] eqn:E.
    + intros [= <-]; exists [], (c :: s); repeat split; auto; simpl; lia.
    + intros H; destruct (IH _ H) as (pre & rest & Hs & Hm & Hleft).
      exists (c :: pre), rest; repeat split; [now rewrite Hs | assumption |].
      intros [|i] Hi; simpl in *; [assumption | apply Hleft; lia].
Qed.

Lemma search_complete p pre : forall rest gs,
  match_here p rest = Some gs ->
  exists gs', search p (pre ++ rest) = Some gs'.
Proof.
  induction pre as [|c pre IH]; intros rest gs H; simpl.
  - destruct rest; simpl; rewrite H; eauto.
  - destruct (match_here p (c :: pre ++ rest)); eauto.
Qed.

(** A pattern is found in [s] exactly when [s] holds an instance of it
    somewhere; the captures returned are those of an instance. *)
Lemma search_matches p s gs :
  search p s = Some gs ->
  exists pre m post, s = pre ++ m ++ post /\ matches p gs m.
Proof.
  intros H; apply search_sound in H as (pre & rest & Hs & Hm & _).
  apply match_here_sound in Hm as (m & post & Hr & Hm).
  exists pre, m, post; split; [now rewrite <- Hr | assumption].
Qed.

Lemma matches_search p gs m pre post :
  matches p gs m -> exists gs', search p (pre ++ m ++ post) = Some gs'.
Proof.
  intros H; destruct (match_here_complete H post) as [gs' Hgs'].
  eapply search_complete; eassumption.
Qed.

Lemma matches_last_lit l : matches [Lit l] [] l.
Proof.
  rewrite <- (app_nil_r l) at 2; repeat constructor.
Qed.

Lemma matches_pattern1 gs m :
  matches temp_pattern1 gs m <->
  exists barcode g1,
    gs = [barcode; g1] /\ m = mate1_instance barcode g1
    /\ capture 16 16 barcode /\ capture 16 21 g1.
Proof.
  unfold temp_pattern1, mate1_instance, capture; split.
  - intros H.
    repeat match goal with
           | H : matches (_ :: _) _ _ |- _ => inversion H; clear H; subst
           | H : matches [] _ _ |- _ => inversion H; clear H; subst
           end.
    do 2 eexists; rewrite app_nil_r; repeat split; eauto; lia.
  - intros (barcode & g1 & -> & -> & [Hb1 Hb2] & [Hg1 Hg2]).
    apply matches_lit, matches_group; auto.
    apply matches_lit, matches_group; auto.
    apply matches_last_lit.
Qed.

Lemma matches_pattern2 gs m :
  matches temp_pattern2 gs m <->
  exists g2, gs = [g2] /\ m = mate2_instance g2 /\ capture 16 21 g2.
Proof.
  unfold temp_pattern2, mate2_instance, capture; split.
  - intros H.
    repeat match goal with
           | H : matches (_ :: _) _ _ |- _ => inversion H; clear H; subst
           | H : matches [] _ _ |- _ => inversion H; clear H; subst
           end.
    eexists; rewrite app_nil_r; repeat split; eauto; lia.
  - intros (g2 & -> & -> & [Hg1 Hg2]).
    apply matches_lit, matches_group; auto.
    apply matches_last_lit.
Qed.

(** C6, as the code has it.  The mate-1 pattern is a 5-character
    anchor, a capture of exactly 16 characters, a 5-character anchor,
    a capture of 16 to 21 characters and a 5-character anchor; the
    mate-2 pattern is a 5-character anchor, a capture of 16 to 21
    characters and a trailing anchor of 5 characters.  Each is found
    in a sequence exactly when the sequence holds an instance of it at
    some position, and the match returned is the one at the leftmost
    position that has a match. *)
Theorem C6_patterns_as_coded :
  shape temp_pattern1
  = [Anchor 5; Capture 16 16; Anchor 5; Capture 16 21; Anchor 5]
  /\ shape temp_pattern2 = [Anchor 5; Capture 16 21; Anchor 5]
  /\ (forall s,
        (exists gs, search temp_pattern1 s = Some gs) <->
        (exists pre barcode g1 post,
            capture 16 16 barcode /\ capture 16 21 g1
            /\ s = pre ++ mate1_instance barcode g1 ++ post))
  /\ (forall s,
        (exists gs, search temp_pattern2 s = Some gs) <->
        (exists pre g2 post,
            capture 16 21 g2 /\ s = pre ++ mate2_instance g2 ++ post))
  /\ (forall p s gs,
        search p s = Some gs ->
        exists pre rest,
          s = pre ++ rest /\ match_here p rest = Some gs
          /\ forall i, i < length pre -> match_here p (skipn i s) = None).
Proof.
  split; [reflexivity|]. split; [reflexivity|]. split; [|split].
  - intros s; split.
    + intros [gs H]; apply search_matches in H as (pre & m & post & -> & Hm).
      apply matches_pattern1 in Hm as (barcode & g1 & _ & -> & Hb & Hg).
      now exists pre, barcode, g1, post.
    + intros (pre & barcode & g1 & post & Hb & Hg & ->).
      apply matches_search with (gs := [barcode; g1]).
      apply matches_pattern1; exists barcode, g1; auto.
  - intros s; split.
    + intros [gs H]; apply search_matches in H as (pre & m & post & -> & Hm).
      apply matches_pattern2 in Hm as (g2 & _ & -> & Hg).
      now exists pre, g2, post.
    + intros (pre & g2 & post & Hg & ->).
      apply matches_search with (gs := [g2]).
      apply matches_pattern2; exists g2; auto.
  - apply search_sound.
Qed.

Lemma C6_witness :
  exists gs,
    search temp_pattern2
           (py "NN" ++ mate2_instance (py "CCGGAATTCCGGAATTCCG") ++ py "N")
    = Some gs.
Proof.
  apply (proj1 (proj2 (proj2 (proj2 C6_patterns_as_coded)))).
  exists (py "NN"), (py "CCGGAATTCCGGAATTCCG"), (py "N").
  split; [split; [simpl; lia | reflexivity] | reflexivity].
Defined.

(** C6 as stated fails: the trailing anchor of the mate-2 pattern has
    five characters, not four, and a tag followed by the four
    characters GTTT alone is not matched. *)
Lemma C6_counterexample :
  shape temp_pattern2 <> [Anchor 5; Capture 16 21; Anchor 4]
  /\ search temp_pattern2
            (py "TGTTG" ++ py "CCGGAATTCCGGAATTCCG" ++ py "GTTT" ++ py "A")
     = None
  /\ search temp_pattern2
            (py "TGTTG" ++ py "CCGGAATTCCGGAATTCCG" ++ py "GTTTG")
     = Some [py "CCGGAATTCCGGAATTCCG"].
Proof.
  split; [discriminate | split; reflexivity].
Qed.

(** ** One turn of the extraction loop *)

(** The eight [readline] calls take four lines from each file; the
    first two of the first file and the second of the second are kept. *)
Lemma next_record_eq h1 h2 :
  next_record h1 h2
  = {| handler1 := skipn 4 h1; handler2 := skipn 4 h2;
       read_id := rstrip (nth 0 h1 []);
       seq1 := rstrip (nth 1 h1 []);
       seq2 := find_reverse_complementary (rstrip (nth 1 h2 [])) |}.
Proof.
  destruct h1 as [|l1 [|l2 [|l3 [|l4 h1]]]];
    destruct h2 as [|k1 [|k2 [|k3 [|k4 h2]]]]; reflexivity.
Qed.

Lemma skipn_4_shorter {A} (l : list A) x :
  length (skipn 4 (x :: l)) < length (x :: l).
Proof. rewrite length_skipn; simpl; lia. Qed.

Section LoopBody.
Variables (gRNA1_list gRNA2_list : list str) (sample_id : str).

Let body := loop_body gRNA1_list gRNA2_list.
Let run := run gRNA1_list gRNA2_list.
Let row_of := extract gRNA1_list gRNA2_list sample_id.

Lemma DataFrame_snoc g1s : forall g2s barcodes ids labels g1 g2 b i l,
  length g2s = length g1s -> length barcodes = length g1s ->
  length ids = length g1s -> length labels = length g1s ->
  DataFrame (g1s ++ [g1]) (g2s ++ [g2]) (barcodes ++ [b]) (ids ++ [i])
            (labels ++ [l]) sample_id
  = DataFrame g1s g2s barcodes ids labels sample_id
    ++ [ {| gRNA1 := g1; gRNA2 := g2; Clonal_barcode := b; Read_ID := i;
            Sample_ID := sample_id; Class := l;
            gRNA_combination := g1 ++ py "_" ++ g2 |} ].
Proof.
  induction g1s as [|x g1s IH];
    intros [|x2 g2s] [|x3 barcodes] [|x4 ids] [|x5 labels]; simpl;
    try discriminate; intros g1 g2 b i l H2 H3 H4 H5; [reflexivity|].
  f_equal; apply IH; congruence.
Qed.

Lemma loop_body_aligned cur acc : aligned acc -> aligned (body cur acc).
Proof.
  unfold aligned, body, loop_body; intros (H2 & H3 & H4 & H5).
  destruct (search temp_pattern1 (seq1 cur)) as [m1|];
    [destruct (search temp_pattern2 (seq2 cur)) as [m2|]|]; simpl;
    rewrite ?length_app; simpl; lia.
Qed.

Lemma loop_body_total_reads cur acc :
  total_reads (body cur acc) = total_reads acc + 1.
Proof.
  unfold body, loop_body.
  destruct (search temp_pattern1 (seq1 cur)) as [m1|];
    [destruct (search temp_pattern2 (seq2 cur)) as [m2|]|]; reflexivity.
Qed.

Lemma loop_body_Final_df cur acc :
  aligned acc ->
  Final_df_of sample_id (body cur acc)
  = Final_df_of sample_id acc
    ++ match row_of cur with Some r => [r] | None => [] end.
Proof.
  unfold aligned, body, row_of, loop_body, extract, Final_df_of.
  intros (H2 & H3 & H4 & H5).
  destruct (search temp_pattern1 (seq1 cur)) as [m1|];
    [destruct (search temp_pattern2 (seq2 cur)) as [m2|]|]; simpl;
    rewrite ?app_nil_r; try reflexivity.
  now apply DataFrame_snoc.
Qed.

(** The loop body reads the cursor through its three fields only. *)
Lemma loop_body_ext cur cur' acc :
  read_id cur = read_id cur' -> seq1 cur = seq1 cur' ->
  seq2 cur = seq2 cur' -> body cur acc = body cur' acc.
Proof.
  unfold body, loop_body; intros -> -> ->; reflexivity.
Qed.

Lemma run_aligned recs : forall acc, aligned acc -> aligned (run recs acc).
Proof.
  induction recs as [|c recs IH]; intros acc H; simpl; [exact H|].
  apply IH, loop_body_aligned, H.
Qed.

Lemma run_total_reads recs : forall acc,
  total_reads (run recs acc) = total_reads acc + length recs.
Proof.
  induction recs as [|c recs IH]; intros acc; simpl; [lia|].
  unfold run in IH; rewrite IH.
  fold body; rewrite loop_body_total_reads; lia.
Qed.

Lemma run_Final_df recs : forall acc,
  aligned acc ->
  Final_df_of sample_id (run recs acc)
  = Final_df_of sample_id acc
    ++ flat_map (fun c => match row_of c with Some r => [r] | None => [] end)
                recs.
Proof.
  induction recs as [|c recs IH]; intros acc H; simpl.
  - now rewrite app_nil_r.
  - unfold run in IH; rewrite IH by now apply loop_body_aligned.
    fold body; rewrite loop_body_Final_df by assumption.
    now rewrite <- app_assoc.
Qed.

(** With fuel for every line of the first file the loop leaves
    through its condition, having worked on [records_from]. *)
Lemma while_loop_run fuel : forall cur acc,
  read_id cur = [] \/ length (handler1 cur) < fuel ->
  while_loop fuel gRNA1_list gRNA2_list cur acc
  = Some (run (records_from fuel cur) acc).
Proof.
  induction fuel as [|fuel IH]; intros cur acc Hfuel; simpl.
  - destruct Hfuel as [E|L]; [now rewrite E | lia].
  - destruct (read_id cur) as [|c rid] eqn:E; [reflexivity|].
    destruct Hfuel as [?|L]; [discriminate|].
    simpl; apply IH; rewrite next_record_eq; cbn [read_id handler1].
    destruct (handler1 cur) as [|l1 h1] eqn:Eh; [now left|].
    right; pose proof (skipn_4_shorter h1 l1); lia.
Qed.
End LoopBody.

Lemma extraction_loop_run a1 a2 gRNA1_list gRNA2_list :
  extraction_loop a1 a2 gRNA1_list gRNA2_list
  = Some (run gRNA1_list gRNA2_list (records a1 a2) collected_init).
Proof.
  unfold extraction_loop, records; apply while_loop_run.
  rewrite next_record_eq; cbn [read_id handler1].
  destruct a1 as [|l1 h1]; [now left|].
  right; pose proof (skipn_4_shorter h1 l1); lia.
Qed.

Lemma aligned_init : aligned collected_init.
Proof. repeat split. Qed.

Lemma Expected_neq_Unexpected : Expected <> Unexpected.
Proof. discriminate. Qed.

(** C3.  When the two patterns match the record under the cursor, the
    loop body appends exactly one row; its tags are the two captures
    and its label is [Expected] if and only if tag 1 is in the G1
    reference list and tag 2 in the G2 reference list, and
    [Unexpected] in every other case. *)
Theorem C3_classification gRNA1_list gRNA2_list sample_id cur acc match1 match2 :
  aligned acc ->
  search temp_pattern1 (seq1 cur) = Some match1 ->
  search temp_pattern2 (seq2 cur) = Some match2 ->
  exists r,
    Final_df_of sample_id (loop_body gRNA1_list gRNA2_list cur acc)
    = Final_df_of sample_id acc ++ [r]
    /\ gRNA1 r = group match1 2 /\ gRNA2 r = group match2 1
    /\ (Class r = Expected <->
        In (gRNA1 r) gRNA1_list /\ In (gRNA2 r) gRNA2_list)
    /\ (Class r = Unexpected <->
        ~ (In (gRNA1 r) gRNA1_list /\ In (gRNA2 r) gRNA2_list)).
Proof.
  intros Hal H1 H2.
  rewrite loop_body_Final_df by assumption.
  unfold extract; rewrite H1, H2.
  eexists; split; [reflexivity|]; simpl.
  split; [reflexivity|]. split; [reflexivity|].
  rewrite <- !py_in_In.
  pose proof Expected_neq_Unexpected as Hne.
  destruct (py_in (group match1 2) gRNA1_list),
           (py_in (group match2 1) gRNA2_list); simpl;
    intuition (try congruence; try discriminate).
Qed.

Lemma C3_witness :
  aligned collected_init
  /\ search temp_pattern1 (seq1 Fixtures.cursor1)
     = Some [Fixtures.barcode; Fixtures.tag1]
  /\ search temp_pattern2 (seq2 Fixtures.cursor1) = Some [Fixtures.tag2]
  /\ exists r,
      Final_df_of (py "S1")
        (loop_body [Fixtures.tag1] [Fixtures.tag2] Fixtures.cursor1
                   collected_init)
      = [r]
      /\ (Class r = Expected <->
          In (gRNA1 r) [Fixtures.tag1] /\ In (gRNA2 r) [Fixtures.tag2]).
Proof.
  assert (H1 : search temp_pattern1 (seq1 Fixtures.cursor1)
               = Some [Fixtures.barcode; Fixtures.tag1]) by reflexivity.
  assert (H2 : search temp_pattern2 (seq2 Fixtures.cursor1)
               = Some [Fixtures.tag2]) by reflexivity.
  split; [exact aligned_init|]. split; [exact H1|]. split; [exact H2|].
  destruct (@C3_classification [Fixtures.tag1] [Fixtures.tag2] (py "S1")
              Fixtures.cursor1 collected_init _ _ aligned_init H1 H2)
    as (r & Hdf & _ & _ & Hexp & _).
  exists r; split; [exact Hdf | exact Hexp].
Defined.

(** ** The whole extraction *)

Lemma main_run a1 a2 ref_sgRNA_df output_dir :
  main a1 a2 ref_sgRNA_df output_dir
  = Some (report_and_write output_dir (sample_id_of output_dir)
            (run (gRNA_list "G1" ref_sgRNA_df) (gRNA_list "G2" ref_sgRNA_df)
                 (records a1 a2) collected_init)).
Proof.
  unfold main; now rewrite extraction_loop_run.
Qed.

(** The script always comes to an end: with a result or with an
    exception. *)
Lemma main_returns a1 a2 ref_sgRNA_df output_dir :
  exists r, main a1 a2 ref_sgRNA_df output_dir = Some r.
Proof. rewrite main_run; eauto. Qed.

Lemma Final_df_run gRNA1_list gRNA2_list sample_id recs :
  Final_df_of sample_id (run gRNA1_list gRNA2_list recs collected_init)
  = extracted gRNA1_list gRNA2_list sample_id recs.
Proof.
  rewrite run_Final_df by apply aligned_init; reflexivity.
Qed.

Lemma extracted_Class gRNA1_list gRNA2_list sample_id recs r :
  In r (extracted gRNA1_list gRNA2_list sample_id recs) ->
  Class r = Expected \/ Class r = Unexpected.
Proof.
  unfold extracted; rewrite in_flat_map; intros (c & _ & Hr).
  unfold extract in Hr.
  destruct (search temp_pattern1 (seq1 c)); [|contradiction].
  destruct (search temp_pattern2 (seq2 c)); [|contradiction].
  destruct Hr as [<-|[]]; simpl.
  destruct (py_in _ _ && py_in _ _); auto.
Qed.

Lemma out_filename_inj output_dir k k' :
  out_filename output_dir k = out_filename output_dir k' -> k = k'.
Proof.
  unfold out_filename; intros H.
  apply app_inv_head, app_inv_head in H.
  now apply app_inv_tail in H.
Qed.

Lemma report_and_write_Ok output_dir sample_id acc o :
  report_and_write output_dir sample_id acc = Ok o ->
  let Final_df := Final_df_of sample_id acc in
  let expected_df := filter (fun r => negb (is_Unexpected r)) Final_df in
  let sgRNA_groups :=
    groupby str_eq_dec str_leb (fun r => Some (gRNA_combination r))
            expected_df in
  Unexpected_reads_csv o = filter is_Unexpected Final_df
  /\ Intermediate_df_csv o = expected_df
  /\ Bartender_input_address o
     = map (fun g => out_filename output_dir (fst g)) sgRNA_groups
  /\ bartender_files o
     = map (fun g => (out_filename output_dir (fst g),
                      map barcode_read_pair (snd g))) sgRNA_groups.
Proof.
  unfold report_and_write, add_gRNA_combination.
  destruct (print_summary sample_id acc) as [line|e]; simpl; [|discriminate].
  destruct (Final_df_of sample_id acc) as [|r df]; simpl; [discriminate|].
  intros [= <-]; simpl; auto.
Qed.

(** The script comes to its end only if a read was extracted. *)
Lemma report_and_write_rows output_dir sample_id acc o :
  report_and_write output_dir sample_id acc = Ok o ->
  Final_df_of sample_id acc <> [].
Proof.
  unfold report_and_write, add_gRNA_combination.
  destruct (print_summary sample_id acc) as [line|e]; simpl; [|discriminate].
  destruct (Final_df_of sample_id acc) as [|r df]; simpl; discriminate.
Qed.

(** C1, as the code has it.  Of the reads whose two patterns match,
    those labelled [Expected], and only those, are written to the
    intermediate file and partitioned by combination key into the
    bartender files, each file holding the (barcode, read identifier)
    pairs of its key in read order and being listed in the manifest;
    those labelled [Unexpected] go to the file of unexpected reads
    only. *)
Theorem C1_expected_reads_go_downstream a1 a2 ref_sgRNA_df output_dir o :
  main a1 a2 ref_sgRNA_df output_dir = Some (Ok o) ->
  let rows :=
    extracted (gRNA_list "G1" ref_sgRNA_df) (gRNA_list "G2" ref_sgRNA_df)
              (sample_id_of output_dir) (records a1 a2) in
  Intermediate_df_csv o = filter is_Expected rows
  /\ Unexpected_reads_csv o = filter is_Unexpected rows
  /\ (forall key,
        (exists r, In r (Intermediate_df_csv o) /\ gRNA_combination r = key)
        <-> exists pairs,
            In (out_filename output_dir key, pairs) (bartender_files o))
  /\ (forall key pairs,
        In (out_filename output_dir key, pairs) (bartender_files o) ->
        pairs = map barcode_read_pair
                    (filter (fun r => str_eqb (gRNA_combination r) key)
                            (Intermediate_df_csv o)))
  /\ Bartender_input_address o = map fst (bartender_files o).
Proof.
  rewrite main_run; intros [= H]; intros rows.
  apply report_and_write_Ok in H; cbv zeta in H.
  rewrite Final_df_run in H; fold rows in H.
  destruct H as (Hun & Hint & Haddr & Hfiles).
  assert (Hexp : filter (fun r => negb (is_Unexpected r)) rows
                 = filter is_Expected rows).
  { apply filter_ext_in; intros r Hr.
    unfold is_Unexpected, is_Expected.
    destruct (extracted_Class Hr) as [-> | ->]; reflexivity. }
  rewrite Hexp in *.
  split; [exact Hint|]. split; [exact Hun|].
  rewrite Hint, Hfiles, Haddr.
  set (groups := groupby str_eq_dec str_leb
                         (fun r => Some (gRNA_combination r))
                         (filter is_Expected rows)).
  assert (Hgroup : forall key pairs,
             In (out_filename output_dir key, pairs)
                (map (fun g => (out_filename output_dir (fst g),
                                map barcode_read_pair (snd g))) groups)
             <-> (exists r, In r (filter is_Expected rows)
                            /\ gRNA_combination r = key)
                 /\ pairs = map barcode_read_pair
                                (filter (fun r => str_eqb (gRNA_combination r) key)
                                        (filter is_Expected rows))).
  { intros key pairs; rewrite in_map_iff; split.
    - intros ([k g] & [= Hk <-] & Hg); simpl in *.
      apply out_filename_inj in Hk; subst k.
      apply groupby_In in Hg as [(r & Hr & [= Hkey]) ->]; eauto.
    - intros [(r & Hr & Hkey) ->].
      eexists (key, _); split; [reflexivity|].
      apply groupby_In; split; [|reflexivity].
      exists r; split; [assumption | now rewrite Hkey]. }
  repeat split.
  - intros Hr; eexists; apply Hgroup; split; [exact Hr | reflexivity].
  - intros [pairs Hp]; now apply Hgroup in Hp.
  - intros key pairs Hp; now apply Hgroup in Hp.
  - now rewrite map_map.
Qed.

Lemma C1_witness :
  exists o,
    main Fixtures.fastq1 Fixtures.fastq2 Fixtures.reference (py "out/S1")
    = Some (Ok o)
    /\ Intermediate_df_csv o
       = filter is_Expected
           (extracted (gRNA_list "G1" Fixtures.reference)
                      (gRNA_list "G2" Fixtures.reference)
                      (sample_id_of (py "out/S1"))
                      (records Fixtures.fastq1 Fixtures.fastq2)).
Proof.
  eexists; split; [reflexivity|].
  refine (proj1 (@C1_expected_reads_go_downstream Fixtures.fastq1
                   Fixtures.fastq2 Fixtures.reference (py "out/S1") _ _)).
  reflexivity.
Defined.

(** C1 as stated fails: a read whose two patterns match but whose tags
    are in no reference list is labelled [Unexpected]; it is written to
    the file of unexpected reads, and neither to the intermediate file
    nor to any bartender file. *)
Lemma C1_counterexample :
  exists o r,
    main Fixtures.fastq1 Fixtures.fastq2 [] (py "out/S1") = Some (Ok o)
    /\ search temp_pattern1 (seq1 Fixtures.cursor1)
       = Some [Fixtures.barcode; Fixtures.tag1]
    /\ search temp_pattern2 (seq2 Fixtures.cursor1) = Some [Fixtures.tag2]
    /\ records Fixtures.fastq1 Fixtures.fastq2 = [Fixtures.cursor1]
    /\ extract [] [] (py "S1") Fixtures.cursor1 = Some r
    /\ Class r = Unexpected
    /\ Unexpected_reads_csv o = [r]
    /\ Intermediate_df_csv o = []
    /\ bartender_files o = []
    /\ Bartender_input_address o = [].
Proof.
  do 2 eexists; repeat split; reflexivity.
Qed.

(** C5.  On an empty first stream the total is zero and the summary
    divides by it: the script raises [ZeroDivisionError] and writes
    nothing. *)
Theorem C5_empty_stream_raises a2 ref_sgRNA_df output_dir :
  main [] a2 ref_sgRNA_df output_dir = Some (Raise ZeroDivisionError).
Proof.
  rewrite main_run; unfold records; rewrite next_record_eq; reflexivity.
Qed.

(** The summary raises exactly when no read was counted. *)
Lemma main_raises_iff a1 a2 ref_sgRNA_df output_dir :
  main a1 a2 ref_sgRNA_df output_dir = Some (Raise ZeroDivisionError)
  <-> records a1 a2 = [].
Proof.
  rewrite main_run; unfold report_and_write, print_summary.
  rewrite run_total_reads.
  destruct (records a1 a2) as [|c recs].
  - split; reflexivity.
  - replace (total_reads collected_init + length (c :: recs))
      with (S (length recs)) by (simpl; lia).
    unfold add_gRNA_combination; simpl.
    destruct (Final_df_of _ _); simpl; split; discriminate.
Qed.

(** How the script ends: on the division of the summary when no read
    was counted, on the sum of line 132 when reads were counted and
    none was extracted, with its files otherwise. *)
Lemma main_outcome a1 a2 ref_sgRNA_df output_dir :
  match records a1 a2,
        extracted (gRNA_list "G1" ref_sgRNA_df) (gRNA_list "G2" ref_sgRNA_df)
                  (sample_id_of output_dir) (records a1 a2) with
  | [], _ =>
      main a1 a2 ref_sgRNA_df output_dir = Some (Raise ZeroDivisionError)
  | _ :: _, [] =>
      main a1 a2 ref_sgRNA_df output_dir = Some (Raise TypeError)
  | _ :: _, _ :: _ =>
      exists o, main a1 a2 ref_sgRNA_df output_dir = Some (Ok o)
  end.
Proof.
  rewrite main_run; unfold report_and_write, print_summary.
  rewrite run_total_reads, Final_df_run.
  destruct (records a1 a2) as [|c recs]; [reflexivity|].
  replace (total_reads collected_init + length (c :: recs))
    with (S (length recs)) by (simpl; lia).
  unfold add_gRNA_combination; simpl truediv; cbn [bind].
  destruct (extracted _ _ _ (c :: recs)); simpl; eauto.
Qed.

(** ** A blank identifier line ends the loop *)

Section BlankIdentifier.
Variables gRNA1_list gRNA2_list : list str.

Lemma while_loop_exit fuel cur acc :
  read_id cur = [] ->
  while_loop fuel gRNA1_list gRNA2_list cur acc = Some acc.
Proof. intros H; destruct fuel; simpl; now rewrite H. Qed.

Lemma while_loop_step fuel cur acc :
  read_id cur <> [] ->
  while_loop (S fuel) gRNA1_list gRNA2_list cur acc
  = while_loop fuel gRNA1_list gRNA2_list
      (next_record (handler1 cur) (handler2 cur))
      (loop_body gRNA1_list gRNA2_list cur acc).
Proof. intros H; simpl; destruct (read_id cur); congruence. Qed.

Lemma firstn_agree_nth (h h' : list str) k i :
  firstn k h = firstn k h' -> i < k -> nth i h [] = nth i h' [].
Proof.
  intros H Hi.
  assert (E : forall l : list str, nth i l [] = nth i (firstn k l) []).
  { intros l; rewrite nth_firstn.
    apply Nat.ltb_lt in Hi; now rewrite Hi. }
  now rewrite (E h), (E h'), H.
Qed.

Lemma firstn_agree_skipn (h h' : list str) n m :
  firstn (n + m) h = firstn (n + m) h' ->
  firstn m (skipn n h) = firstn m (skipn n h').
Proof. intros H; now rewrite !firstn_skipn_comm, H. Qed.

Lemma while_loop_prefix recs : forall tail tail' h2 h2' acc fuel fuel',
  Forall (fun r => rstrip (id_line r) <> []) recs ->
  rstrip (nth 0 tail []) = [] -> rstrip (nth 0 tail' []) = [] ->
  firstn (4 * length recs) h2 = firstn (4 * length recs) h2' ->
  length recs <= fuel -> length recs <= fuel' ->
  exists acc',
    while_loop fuel gRNA1_list gRNA2_list
               (next_record (lines_of recs ++ tail) h2) acc = Some acc'
    /\ while_loop fuel' gRNA1_list gRNA2_list
                  (next_record (lines_of recs ++ tail') h2') acc = Some acc'
    /\ total_reads acc' = total_reads acc + length recs.
Proof.
  induction recs as [|[[[i s] p] q] recs IH];
    intros tail tail' h2 h2' acc fuel fuel' Hids Ht Ht' Hh2 Hf Hf'.
  - exists acc; simpl lines_of; simpl app.
    rewrite !while_loop_exit by (rewrite next_record_eq; assumption).
    repeat split; simpl; lia.
  - inversion Hids as [|r rs Hi Hrest]; subst; unfold id_line in Hi;
      simpl in Hi.
    unfold fastq_record in *.
    destruct fuel as [|fuel]; [simpl in Hf; lia|].
    destruct fuel' as [|fuel']; [simpl in Hf'; lia|].
    change (lines_of ((i, s, p, q) :: recs))
      with (i :: s :: p :: q :: lines_of recs).
    rewrite !next_record_eq.
    rewrite !while_loop_step by assumption.
    cbn [handler1 handler2].
    change (skipn 4 (i :: s :: p :: q :: lines_of recs ++ tail))
      with (lines_of recs ++ tail).
    change (skipn 4 (i :: s :: p :: q :: lines_of recs ++ tail'))
      with (lines_of recs ++ tail').
    assert (E : 4 * length ((i, s, p, q) :: recs) = 4 + 4 * length recs)
      by (unfold fastq_record; simpl; lia).
    rewrite E in Hh2; clear E.
    assert (Hseq : nth 1 h2 [] = nth 1 h2' [])
      by (apply (firstn_agree_nth Hh2); lia).
    apply firstn_agree_skipn in Hh2.
    cbn [length] in Hf, Hf'.
    match goal with
    | |- context [while_loop fuel _ _ _ (loop_body _ _ ?c acc)] =>
        set (cur := c)
    end.
    match goal with
    | |- context [while_loop fuel' _ _ _ (loop_body _ _ ?c acc)] =>
        set (cur' := c)
    end.
    assert (Hbody : loop_body gRNA1_list gRNA2_list cur' acc
                    = loop_body gRNA1_list gRNA2_list cur acc).
    { apply loop_body_ext; unfold cur, cur'; cbn [read_id seq1 seq2];
        [reflexivity | reflexivity | now rewrite Hseq]. }
    rewrite Hbody.
    destruct (IH tail tail' (skipn 4 h2) (skipn 4 h2')
                 (loop_body gRNA1_list gRNA2_list cur acc)
                 fuel fuel' Hrest Ht Ht' Hh2 ltac:(lia) ltac:(lia))
      as (acc' & H1 & H2 & Htot).
    exists acc'; split; [exact H1|]; split; [exact H2|].
    rewrite Htot, loop_body_total_reads; unfold fastq_record; simpl; lia.
Qed.
End BlankIdentifier.

(** C10.  When the first file holds [n] records with a non-blank
    identifier and then a line that is blank once stripped where an
    identifier is due, the loop stops there: it counts [n] reads, and
    what it collects, hence everything the script reports and writes,
    is what it would be had both files ended after those [n] records,
    whatever follows the blank line in the first file and whatever the
    second file holds from its record [n + 1] on. *)
Theorem C10_blank_identifier_truncates
        (recs : list fastq_record) (blank : str) (rest a2 : list str)
        (ref_sgRNA_df : list ref_row) (output_dir : str) :
  Forall (fun r => rstrip (id_line r) <> []) recs ->
  rstrip blank = [] ->
  (exists acc,
      extraction_loop (lines_of recs ++ blank :: rest) a2
                      (gRNA_list "G1" ref_sgRNA_df) (gRNA_list "G2" ref_sgRNA_df)
      = Some acc
      /\ extraction_loop (lines_of recs) (firstn (4 * length recs) a2)
                         (gRNA_list "G1" ref_sgRNA_df)
                         (gRNA_list "G2" ref_sgRNA_df)
         = Some acc
      /\ total_reads acc = length recs)
  /\ main (lines_of recs ++ blank :: rest) a2 ref_sgRNA_df output_dir
     = main (lines_of recs) (firstn (4 * length recs) a2) ref_sgRNA_df
            output_dir.
Proof.
  intros Hids Hblank.
  assert (Hlen : length (lines_of recs) = 4 * length recs).
  { clear; induction recs as [|[[[i s] p] q] recs IH]; simpl in *; lia. }
  destruct (@while_loop_prefix
              (gRNA_list "G1" ref_sgRNA_df) (gRNA_list "G2" ref_sgRNA_df)
              recs (blank :: rest) [] a2 (firstn (4 * length recs) a2)
              collected_init
              (S (length (lines_of recs ++ blank :: rest)))
              (S (length (lines_of recs)))
              Hids Hblank eq_refl)
    as (acc & H1 & H2 & Htot).
  - now rewrite firstn_firstn, Nat.min_id.
  - rewrite length_app; lia.
  - lia.
  - rewrite app_nil_r in H2.
    assert (E1 : extraction_loop (lines_of recs ++ blank :: rest) a2
                   (gRNA_list "G1" ref_sgRNA_df) (gRNA_list "G2" ref_sgRNA_df)
                 = Some acc) by exact H1.
    assert (E2 : extraction_loop (lines_of recs) (firstn (4 * length recs) a2)
                   (gRNA_list "G1" ref_sgRNA_df) (gRNA_list "G2" ref_sgRNA_df)
                 = Some acc) by exact H2.
    split.
    + exists acc; repeat split; assumption.
    + unfold main; fold (gRNA_list "G1" ref_sgRNA_df);
        fold (gRNA_list "G2" ref_sgRNA_df).
      now rewrite E1, E2.
Qed.

Lemma C10_witness :
  Forall (fun r => rstrip (id_line r) <> []) [Fixtures.read1]
  /\ rstrip (Fixtures.line (py " ")) = []
  /\ main (lines_of [Fixtures.read1] ++ Fixtures.line (py " ") :: Fixtures.fastq1)
          (Fixtures.fastq2 ++ Fixtures.fastq2) Fixtures.reference (py "out/S1")
     = main (lines_of [Fixtures.read1])
            (firstn (4 * length [Fixtures.read1])
                    (Fixtures.fastq2 ++ Fixtures.fastq2))
            Fixtures.reference (py "out/S1").
Proof.
  assert (H : Forall (fun r => rstrip (id_line r) <> []) [Fixtures.read1]).
  { constructor; [|constructor]. intros E; vm_compute in E; discriminate E. }
  assert (B : rstrip (Fixtures.line (py " ")) = []) by reflexivity.
  split; [exact H|]. split; [exact B|].
  exact (proj2 (@C10_blank_identifier_truncates [Fixtures.read1]
                  (Fixtures.line (py " ")) Fixtures.fastq1
                  (Fixtures.fastq2 ++ Fixtures.fastq2) Fixtures.reference
                  (py "out/S1") H B)).
Defined.

(** * The aggregation *)

Import dual_guide_aggregate AggregateNotions.

(** ** Counting by group *)

Section GroupByCount.
Variables (K : Type) (K_eq_dec : forall a b : K, {a = b} + {a <> b})
          (K_leb : K -> K -> bool) (A : Type) (key : A -> option K).

Let has := has_key K_eq_dec key.

Lemma list_sum_map_add {B} (f g : B -> nat) l :
  list_sum (map (fun x => f x + g x) l)
  = list_sum (map f l) + list_sum (map g l).
Proof. induction l as [|x l IH]; simpl; lia. Qed.

Lemma list_sum_indicator (ks : list K) (P : K -> bool) k0 :
  NoDup ks -> In k0 ks ->
  list_sum (map (fun k => if K_eq_dec k0 k then 1 else 0) (filter P ks))
  = if P k0 then 1 else 0.
Proof.
  induction 1 as [|k ks Hk Hnd IH]; intros Hin; [contradiction|].
  simpl; destruct Hin as [->|Hin].
  - assert (Z : list_sum (map (fun k => if K_eq_dec k0 k then 1 else 0)
                              (filter P ks)) = 0).
    { clear -Hk; induction ks as [|x ks IH]; simpl; [reflexivity|].
      destruct (P x); simpl.
      - destruct (K_eq_dec k0 x) as [->|_]; [exfalso; apply Hk; now left|].
        apply IH; intros H; apply Hk; now right.
      - apply IH; intros H; apply Hk; now right. }
    destruct (P k0); simpl; [|exact Z].
    destruct (K_eq_dec k0 k0); [lia | congruence].
  - destruct (P k) eqn:Pk; simpl; [|now apply IH].
    destruct (K_eq_dec k0 k) as [->|_]; [contradiction|].
    now apply IH.
Qed.

(** The groups of the keys that satisfy [P] hold, between them, the
    rows whose key satisfies [P], each once. *)
Lemma group_sizes_sum (ks : list K) (P : K -> bool) rows :
  NoDup ks ->
  (forall r k, In r rows -> key r = Some k -> In k ks) ->
  list_sum (map (fun k => length (filter (has k) rows)) (filter P ks))
  = length (filter (fun r => match key r with
                             | Some k => P k
                             | None => false
                             end) rows).
Proof.
  intros Hnd; induction rows as [|r rows IH]; intros Hcover.
  - simpl; induction (filter P ks); simpl; auto.
  - assert (IH' := IH (fun r' k H => Hcover r' k (or_intror H))); clear IH.
    destruct (key r) as [k0|] eqn:Ek.
    + rewrite map_ext
        with (g := fun k => (if K_eq_dec k0 k then 1 else 0)
                            + length (filter (has k) rows)).
      2:{ intros k; simpl; unfold has at 1, has_key; rewrite Ek.
          destruct (K_eq_dec k0 k); reflexivity. }
      rewrite list_sum_map_add, IH', list_sum_indicator
        by (eauto using in_eq).
      simpl; rewrite Ek; destruct (P k0); simpl; lia.
    + rewrite map_ext
        with (g := fun k => length (filter (has k) rows)).
      2:{ intros k; simpl; unfold has at 1, has_key; now rewrite Ek. }
      simpl; rewrite Ek; exact IH'.
Qed.

Lemma non_null_keys_filter rows :
  non_null_keys key
    (filter (fun r => match key r with Some _ => true | None => false end)
            rows)
  = non_null_keys key rows.
Proof.
  induction rows as [|r rows IH]; simpl; [reflexivity|].
  destruct (key r) eqn:E; simpl; rewrite ?E, IH; reflexivity.
Qed.

(** Grouping does not see the rows whose key is null. *)
Lemma groupby_dropna rows :
  groupby K_eq_dec K_leb key
    (filter (fun r => match key r with Some _ => true | None => false end)
            rows)
  = groupby K_eq_dec K_leb key rows.
Proof.
  unfold groupby; rewrite non_null_keys_filter.
  apply map_ext; intros k; f_equal.
  induction rows as [|r rows IH]; simpl; [reflexivity|].
  assert (Hr : forall b, key r = Some b ->
               has_key K_eq_dec key k r
               = if K_eq_dec b k then true else false)
    by (intros b E; unfold has_key; now rewrite E).
  assert (Hn : key r = None -> has_key K_eq_dec key k r = false)
    by (intros E; unfold has_key; now rewrite E).
  destruct (key r) as [k0|]; simpl.
  - rewrite (Hr k0 eq_refl).
    destruct (K_eq_dec k0 k); now rewrite IH.
  - rewrite (Hn eq_refl); exact IH.
Qed.
End GroupByCount.

(** ** The two frequency tables *)

Lemma key_of_mk_raw_row k n : key_of_raw_row (mk_raw_row k n) = k.
Proof. destruct k as [[[[[c1 c2] c3] c4] c5] c6]; reflexivity. Qed.

Lemma Frequency_mk_raw_row k n : raw_Frequency (mk_raw_row k n) = n.
Proof. destruct k as [[[[[c1 c2] c3] c4] c5] c6]; reflexivity. Qed.

Lemma key_of_mk_complete_row k n : key_of_complete_row (mk_complete_row k n) = k.
Proof. destruct k as [[[[c1 c2] c3] c4] c5]; reflexivity. Qed.

Lemma Frequency_mk_complete_row k n : cp_Frequency (mk_complete_row k n) = n.
Proof. destruct k as [[[[c1 c2] c3] c4] c5]; reflexivity. Qed.

Lemma complete_key_of_raw_key r :
  complete_key_of r = option_map drop_barcode (raw_key_of r).
Proof.
  unfold complete_key_of, raw_key_of.
  destruct (f_gRNA_combination r), (f_Clonal_barcode_center r),
    (f_gRNA1 r), (f_gRNA2 r), (f_Sample_ID r); reflexivity.
Qed.

Lemma deduplicate_raw_eq final_df :
  deduplicate_raw final_df
  = map (fun k => mk_raw_row k (length (bearing_raw k final_df)))
        (group_keys raw_key_eq_dec raw_key_leb
                    (non_null_keys raw_key_of final_df)).
Proof.
  unfold deduplicate_raw, groupby; rewrite map_map.
  apply map_ext; intros k; simpl.
  unfold count_Read_ID; now rewrite length_map.
Qed.

Lemma deduplicate_complete_eq final_df :
  deduplicate_complete final_df
  = map (fun k => mk_complete_row k (length (bearing_complete k final_df)))
        (group_keys complete_key_eq_dec complete_key_leb
                    (non_null_keys complete_key_of final_df)).
Proof.
  unfold deduplicate_complete, groupby; rewrite map_map.
  apply map_ext; intros k; simpl.
  unfold count_Read_ID; now rewrite length_map.
Qed.






(** [combine_sgRNA_barcode_from_same_mouse] returns its two tables as
    soon as the glob finds a cluster file, and raises otherwise. *)
Lemma combine_returns input_folder :
  (barcode_files input_folder <> [] ->
   exists final_df,
     unified_table input_folder = Ok final_df
     /\ combine_sgRNA_barcode_from_same_mouse input_folder
        = Ok (deduplicate_raw final_df, deduplicate_complete final_df))
  /\ (barcode_files input_folder = [] ->
      combine_sgRNA_barcode_from_same_mouse input_folder = Raise ValueError).
Proof.
  unfold combine_sgRNA_barcode_from_same_mouse, unified_table.
  destruct (barcode_files input_folder) as [|p ps]; simpl; split;
    try congruence; eauto.
Qed.



(** ** Rows without a cluster center *)

Lemma bartender_join_app merged_df l1 l2 :
  bartender_join merged_df (l1 ++ l2)
  = bartender_join merged_df l1 ++ bartender_join merged_df l2.
Proof. unfold bartender_join; apply flat_map_app. Qed.

Lemma bartender_join_no_partner merged_df t :
  (forall j, In j merged_df -> j_Clonal_barcode j <> bt_Clonal_barcode t) ->
  bartender_join merged_df [t]
  = [ {| m_Clonal_barcode_center := None;
         m_Clonal_barcode := bt_Clonal_barcode t;
         m_Read_ID := bt_Read_ID t |} ].
Proof.
  intros H; unfold bartender_join; simpl.
  assert (E : filter (fun j => str_eqb (j_Clonal_barcode j) (bt_Clonal_barcode t))
                     merged_df = []).
  { induction merged_df as [|j l IH]; simpl; [reflexivity|].
    destruct (str_eqb (j_Clonal_barcode j) (bt_Clonal_barcode t)) eqn:E.
    - apply str_eqb_eq in E; exfalso; apply (H j); [now left | exact E].
    - apply IH; intros j' Hj'; apply H; now right. }
  now rewrite E.
Qed.

Lemma has_full_key_raw_key r :
  match raw_key_of r with Some _ => true | None => false end = has_full_key r.
Proof.
  unfold raw_key_of, has_full_key.
  destruct (f_gRNA_combination r), (f_Clonal_barcode_center r),
    (f_gRNA1 r), (f_gRNA2 r), (f_Sample_ID r); reflexivity.
Qed.

Lemma has_full_key_complete_key r :
  match complete_key_of r with Some _ => true | None => false end
  = has_full_key r.
Proof.
  rewrite complete_key_of_raw_key, <- has_full_key_raw_key.
  destruct (raw_key_of r); reflexivity.
Qed.

Lemma has_full_key_center r : has_full_key r = true -> has_center r = true.
Proof.
  unfold has_full_key, has_center.
  destruct (f_Clonal_barcode_center r); [reflexivity|].
  now rewrite andb_false_r.
Qed.

Lemma filter_all {A} (l : list A) : filter (fun _ => true) l = l.
Proof. induction l; simpl; congruence. Qed.

Lemma filter_filter {A} (f g : A -> bool) (l : list A) :
  filter f (filter g l) = filter (fun x => g x && f x) l.
Proof.
  induction l as [|x l IH]; simpl; [reflexivity|].
  destruct (g x); simpl; [destruct (f x)|]; now rewrite IH.
Qed.

Lemma filter_implies_length {A} (f g : A -> bool) (l : list A) :
  (forall x, f x = true -> g x = true) ->
  length (filter f l) <= length (filter g l).
Proof.
  intros H; induction l as [|x l IH]; simpl; [lia|].
  destruct (f x) eqn:F; [rewrite (H x F); simpl; lia|].
  destruct (g x); simpl; lia.
Qed.

Lemma full_key_rows_have_center final_df :
  filter has_full_key (filter has_center final_df)
  = filter has_full_key final_df.
Proof.
  rewrite filter_filter; apply filter_ext; intros r.
  destruct (has_full_key r) eqn:F.
  - now rewrite (has_full_key_center F).
  - apply andb_false_r.
Qed.

Lemma deduplicate_raw_dropna final_df :
  deduplicate_raw final_df = deduplicate_raw (filter has_full_key final_df).
Proof.
  unfold deduplicate_raw; f_equal.
  rewrite <- (groupby_dropna raw_key_eq_dec raw_key_leb raw_key_of final_df).
  f_equal; apply filter_ext; intros r; apply has_full_key_raw_key.
Qed.

Lemma deduplicate_complete_dropna final_df :
  deduplicate_complete final_df
  = deduplicate_complete (filter has_full_key final_df).
Proof.
  unfold deduplicate_complete; f_equal.
  rewrite <- (groupby_dropna complete_key_eq_dec complete_key_leb
                             complete_key_of final_df).
  f_equal; apply filter_ext; intros r; apply has_full_key_complete_key.
Qed.

Lemma total_Frequency_raw_eq final_df :
  total_Frequency_raw (deduplicate_raw final_df)
  = length (filter has_full_key final_df).
Proof.
  unfold total_Frequency_raw; rewrite deduplicate_raw_eq, map_map.
  rewrite map_ext
    with (g := fun x => length (filter (has_key raw_key_eq_dec raw_key_of x)
                                       final_df))
    by (intros x; now rewrite Frequency_mk_raw_row).
  rewrite <- (filter_all (group_keys _ _ _)), group_sizes_sum.
  - f_equal; apply filter_ext; intros r; apply has_full_key_raw_key.
  - apply group_keys_NoDup.
  - intros r x Hr Hx; apply group_keys_In, non_null_keys_In; eauto.
Qed.

Lemma total_Frequency_complete_eq final_df :
  total_Frequency_complete (deduplicate_complete final_df)
  = length (filter has_full_key final_df).
Proof.
  unfold total_Frequency_complete; rewrite deduplicate_complete_eq, map_map.
  rewrite map_ext
    with (g := fun x => length (filter (has_key complete_key_eq_dec
                                                complete_key_of x) final_df))
    by (intros x; now rewrite Frequency_mk_complete_row).
  rewrite <- (filter_all (group_keys _ _ _)), group_sizes_sum.
  - f_equal; apply filter_ext; intros r; apply has_full_key_complete_key.
  - apply group_keys_NoDup.
  - intros r x Hr Hx; apply group_keys_In, non_null_keys_In; eauto.
Qed.

(** C9.  A bartender pair whose barcode has no cluster center is kept
    by the right join with a null center.  A unified row with a null
    center has no key in either grouping and is in neither frequency
    table: both tables are those of the rows that have a center, and
    the frequencies of each add up to the number of rows none of
    whose key columns is null, which are among the rows that have a
    center. *)
Theorem C9_null_center_rows_are_not_counted :
  (forall merged_df t before after,
      (forall j, In j merged_df -> j_Clonal_barcode j <> bt_Clonal_barcode t) ->
      bartender_join merged_df (before ++ t :: after)
      = bartender_join merged_df before
        ++ {| m_Clonal_barcode_center := None;
              m_Clonal_barcode := bt_Clonal_barcode t;
              m_Read_ID := bt_Read_ID t |}
        :: bartender_join merged_df after)
  /\ (forall r, f_Clonal_barcode_center r = None ->
                raw_key_of r = None /\ complete_key_of r = None)
  /\ (forall final_df,
        deduplicate_raw final_df = deduplicate_raw (filter has_center final_df)
        /\ deduplicate_complete final_df
           = deduplicate_complete (filter has_center final_df)
        /\ total_Frequency_raw (deduplicate_raw final_df)
           = length (filter has_full_key final_df)
        /\ total_Frequency_complete (deduplicate_complete final_df)
           = length (filter has_full_key final_df)
        /\ length (filter has_full_key final_df)
           <= length (filter has_center final_df)).
Proof.
  split; [|split].
  - intros merged_df t before after H.
    change (t :: after) with ([t] ++ after).
    now rewrite !bartender_join_app, bartender_join_no_partner.
  - intros r Hr; unfold raw_key_of, complete_key_of; rewrite Hr.
    destruct (f_gRNA_combination r); auto.
  - intros final_df; repeat split.
    + now rewrite deduplicate_raw_dropna,
        (deduplicate_raw_dropna (filter has_center final_df)),
        full_key_rows_have_center.
    + now rewrite deduplicate_complete_dropna,
        (deduplicate_complete_dropna (filter has_center final_df)),
        full_key_rows_have_center.
    + apply total_Frequency_raw_eq.
    + apply total_Frequency_complete_eq.
    + apply filter_implies_length, has_full_key_center.
Qed.

Lemma C9_witness :
  bartender_join
    (cluster_join (map drop_Frequency matched_entries)
                  (map drop_Score_time clusters))
    ([] ++ {| bt_Clonal_barcode := barcode_c; bt_Read_ID := py "@read3" |} :: [])
  = [ {| m_Clonal_barcode_center := None; m_Clonal_barcode := barcode_c;
         m_Read_ID := py "@read3" |} ]
  /\ raw_key_of
       {| f_Clonal_barcode_center := None;
          f_Clonal_barcode := barcode_c; f_Read_ID := py "@read3";
          f_gRNA1 := Some tag1; f_gRNA2 := Some tag2;
          f_Sample_ID := Some (py "S1"); f_Class := Some (py "Expected");
          f_gRNA_combination := Some (tag1 ++ py "_" ++ tag2) |}
     = None.
Proof.
  split.
  - refine (proj1 C9_null_center_rows_are_not_counted _
              {| bt_Clonal_barcode := barcode_c; bt_Read_ID := py "@read3" |}
              [] [] _).
    intros j [<-|[<-|[]]]; discriminate.
  - refine (proj1 (proj1 (proj2 C9_null_center_rows_are_not_counted) _ _)).
    reflexivity.
Defined.

(** ** The inner join on the cluster identifier *)

Lemma cluster_join_app b1 b2 cluster_df :
  cluster_join (b1 ++ b2) cluster_df
  = cluster_join b1 cluster_df ++ cluster_join b2 cluster_df.
Proof. unfold cluster_join; apply flat_map_app. Qed.

Lemma filter_none {A} (f : A -> bool) l :
  (forall x, In x l -> f x = false) -> filter f l = [].
Proof.
  induction l as [|x l IH]; intros H; simpl; [reflexivity|].
  rewrite (H x) by now left.
  apply IH; intros y Hy; apply H; now right.
Qed.

Lemma filter_every {A} (f : A -> bool) l :
  (forall x, In x l -> f x = true) -> filter f l = l.
Proof.
  induction l as [|x l IH]; intros H; simpl; [reflexivity|].
  rewrite (H x) by now left.
  f_equal; apply IH; intros y Hy; apply H; now right.
Qed.

Lemma cluster_join_unmatched e cluster_file :
  (forall c, In c cluster_file -> cl_Cluster_ID c <> bc_Cluster_ID e) ->
  cluster_join [drop_Frequency e] (map drop_Score_time cluster_file) = [].
Proof.
  intros H; unfold cluster_join; simpl.
  rewrite filter_none; [reflexivity|].
  intros c Hc; apply in_map_iff in Hc as (c' & <- & Hc'); simpl.
  apply Z.eqb_neq; intros E; now apply (H c').
Qed.

Lemma cluster_join_drops_entry pre e post cluster_file :
  (forall c, In c cluster_file -> cl_Cluster_ID c <> bc_Cluster_ID e) ->
  cluster_join (map drop_Frequency (pre ++ e :: post))
               (map drop_Score_time cluster_file)
  = cluster_join (map drop_Frequency (pre ++ post))
                 (map drop_Score_time cluster_file).
Proof.
  intros H; rewrite !map_app; simpl map.
  change (drop_Frequency e :: map drop_Frequency post)
    with ([drop_Frequency e] ++ map drop_Frequency post).
  now rewrite !cluster_join_app, cluster_join_unmatched.
Qed.

(** Where a joined row comes from. *)
Lemma cluster_join_In j barcode_file cluster_file :
  In j (cluster_join (map drop_Frequency barcode_file)
                     (map drop_Score_time cluster_file)) ->
  exists b c,
    In b barcode_file /\ In c cluster_file
    /\ bc_Cluster_ID b = cl_Cluster_ID c
    /\ j_Clonal_barcode j = bc_Unique_reads b
    /\ j_Cluster_ID j = bc_Cluster_ID b
    /\ j_Clonal_barcode_center j = cl_Center c.
Proof.
  unfold cluster_join; rewrite in_flat_map.
  intros (b' & Hb' & Hj).
  apply in_map_iff in Hb' as (b & <- & Hb).
  apply in_map_iff in Hj as (c' & <- & Hc').
  apply filter_In in Hc' as [Hc' E].
  apply in_map_iff in Hc' as (c & <- & Hc).
  simpl in E; apply Z.eqb_eq in E.
  exists b, c; simpl; repeat split; auto.
Qed.

(** Where the center of a merged row comes from. *)
Lemma merge_center_In m center barcode_file cluster_file bartender_input_file :
  In m (merge_barcode_and_sgRNA_output barcode_file cluster_file
                                       bartender_input_file) ->
  m_Clonal_barcode_center m = Some center ->
  exists b c,
    In b barcode_file /\ In c cluster_file
    /\ bc_Cluster_ID b = cl_Cluster_ID c
    /\ bc_Unique_reads b = m_Clonal_barcode m
    /\ cl_Center c = center.
Proof.
  unfold merge_barcode_and_sgRNA_output, bartender_join.
  rewrite in_flat_map; intros (t & Ht & Hm) Hcenter.
  destruct (filter _ _) as [|j0 partners] eqn:Ef.
  - destruct Hm as [<-|[]]; discriminate.
  - apply in_map_iff in Hm as (j & <- & Hj).
    rewrite <- Ef in Hj; apply filter_In in Hj as [Hj E].
    apply str_eqb_eq in E; simpl in Hcenter; injection Hcenter as <-.
    apply cluster_join_In in Hj as (b & c & Hb & Hc & Hid & Hbar & _ & Hcen).
    exists b, c; simpl; repeat split; auto; congruence.
Qed.

(** C4.  A barcode entry whose cluster identifier no cluster entry
    has is dropped by the inner join: no joined row carries its
    cluster identifier and the join is the one computed without the
    entry.  Downstream the entry is in no row: the cluster center of a
    merged row never comes from it (a bartender pair with its barcode,
    which the right join keeps, has a null center unless another entry
    has the same barcode), and the unified table and the two frequency
    tables of the sample are those computed without it. *)
Theorem C4_unmatched_entry_is_dropped
        (pre post : list barcode_row) (e : barcode_row)
        (clusters : list cluster_row) (pairs : list bartender_row)
        (before after : list partition_files) (name : str)
        (ref : list reference_row) :
  (forall c, In c clusters -> cl_Cluster_ID c <> bc_Cluster_ID e) ->
  let with_entry :=
    {| barcode_file := pre ++ e :: post; cluster_file := clusters;
       bartender_input_file := pairs |} in
  let without_entry :=
    {| barcode_file := pre ++ post; cluster_file := clusters;
       bartender_input_file := pairs |} in
  let folder_with :=
    {| basename := name; barcode_files := before ++ with_entry :: after;
       ref_file := ref |} in
  let folder_without :=
    {| basename := name; barcode_files := before ++ without_entry :: after;
       ref_file := ref |} in
  (forall j, In j (cluster_join (map drop_Frequency (pre ++ e :: post))
                                (map drop_Score_time clusters)) ->
             j_Cluster_ID j <> bc_Cluster_ID e)
  /\ cluster_join (map drop_Frequency (pre ++ e :: post))
                  (map drop_Score_time clusters)
     = cluster_join (map drop_Frequency (pre ++ post))
                    (map drop_Score_time clusters)
  /\ (forall m center,
        In m (merge_barcode_and_sgRNA_output (pre ++ e :: post) clusters pairs) ->
        m_Clonal_barcode_center m = Some center ->
        exists e' c,
          In e' (pre ++ post) /\ In c clusters
          /\ bc_Cluster_ID e' = cl_Cluster_ID c
          /\ bc_Unique_reads e' = m_Clonal_barcode m
          /\ cl_Center c = center)
  /\ ((forall e', In e' (pre ++ post) ->
                  bc_Unique_reads e' <> bc_Unique_reads e) ->
      forall m,
        In m (merge_barcode_and_sgRNA_output (pre ++ e :: post) clusters pairs) ->
        m_Clonal_barcode m = bc_Unique_reads e ->
        m_Clonal_barcode_center m = None)
  /\ unified_table folder_with = unified_table folder_without
  /\ combine_sgRNA_barcode_from_same_mouse folder_with
     = combine_sgRNA_barcode_from_same_mouse folder_without.
Proof.
  intros H with_entry without_entry folder_with folder_without.
  assert (Hmerge :
            merge_barcode_and_sgRNA_output (pre ++ e :: post) clusters pairs
            = merge_barcode_and_sgRNA_output (pre ++ post) clusters pairs).
  { unfold merge_barcode_and_sgRNA_output.
    now rewrite cluster_join_drops_entry. }
  assert (Hunified : unified_table folder_with = unified_table folder_without).
  { unfold unified_table, folder_with, folder_without; simpl.
    rewrite !map_app; simpl; now rewrite Hmerge. }
  split; [|split; [|split; [|split; [|split]]]].
  - intros j Hj E.
    apply cluster_join_In in Hj as (b & c & _ & Hc & Hid & _ & Hjid & _).
    apply (H c Hc); congruence.
  - now apply cluster_join_drops_entry.
  - intros m center Hm Hcenter; rewrite Hmerge in Hm.
    eapply merge_center_In; eassumption.
  - intros Huniq m Hm Hbar; rewrite Hmerge in Hm.
    destruct (m_Clonal_barcode_center m) as [center|] eqn:Hcenter;
      [|reflexivity].
    destruct (merge_center_In Hm Hcenter) as (e' & c & He' & _ & _ & Hb & _).
    exfalso; apply (Huniq e' He'); congruence.
  - exact Hunified.
  - unfold combine_sgRNA_barcode_from_same_mouse; now rewrite Hunified.
Qed.

Lemma C4_witness :
  (forall c, In c clusters -> cl_Cluster_ID c <> bc_Cluster_ID unmatched_entry)
  /\ combine_sgRNA_barcode_from_same_mouse (folder (py "S1"))
     = combine_sgRNA_barcode_from_same_mouse
         {| basename := py "S1";
            barcode_files :=
              [] ++ {| barcode_file := matched_entries ++ [];
                       cluster_file := clusters;
                       bartender_input_file := bartender |} :: [];
            ref_file := ref_file (folder (py "S1")) |}.
Proof.
  assert (H : forall c, In c clusters ->
                        cl_Cluster_ID c <> bc_Cluster_ID unmatched_entry).
  { intros c [<-|[]]; discriminate. }
  split; [exact H|].
  exact (proj2 (proj2 (proj2 (proj2 (proj2
           (@C4_unmatched_entry_is_dropped matched_entries [] unmatched_entry
              clusters bartender [] [] (py "S1")
              (ref_file (folder (py "S1"))) H)))))).
Defined.

(** ** The cross-sample table *)

Lemma filter_concat_tagged {A} (tag : A -> str) (l : list (str * list A)) :
  NoDup (map fst l) ->
  (forall i t, In (i, t) l -> forall y, In y t -> tag y = i) ->
  forall i t, In (i, t) l ->
    filter (fun y => str_eqb (tag y) i) (concat (map snd l)) = t.
Proof.
  induction l as [|[i0 t0] l IH]; intros Hnd Htag i t Hin; [contradiction|].
  simpl in Hnd; inversion Hnd as [|? ? Hfresh Hnd']; subst.
  simpl; rewrite filter_app.
  destruct Hin as [[= <- <-]|Hin].
  - rewrite filter_every, filter_none; [apply app_nil_r | |].
    + intros y Hy; apply in_concat in Hy as (t' & Ht' & Hy).
      apply in_map_iff in Ht' as ([i' t''] & <- & Hp); simpl in Hy.
      apply str_eqb_neq; rewrite (Htag i' t'' (or_intror Hp) y Hy).
      intros ->; apply Hfresh, in_map_iff; now exists (i0, t'').
    + intros y Hy; apply str_eqb_eq, (Htag i0 t0); [now left | exact Hy].
  - rewrite filter_none.
    + apply IH; auto; intros i' t' Hp; apply Htag; now right.
    + intros y Hy; apply str_eqb_neq.
      rewrite (Htag i0 t0 (or_introl eq_refl) y Hy).
      intros ->; apply Hfresh, in_map_iff; now exists (i, t).
Qed.

Lemma pd_concat_Ok {A} (frames : list (list A)) t :
  pd_concat frames = Ok t -> t = concat frames.
Proof. destruct frames; simpl; [discriminate | now intros [= <-]]. Qed.

Lemma for_subfolders_Ok subfolders : forall done dfs,
  for_subfolders subfolders = Ok (done, dfs) ->
  dfs = map Combined_deduplexed_df done
  /\ Forall2 (fun sub s =>
                sample_id s = basename sub
                /\ combine_sgRNA_barcode_from_same_mouse sub
                   = Ok (Combined_ND_df s, Combined_deduplexed_df s))
             subfolders done.
Proof.
  induction subfolders as [|sub rest IH]; intros done dfs; simpl.
  - intros [= <- <-]; split; constructor.
  - destruct (combine_sgRNA_barcode_from_same_mouse sub) as [[df1 df2]|e] eqn:E;
      simpl; [|discriminate].
    destruct (for_subfolders rest) as [[done' dfs']|e]; simpl; [|discriminate].
    intros [= <- <-]; destruct (IH _ _ eq_refl) as [-> HF].
    split; [reflexivity|]; constructor; simpl; auto.
Qed.

(** C7.  The final table is the concatenation of the complete tables
    of the samples, in sample order, each as
    [combine_sgRNA_barcode_from_same_mouse] returned it.  When the
    sample identifiers are pairwise distinct and the rows of each
    complete table carry the identifier of their sample, the rows of
    the final table with [Sample_ID == X] are the complete table of
    sample [X]. *)
Theorem C7_filter_by_sample_recovers_table subfolders out :
  dual_guide_aggregate.main subfolders = Ok out ->
  NoDup (map sample_id (per_sample out)) ->
  (forall s, In s (per_sample out) ->
             forall y, In y (Combined_deduplexed_df s) ->
                       cp_Sample_ID y = sample_id s) ->
  gRNA_clonalbarcode_combined out
  = concat (map Combined_deduplexed_df (per_sample out))
  /\ Forall2 (fun sub s =>
                sample_id s = basename sub
                /\ combine_sgRNA_barcode_from_same_mouse sub
                   = Ok (Combined_ND_df s, Combined_deduplexed_df s))
             subfolders (per_sample out)
  /\ forall s, In s (per_sample out) ->
       filter_Sample_ID (sample_id s) (gRNA_clonalbarcode_combined out)
       = Combined_deduplexed_df s
       /\ Permutation
            (filter_Sample_ID (sample_id s) (gRNA_clonalbarcode_combined out))
            (Combined_deduplexed_df s).
Proof.
  unfold dual_guide_aggregate.main.
  destruct (for_subfolders subfolders) as [[done dfs]|e] eqn:E; simpl;
    [|discriminate].
  apply for_subfolders_Ok in E as [-> HF].
  destruct (pd_concat (map Combined_deduplexed_df done)) as [t|e] eqn:Ec;
    simpl; [|discriminate].
  apply pd_concat_Ok in Ec; subst t.
  intros [= <-]; cbn [per_sample gRNA_clonalbarcode_combined].
  intros Hnd Htag; split; [reflexivity|]; split; [exact HF|].
  assert (Hfilter : forall s, In s done ->
            filter_Sample_ID (sample_id s)
                             (concat (map Combined_deduplexed_df done))
            = Combined_deduplexed_df s).
  { intros s Hs; unfold filter_Sample_ID.
    replace (map Combined_deduplexed_df done)
      with (map snd (map (fun s => (sample_id s, Combined_deduplexed_df s)) done))
      by (rewrite map_map; reflexivity).
    apply filter_concat_tagged.
    - now rewrite map_map.
    - intros i t Hp y Hy.
      apply in_map_iff in Hp as (s' & [= <- <-] & Hs'); now apply Htag.
    - apply in_map_iff; now exists s. }
  intros s Hs; rewrite (Hfilter s Hs); split; [reflexivity|].
  apply Permutation_refl.
Qed.

Lemma C7_witness :
  exists out,
    dual_guide_aggregate.main [folder (py "S1"); folder (py "S2")] = Ok out
    /\ map sample_id (per_sample out) = [py "S1"; py "S2"]
    /\ forall s, In s (per_sample out) ->
         filter_Sample_ID (sample_id s) (gRNA_clonalbarcode_combined out)
         = Combined_deduplexed_df s.
Proof.
  eexists; split; [reflexivity|]; split; [reflexivity|].
  intros s Hs.
  refine (proj1 (proj2 (proj2
            (@C7_filter_by_sample_recovers_table
               [folder (py "S1"); folder (py "S2")] _ eq_refl _ _)) s Hs)).
  - repeat constructor; simpl; intuition discriminate.
  - intros s' [<-|[<-|[]]] y [<-|[]]; reflexivity.
Defined.

(** * Further properties of the extraction *)

Import Paths.

(** ** The reverse complement and the lines of a record *)

(** X1.  The reverse complement keeps the length of a sequence, turns
    a concatenation into the concatenation of the reverse complements
    in the opposite order, and maps distinct sequences to distinct
    sequences. *)
Theorem X1_reverse_complement_composes (a b : str) :
  length (find_reverse_complementary a) = length a
  /\ find_reverse_complementary (a ++ b)
     = find_reverse_complementary b ++ find_reverse_complementary a
  /\ (find_reverse_complementary a = find_reverse_complementary b <-> a = b).
Proof.
  split; [|split].
  - unfold find_reverse_complementary; now rewrite length_map, length_rev.
  - unfold find_reverse_complementary; now rewrite rev_app_distr, map_app.
  - split; [|now intros ->].
    intros H; rewrite <- (find_reverse_complementary_involutive a),
                <- (find_reverse_complementary_involutive b).
    now rewrite H.
Qed.

Lemma lstrip_spaces w s :
  forallb isspace w = true -> lstrip (w ++ s) = lstrip s.
Proof.
  induction w as [|c w IH]; simpl; [reflexivity|].
  intros H; apply andb_true_iff in H as [Hc Hw]; rewrite Hc; auto.
Qed.

Lemma lstrip_decompose s :
  exists w, s = w ++ lstrip s /\ forallb isspace w = true
            /\ match lstrip s with
               | [] => True
               | c :: _ => isspace c = false
               end.
Proof.
  induction s as [|c s (w & Hs & Hw & Hc)]; simpl.
  - exists []; auto.
  - destruct (isspace c) eqn:E.
    + exists (c :: w); simpl; rewrite E, Hw; repeat split; auto; congruence.
    + exists []; simpl; auto.
Qed.

Lemma forallb_rev {A} (f : A -> bool) l : forallb f (rev l) = forallb f l.
Proof.
  induction l as [|x l IH]; simpl; [reflexivity|].
  rewrite forallb_app, IH; simpl; rewrite andb_true_r; apply andb_comm.
Qed.

Lemma rstrip_decompose s :
  exists w, s = rstrip s ++ w /\ forallb isspace w = true
            /\ ends_clean (rstrip s) = true.
Proof.
  destruct (lstrip_decompose (rev s)) as (w & Hs & Hw & Hc).
  exists (rev w); unfold rstrip, ends_clean; repeat split.
  - rewrite <- rev_app_distr, <- Hs; symmetry; apply rev_involutive.
  - now rewrite forallb_rev.
  - rewrite rev_involutive; destruct (lstrip (rev s)); [reflexivity|].
    now rewrite Hc.
Qed.

Lemma rstrip_app_spaces t w :
  ends_clean t = true -> forallb isspace w = true -> rstrip (t ++ w) = t.
Proof.
  unfold rstrip, ends_clean; intros Ht Hw.
  rewrite rev_app_distr, lstrip_spaces by now rewrite forallb_rev.
  destruct (rev t) as [|c r] eqn:E.
  - simpl; apply (f_equal (@rev ascii)) in E.
    now rewrite rev_involutive in E.
  - simpl; apply negb_true_iff in Ht; rewrite Ht, <- E.
    apply rev_involutive.
Qed.

(** X2.  Fetching a record takes four lines from each file and keeps
    three of them, without their trailing whitespace (a line feed, or
    a carriage return and a line feed): the identifier and the
    sequence of mate 1 and, reverse complemented, the sequence of
    mate 2.  The identifier of mate 2 and the separator and quality
    lines of both mates have no influence. *)
Theorem X2_next_record_lines
        (i s m w1 w2 w3 p q x y z : str) (rest1 rest2 : list str) :
  ends_clean i = true -> ends_clean s = true -> ends_clean m = true ->
  forallb isspace w1 = true -> forallb isspace w2 = true ->
  forallb isspace w3 = true ->
  next_record ((i ++ w1) :: (s ++ w2) :: p :: q :: rest1)
              (x :: (m ++ w3) :: y :: z :: rest2)
  = {| handler1 := rest1; handler2 := rest2; read_id := i; seq1 := s;
       seq2 := find_reverse_complementary m |}.
Proof.
  intros Hi Hs Hm H1 H2 H3; rewrite next_record_eq; simpl.
  now rewrite !rstrip_app_spaces.
Qed.

Lemma X2_witness :
  next_record [py "@r1" ++ py " " ++ ["010"%char];
               py "ACGT" ++ ["013"%char; "010"%char]; py "+"; py "IIII"]
              [py "@other"; py "AACC" ++ ["010"%char]; py "+"; py "IIII"]
  = {| handler1 := []; handler2 := []; read_id := py "@r1";
       seq1 := py "ACGT"; seq2 := find_reverse_complementary (py "AACC") |}.
Proof.
  exact (@X2_next_record_lines (py "@r1") (py "ACGT") (py "AACC")
           (py " " ++ ["010"%char]) ["013"%char; "010"%char] ["010"%char]
           (py "+") (py "IIII") (py "@other") (py "+") (py "IIII") [] []
           eq_refl eq_refl eq_refl eq_refl eq_refl eq_refl).
Defined.

(** ** What the two patterns match *)

Lemma search_pattern1_groups s gs :
  search temp_pattern1 s = Some gs ->
  exists pre barcode g1 post,
    gs = [barcode; g1] /\ capture 16 16 barcode /\ capture 16 21 g1
    /\ s = pre ++ mate1_instance barcode g1 ++ post.
Proof.
  intros H; apply search_matches in H as (pre & m & post & -> & Hm).
  apply matches_pattern1 in Hm as (barcode & g1 & -> & -> & Hb & Hg).
  now exists pre, barcode, g1, post.
Qed.

Lemma search_pattern2_groups s gs :
  search temp_pattern2 s = Some gs ->
  exists pre g2 post,
    gs = [g2] /\ capture 16 21 g2 /\ s = pre ++ mate2_instance g2 ++ post.
Proof.
  intros H; apply search_matches in H as (pre & m & post & -> & Hm).
  apply matches_pattern2 in Hm as (g2 & -> & -> & Hg).
  now exists pre, g2, post.
Qed.

(** X3.  A sequence of fewer than 47 characters is never matched by
    the mate-1 pattern, and one of fewer than 26 characters never by
    the mate-2 pattern. *)
Theorem X3_short_sequences_do_not_match (s : str) :
  (length s < 47 -> search temp_pattern1 s = None)
  /\ (length s < 26 -> search temp_pattern2 s = None).
Proof.
  split; intros Hlen.
  - destruct (search temp_pattern1 s) as [gs|] eqn:E; [|reflexivity].
    apply search_pattern1_groups in E
      as (pre & barcode & g1 & post & _ & [Hb _] & [Hg _] & ->).
    unfold mate1_instance in Hlen; rewrite !length_app in Hlen.
    simpl in Hlen; lia.
  - destruct (search temp_pattern2 s) as [gs|] eqn:E; [|reflexivity].
    apply search_pattern2_groups in E as (pre & g2 & post & _ & [Hg _] & ->).
    unfold mate2_instance in Hlen; rewrite !length_app in Hlen.
    simpl in Hlen; lia.
Qed.

Lemma X3_witness :
  search temp_pattern1 (py "TAGTTAAAACCCCGGGGTTTTTATGG") = None.
Proof.
  apply (proj1 (X3_short_sequences_do_not_match
                  (py "TAGTTAAAACCCCGGGGTTTTTATGG"))).
  simpl; lia.
Defined.

Lemma startswith_short l s : length s < length l -> startswith l s = false.
Proof.
  revert s; induction l as [|x l IH]; intros [|y s]; simpl; try lia; auto.
  intros H; rewrite IH by lia; apply andb_false_r.
Qed.

Lemma match_here_lit l p s : match_here (Lit l :: p) (l ++ s) = match_here p s.
Proof. simpl; now rewrite startswith_app, skipn_length_app. Qed.

Lemma try_group_unfold k lo extra s :
  try_group k lo extra s
  = match (if (lo + extra <=? length s)
                && forallb dot (firstn (lo + extra) s)
           then match k (skipn (lo + extra) s) with
                | Some gs => Some (firstn (lo + extra) s :: gs)
                | None => None
                end
           else None) with
    | Some r => Some r
    | None => match extra with
              | 0 => None
              | S e => try_group k lo e s
              end
    end.
Proof. destruct extra; reflexivity. Qed.

(** The greedy repetition settles on [g] when no longer capture lets
    the rest of the pattern match. *)
Lemma try_group_settles k lo extra g rest gs :
  lo <= length g <= lo + extra -> forallb dot g = true ->
  k rest = Some gs ->
  (forall n, length g < n -> n <= lo + extra -> k (skipn n (g ++ rest)) = None) ->
  try_group k lo extra (g ++ rest) = Some (g :: gs).
Proof.
  induction extra as [|e IH]; intros Hb Hdot Hk Hlonger;
    rewrite try_group_unfold.
  - assert (E : lo + 0 = length g) by lia.
    rewrite E, firstn_length_app, skipn_length_app, Hdot, Hk, length_app.
    assert (L : (length g <=? length g + length rest) = true)
      by (apply Nat.leb_le; lia).
    now rewrite L.
  - destruct (Nat.eq_dec (length g) (lo + S e)) as [E|NE].
    + rewrite <- E, firstn_length_app, skipn_length_app, Hdot, Hk, length_app.
      assert (L : (length g <=? length g + length rest) = true)
        by (apply Nat.leb_le; lia).
      now rewrite L.
    + rewrite (Hlonger (lo + S e)) by lia.
      destruct (_ && _); (apply IH; auto; [lia|]);
        intros n Hn Hle; apply Hlonger; lia.
Qed.

Lemma match_here_group lo hi p s :
  match_here (Group lo hi :: p) s
  = if lo <=? hi then try_group (match_here p) lo (hi - lo) s else None.
Proof. reflexivity. Qed.

Lemma search_here p s gs : match_here p s = Some gs -> search p s = Some gs.
Proof. intros H; destruct s; simpl; now rewrite H. Qed.

Lemma match_last_anchor (l g : str) n :
  0 < length l -> length g < n ->
  match_here [Lit l] (skipn n (g ++ l)) = None.
Proof.
  intros Hl H; simpl; rewrite startswith_short; [reflexivity|].
  rewrite length_skipn, length_app; lia.
Qed.

Lemma match_last_anchor_here (l : str) : match_here [Lit l] l = Some [].
Proof.
  rewrite <- (app_nil_r l) at 2; rewrite match_here_lit; reflexivity.
Qed.

(** X4.  A sequence that is exactly an instance of a pattern is
    matched, and the groups are the captures it was built from. *)
Theorem X4_instances_are_recovered (barcode g1 g2 : str) :
  (capture 16 16 barcode -> capture 16 21 g1 ->
   search temp_pattern1 (mate1_instance barcode g1) = Some [barcode; g1])
  /\ (capture 16 21 g2 ->
      search temp_pattern2 (mate2_instance g2) = Some [g2]).
Proof.
  assert (Htag : forall g : str, capture 16 21 g ->
            forall anchor : str, 0 < length anchor ->
            match_here [Group 16 21; Lit anchor] (g ++ anchor) = Some [g]).
  { intros g [Hg Hgd] anchor Ha; rewrite match_here_group.
    change (16 <=? 21) with true; change (21 - 16) with 5.
    apply try_group_settles; [lia | exact Hgd | apply match_last_anchor_here |].
    intros n Hn _; now apply match_last_anchor. }
  split.
  - intros [Hb Hbd] Hg1; apply search_here.
    unfold temp_pattern1, mate1_instance.
    rewrite match_here_lit, match_here_group.
    change (16 <=? 16) with true; change (16 - 16) with 0.
    apply try_group_settles; [lia | exact Hbd | | intros n Hn Hle; lia].
    rewrite match_here_lit; apply Htag; [exact Hg1 | simpl; lia].
  - intros Hg2; apply search_here.
    unfold temp_pattern2, mate2_instance.
    rewrite match_here_lit; apply Htag; [exact Hg2 | simpl; lia].
Qed.

Lemma X4_witness :
  search temp_pattern2 (mate2_instance Fixtures.tag2) = Some [Fixtures.tag2].
Proof.
  apply (proj2 (X4_instances_are_recovered [] [] Fixtures.tag2)).
  split; [simpl; lia | reflexivity].
Defined.

(** ** What a run writes and reports *)

Lemma records_from_In fuel : forall c0 c,
  In c (records_from fuel c0) ->
  read_id c <> []
  /\ (c = c0 \/ exists h1 h2, c = next_record h1 h2).
Proof.
  induction fuel as [|fuel IH]; intros c0 c; simpl.
  - destruct (read_id c0); intros [].
  - destruct (read_id c0) as [|x rid] eqn:E; [intros []|].
    intros [<-|H].
    + split; [congruence | now left].
    + destruct (IH _ _ H) as [Hne [->|Hex]]; split; auto; right; eauto.
Qed.

Lemma records_In a1 a2 c :
  In c (records a1 a2) ->
  read_id c <> [] /\ exists h1 h2, c = next_record h1 h2.
Proof.
  intros H; apply records_from_In in H as [Hne [->|Hex]]; split; eauto.
Qed.

Lemma extracted_In gRNA1_list gRNA2_list sample_id recs r :
  In r (extracted gRNA1_list gRNA2_list sample_id recs) <->
  exists c, In c recs /\ extract gRNA1_list gRNA2_list sample_id c = Some r.
Proof.
  unfold extracted; rewrite in_flat_map; split; intros (c & Hc & Hr);
    exists c; split; auto.
  - destruct (extract _ _ _ c); [|contradiction].
    destruct Hr as [->|[]]; reflexivity.
  - rewrite Hr; now left.
Qed.

Lemma filter_lengths {A} (f : A -> bool) l :
  length (filter f l) + length (filter (fun x => negb (f x)) l) = length l.
Proof.
  induction l as [|x l IH]; simpl; [reflexivity|].
  destruct (f x); simpl; lia.
Qed.

(** What [main] returns when it returns: the summary over the
    collected counters and the tables of the extracted rows. *)
Lemma main_Ok_inv a1 a2 ref_sgRNA_df output_dir o :
  dual_guide_parsing.main a1 a2 ref_sgRNA_df output_dir = Some (Ok o) ->
  let acc := run (gRNA_list "G1" ref_sgRNA_df) (gRNA_list "G2" ref_sgRNA_df)
                 (records a1 a2) collected_init in
  let rows := extracted (gRNA_list "G1" ref_sgRNA_df)
                        (gRNA_list "G2" ref_sgRNA_df)
                        (sample_id_of output_dir) (records a1 a2) in
  print_summary (sample_id_of output_dir) acc = Ok (stdout o)
  /\ Unexpected_reads_csv o = filter is_Unexpected rows
  /\ Intermediate_df_csv o = filter (fun r => negb (is_Unexpected r)) rows
  /\ bartender_files o
     = map (fun g => (out_filename output_dir (fst g),
                      map barcode_read_pair (snd g)))
           (groupby str_eq_dec str_leb (fun r => Some (gRNA_combination r))
                    (Intermediate_df_csv o))
  /\ Bartender_input_address o = map fst (bartender_files o).
Proof.
  rewrite main_run; intros [= H]; cbv zeta.
  unfold report_and_write, add_gRNA_combination in H.
  rewrite Final_df_run in H.
  destruct (print_summary _ _) as [line|e]; simpl in H; [|discriminate].
  destruct (extracted _ _ _ _) as [|r rows]; simpl in H; [discriminate|].
  injection H as <-; simpl; repeat split; now rewrite map_map.
Qed.

Lemma main_Ok_rows a1 a2 ref_sgRNA_df output_dir o :
  dual_guide_parsing.main a1 a2 ref_sgRNA_df output_dir = Some (Ok o) ->
  extracted (gRNA_list "G1" ref_sgRNA_df) (gRNA_list "G2" ref_sgRNA_df)
            (sample_id_of output_dir) (records a1 a2) <> [].
Proof.
  rewrite main_run; intros [= H].
  apply report_and_write_rows in H; now rewrite Final_df_run in H.
Qed.

Section Counters.
Variables (gRNA1_list gRNA2_list : list str) (sample_id : str).

Let rows := extracted gRNA1_list gRNA2_list sample_id.

Lemma loop_body_counters c acc :
  extracted_reads (loop_body gRNA1_list gRNA2_list c acc)
  = extracted_reads acc + length (rows [c])
  /\ matched_reads (loop_body gRNA1_list gRNA2_list c acc)
     = matched_reads acc
       + length (filter (fun r => negb (is_Unexpected r)) (rows [c])).
Proof.
  unfold rows, extracted, loop_body, extract; simpl.
  destruct (search temp_pattern1 (seq1 c)) as [m1|];
    [destruct (search temp_pattern2 (seq2 c)) as [m2|]|]; simpl;
    try (split; lia).
  unfold is_Unexpected; simpl.
  destruct (py_in _ _ && py_in _ _); simpl; split; lia.
Qed.

Lemma run_counters recs : forall acc,
  extracted_reads (run gRNA1_list gRNA2_list recs acc)
  = extracted_reads acc + length (rows recs)
  /\ matched_reads (run gRNA1_list gRNA2_list recs acc)
     = matched_reads acc
       + length (filter (fun r => negb (is_Unexpected r)) (rows recs)).
Proof.
  induction recs as [|c recs IH]; intros acc.
  - split; simpl; lia.
  - destruct (IH (loop_body gRNA1_list gRNA2_list c acc)) as [E M].
    destruct (loop_body_counters c acc) as [E1 M1].
    change (run gRNA1_list gRNA2_list (c :: recs) acc)
      with (run gRNA1_list gRNA2_list recs
                (loop_body gRNA1_list gRNA2_list c acc)).
    assert (R : rows (c :: recs) = rows [c] ++ rows recs)
      by (unfold rows, extracted; simpl; now rewrite app_nil_r).
    rewrite E, M, E1, M1, R, filter_app, !length_app; split; lia.
Qed.
End Counters.

Lemma truediv_Ok a b r :
  truediv a b = Ok r -> 0 < b /\ r = quotient a b.
Proof. destruct b; simpl; [discriminate|]; intros [= <-]; split; [lia|auto]. Qed.

Lemma extracted_row_well_formed gRNA1_list gRNA2_list sample_id a1 a2 r :
  In r (extracted gRNA1_list gRNA2_list sample_id (records a1 a2)) ->
  capture 16 16 (Clonal_barcode r)
  /\ capture 16 21 (gRNA1 r) /\ capture 16 21 (gRNA2 r)
  /\ gRNA_combination r = gRNA1 r ++ py "_" ++ gRNA2 r
  /\ Sample_ID r = sample_id
  /\ Read_ID r <> [] /\ ends_clean (Read_ID r) = true
  /\ (Class r = Expected \/ Class r = Unexpected)
  /\ (Class r = Expected ->
      In (gRNA1 r) gRNA1_list /\ In (gRNA2 r) gRNA2_list).
Proof.
  intros Hrow; pose proof (extracted_Class Hrow) as Hclass.
  apply extracted_In in Hrow as (c & Hc & Hex).
  apply records_In in Hc as [Hne (h1 & h2 & ->)].
  unfold extract in Hex.
  destruct (search temp_pattern1 _) as [m1|] eqn:E1; [|discriminate].
  destruct (search temp_pattern2 _) as [m2|] eqn:E2; [|discriminate].
  apply search_pattern1_groups in E1 as (? & barcode & g1 & ? & -> & Hb & Hg1 & _).
  apply search_pattern2_groups in E2 as (? & g2 & ? & -> & Hg2 & _).
  injection Hex as <-; cbn [Clonal_barcode gRNA1 gRNA2 gRNA_combination
                             Sample_ID Read_ID Class group nth Nat.sub] in *.
  assert (Hexp : (if py_in g1 gRNA1_list && py_in g2 gRNA2_list
                  then Expected else Unexpected) = Expected ->
                 In g1 gRNA1_list /\ In g2 gRNA2_list).
  { destruct (py_in g1 gRNA1_list) eqn:P1;
      destruct (py_in g2 gRNA2_list) eqn:P2; simpl; try discriminate.
    intros _; split; now apply py_in_In. }
  repeat split; try (apply Hb); try (apply Hg1); try (apply Hg2);
    try exact Hne; try (now apply Hexp).
  - rewrite next_record_eq; simpl.
    now destruct (rstrip_decompose (nth 0 h1 [])) as (w & _ & _ & Hclean).
  - exact Hclass.
Qed.

(** X5.  Every row of the two tables has a barcode of 16 characters,
    two tags of 16 to 21 characters, none of them with a line feed,
    the two tags joined by an underscore as combination key, the last
    component of the output directory as sample identifier, a read
    identifier that is not empty and does not end in whitespace, and
    one of the two labels. *)
Theorem X5_rows_are_well_formed a1 a2 ref_sgRNA_df output_dir o r :
  dual_guide_parsing.main a1 a2 ref_sgRNA_df output_dir = Some (Ok o) ->
  In r (Unexpected_reads_csv o) \/ In r (Intermediate_df_csv o) ->
  capture 16 16 (Clonal_barcode r)
  /\ capture 16 21 (gRNA1 r) /\ capture 16 21 (gRNA2 r)
  /\ gRNA_combination r = gRNA1 r ++ py "_" ++ gRNA2 r
  /\ Sample_ID r = sample_id_of output_dir
  /\ Read_ID r <> [] /\ ends_clean (Read_ID r) = true
  /\ (Class r = Expected \/ Class r = Unexpected).
Proof.
  intros Hmain Hr; apply main_Ok_inv in Hmain; cbv zeta in Hmain.
  destruct Hmain as (_ & Hun & Hint & _).
  assert (Hrow : In r (extracted (gRNA_list "G1" ref_sgRNA_df)
                                 (gRNA_list "G2" ref_sgRNA_df)
                                 (sample_id_of output_dir) (records a1 a2))).
  { destruct Hr as [Hr|Hr]; [rewrite Hun in Hr | rewrite Hint in Hr];
      now apply filter_In in Hr. }
  destruct (extracted_row_well_formed Hrow)
    as (H1 & H2 & H3 & H4 & H5 & H6 & H7 & H8 & _).
  repeat split; try apply H1; try apply H2; try apply H3; auto.
Qed.

Lemma X5_witness :
  exists o r,
    dual_guide_parsing.main Fixtures.fastq1 Fixtures.fastq2 Fixtures.reference
                            (py "out/S1") = Some (Ok o)
    /\ In r (Intermediate_df_csv o)
    /\ capture 16 16 (Clonal_barcode r) /\ Sample_ID r = py "S1".
Proof.
  destruct (dual_guide_parsing.main Fixtures.fastq1 Fixtures.fastq2
              Fixtures.reference (py "out/S1")) as [[o|e]|] eqn:Hmain;
    try (vm_compute in Hmain; discriminate Hmain).
  assert (Hrows : exists r, Intermediate_df_csv o = [r]).
  { vm_compute in Hmain; injection Hmain as <-; eexists; reflexivity. }
  destruct Hrows as [r Hr].
  assert (Hin : In r (Intermediate_df_csv o)) by (rewrite Hr; now left).
  exists o, r; split; [reflexivity|]; split; [exact Hin|].
  destruct (X5_rows_are_well_formed Hmain (or_intror Hin))
    as (Hb & _ & _ & _ & Hs & _).
  split; [exact Hb|].
  rewrite Hs; reflexivity.
Defined.

(** X6.  The summary agrees with the files: the total is the number of
    records read; the number of extracted reads is the number of rows
    of the two tables together, at least one, and the number of
    expected reads that of the intermediate table; expected reads are
    no more than extracted reads and these no more than the total; the
    two rates shown are the floats of these two numbers over the
    total. *)
Theorem X6_summary_agrees_with_files a1 a2 ref_sgRNA_df output_dir o :
  dual_guide_parsing.main a1 a2 ref_sgRNA_df output_dir = Some (Ok o) ->
  let line := stdout o in
  summary_total line = length (records a1 a2)
  /\ summary_extracted line
     = length (Unexpected_reads_csv o) + length (Intermediate_df_csv o)
  /\ summary_matched line = length (Intermediate_df_csv o)
  /\ summary_sample line = sample_id_of output_dir
  /\ 0 < summary_extracted line
  /\ summary_matched line <= summary_extracted line
  /\ summary_extracted line <= summary_total line
  /\ summary_extracted_rate line
     = quotient (summary_extracted line) (summary_total line)
  /\ summary_matched_rate line
     = quotient (summary_matched line) (summary_total line).
Proof.
  intros Hmain; pose proof (main_Ok_rows Hmain) as Hrows.
  apply main_Ok_inv in Hmain; cbv zeta in *.
  destruct Hmain as (Hsum & Hun & Hint & _).
  unfold print_summary in Hsum.
  destruct (truediv _ _) as [r1|] eqn:T1; simpl in Hsum; [|discriminate].
  destruct (truediv _ _) as [r2|] eqn:T2 in Hsum; simpl in Hsum;
    [|discriminate].
  apply truediv_Ok in T1 as [Hpos ->]; apply truediv_Ok in T2 as [_ ->].
  injection Hsum as Hline; rewrite <- Hline; cbn [summary_total
    summary_extracted summary_matched summary_sample summary_extracted_rate
    summary_matched_rate].
  destruct (run_counters (gRNA_list "G1" ref_sgRNA_df)
              (gRNA_list "G2" ref_sgRNA_df) (sample_id_of output_dir)
              (records a1 a2) collected_init) as [He Hm].
  rewrite run_total_reads in *; simpl in He, Hm, Hpos |- *.
  rewrite He, Hm, Hun, Hint.
  set (rows := extracted _ _ _ _) in *.
  pose proof (filter_lengths is_Unexpected rows) as Hsplit.
  assert (Hle : length rows <= length (records a1 a2)).
  { unfold rows, extracted; clear.
    induction (records a1 a2) as [|c l IH]; simpl; [lia|].
    rewrite length_app; destruct (extract _ _ _ c); simpl; lia. }
  assert (Hone : 0 < length rows)
    by (destruct rows; [congruence | simpl; lia]).
  repeat split; lia.
Qed.

Lemma X6_witness :
  exists o,
    dual_guide_parsing.main Fixtures.fastq1 Fixtures.fastq2 Fixtures.reference
                            (py "out/S1") = Some (Ok o)
    /\ summary_total (stdout o) = 1
    /\ summary_matched (stdout o) = length (Intermediate_df_csv o).
Proof.
  destruct (dual_guide_parsing.main Fixtures.fastq1 Fixtures.fastq2
              Fixtures.reference (py "out/S1")) as [[o|e]|] eqn:Hmain;
    try (vm_compute in Hmain; discriminate Hmain).
  exists o; split; [reflexivity|].
  destruct (X6_summary_agrees_with_files Hmain) as (Ht & _ & Hm & _).
  split; [rewrite Ht; reflexivity | exact Hm].
Defined.

Lemma NoDup_map_injective {A B} (f : A -> B) l :
  (forall x y, f x = f y -> x = y) -> NoDup l -> NoDup (map f l).
Proof.
  intros Hinj; induction 1 as [|x l Hx Hnd IH]; simpl; constructor; auto.
  intros H; apply in_map_iff in H as (y & E & Hy).
  apply Hinj in E; now subst.
Qed.

Lemma non_null_keys_total {K A} (f : A -> K) rows :
  non_null_keys (fun r => Some (f r)) rows = map f rows.
Proof. induction rows; simpl; congruence. Qed.

Lemma flat_map_ext_In {A B} (f g : A -> list B) l :
  (forall x, In x l -> f x = g x) -> flat_map f l = flat_map g l.
Proof.
  induction l as [|x l IH]; intros H; simpl; [reflexivity|].
  rewrite (H x) by now left.
  f_equal; apply IH; intros y Hy; apply H; now right.
Qed.

Lemma map_of_flat_map {A B C} (f : B -> C) (g : A -> list B) l :
  map f (flat_map g l) = flat_map (fun x => map f (g x)) l.
Proof.
  induction l as [|x l IH]; simpl; [reflexivity|].
  now rewrite map_app, IH.
Qed.

Section GroupPartition.
Variables (K A : Type) (K_eq_dec : forall a b : K, {a = b} + {a <> b})
          (key : A -> option K).

Lemma flat_map_add_one (B : K -> list A) (r : A) (k0 : K) keys :
  NoDup keys -> In k0 keys ->
  Permutation
    (flat_map (fun k => if K_eq_dec k0 k then r :: B k else B k) keys)
    (r :: flat_map B keys).
Proof.
  induction keys as [|k keys IH]; intros Hnd Hin; [destruct Hin|].
  inversion Hnd as [|? ? Hk Hnd']; subst; simpl.
  destruct (K_eq_dec k0 k) as [->|Hne].
  - simpl; constructor; apply Permutation_app_head.
    rewrite flat_map_ext_In with (g := B); [reflexivity|].
    intros x Hx; destruct (K_eq_dec k x) as [->|]; [contradiction|reflexivity].
  - destruct Hin as [->|Hin]; [congruence|].
    etransitivity; [apply Permutation_app_head, IH; assumption|].
    symmetry; apply Permutation_middle.
Qed.

(** The groups of distinct keys that cover the rows hold every row
    once. *)
Lemma groups_permutation rows : forall keys,
  NoDup keys ->
  (forall r, In r rows -> exists k, key r = Some k /\ In k keys) ->
  Permutation (flat_map (fun k => filter (has_key K_eq_dec key k) rows) keys)
              rows.
Proof.
  induction rows as [|r rows IH]; intros keys Hnd Hcover.
  - simpl; clear; induction keys; simpl; auto.
  - destruct (Hcover r (or_introl eq_refl)) as (k0 & Hk0 & Hin).
    rewrite flat_map_ext
      with (g := fun k => if K_eq_dec k0 k
                          then r :: filter (has_key K_eq_dec key k) rows
                          else filter (has_key K_eq_dec key k) rows).
    + etransitivity; [apply flat_map_add_one; assumption|].
      constructor; apply IH; [assumption|].
      intros r' Hr'; apply Hcover; now right.
    + intros k; simpl; unfold has_key at 1; rewrite Hk0.
      destruct (K_eq_dec k0 k); reflexivity.
Qed.
End GroupPartition.

(** X7.  The partition loses and duplicates nothing: the pairs of the
    bartender files, taken together, are the pairs (barcode, read
    identifier) of the rows of the intermediate table, each row once;
    there is one file for every combination key of that table, none
    of them empty, and the manifest lists each path once. *)
Theorem X7_partition_is_lossless a1 a2 ref_sgRNA_df output_dir o :
  dual_guide_parsing.main a1 a2 ref_sgRNA_df output_dir = Some (Ok o) ->
  Permutation (concat (map snd (bartender_files o)))
              (map barcode_read_pair (Intermediate_df_csv o))
  /\ list_sum (map (fun f => length (snd f)) (bartender_files o))
     = length (Intermediate_df_csv o)
  /\ length (bartender_files o)
     = length (nodup str_eq_dec
                     (map gRNA_combination (Intermediate_df_csv o)))
  /\ NoDup (Bartender_input_address o)
  /\ (forall f, In f (bartender_files o) -> snd f <> []).
Proof.
  intros Hmain; apply main_Ok_inv in Hmain; cbv zeta in Hmain.
  destruct Hmain as (_ & _ & _ & Hfiles & Haddr).
  rewrite Haddr, Hfiles; clear Haddr Hfiles.
  set (rows := Intermediate_df_csv o).
  set (key := fun r : extracted_row => Some (gRNA_combination r)).
  unfold groupby; rewrite !map_map; simpl.
  set (keys := group_keys str_eq_dec str_leb (non_null_keys key rows)).
  assert (Hnd : NoDup keys) by apply group_keys_NoDup.
  assert (Hcover : forall r, In r rows ->
                             exists k, key r = Some k /\ In k keys).
  { intros r Hr; exists (gRNA_combination r); split; [reflexivity|].
    apply group_keys_In, non_null_keys_In; eauto. }
  split; [|split; [|split; [|split]]].
  - rewrite <- flat_map_concat_map, <- map_of_flat_map.
    apply Permutation_map, groups_permutation; assumption.
  - rewrite map_ext
      with (g := fun k => length (filter (has_key str_eq_dec key k) rows))
      by (intros k; apply length_map).
    rewrite <- (filter_all keys), group_sizes_sum; auto.
    + rewrite filter_every; [reflexivity|].
      intros r _; unfold key; reflexivity.
    + intros r k Hr Hk; apply group_keys_In, non_null_keys_In; eauto.
  - rewrite length_map; unfold keys, group_keys, key.
    rewrite non_null_keys_total.
    symmetry; apply Permutation_length, sort_keys_perm.
  - apply NoDup_map_injective; [apply out_filename_inj | exact Hnd].
  - intros f Hf; apply in_map_iff in Hf as (k & <- & Hk); simpl.
    apply group_keys_In, non_null_keys_In in Hk as (r & Hr & Hkey).
    intros E; apply map_eq_nil in E.
    assert (Hin : In r (filter (has_key str_eq_dec key k) rows))
      by (apply filter_In; split; [exact Hr | now apply has_key_true]).
    rewrite E in Hin; exact Hin.
Qed.

Lemma X7_witness :
  exists o,
    dual_guide_parsing.main Fixtures.fastq1 Fixtures.fastq2 Fixtures.reference
                            (py "out/S1") = Some (Ok o)
    /\ Permutation (concat (map snd (bartender_files o)))
                   (map barcode_read_pair (Intermediate_df_csv o)).
Proof.
  destruct (dual_guide_parsing.main Fixtures.fastq1 Fixtures.fastq2
              Fixtures.reference (py "out/S1")) as [[o|e]|] eqn:Hmain;
    try (vm_compute in Hmain; discriminate Hmain).
  exists o; split; [reflexivity|].
  exact (proj1 (X7_partition_is_lossless Hmain)).
Defined.

(** ** The second file, the reference table, the first line *)

Lemma records_from_length fuel : forall c c',
  read_id c = read_id c' -> handler1 c = handler1 c' ->
  length (records_from fuel c) = length (records_from fuel c').
Proof.
  induction fuel as [|fuel IH]; intros c c' Hid Hh; simpl; rewrite <- Hid.
  - destruct (read_id c); reflexivity.
  - destruct (read_id c); [reflexivity|]; simpl; f_equal.
    apply IH; rewrite !next_record_eq; simpl; now rewrite Hh.
Qed.

Lemma records_from_no_mate2 fuel : forall c0 c,
  handler2 c0 = [] -> seq2 c0 = [] ->
  In c (records_from fuel c0) -> seq2 c = [].
Proof.
  induction fuel as [|fuel IH]; intros c0 c Hh Hs; simpl.
  - destruct (read_id c0); intros [].
  - destruct (read_id c0); [intros []|].
    intros [<-|H]; [exact Hs|].
    apply (IH _ _) in H; auto; rewrite Hh, next_record_eq; reflexivity.
Qed.

Lemma extracted_nil gRNA1_list gRNA2_list sample_id recs :
  (forall c, In c recs ->
             extract gRNA1_list gRNA2_list sample_id c = None) ->
  extracted gRNA1_list gRNA2_list sample_id recs = [].
Proof.
  induction recs as [|c recs IH]; intros H; simpl; [reflexivity|].
  rewrite (H c) by now left.
  apply IH; intros c' Hc'; apply H; now right.
Qed.

Lemma first_line_blank a1 a2 :
  records a1 a2 = [] <-> rstrip (nth 0 a1 []) = [].
Proof.
  unfold records; rewrite next_record_eq; simpl.
  destruct (rstrip (nth 0 a1 [])); split; congruence.
Qed.

(** X8.  The second file is never checked against the first: the
    number of reads counted is the same whatever the second file
    holds.  With an empty second file every read of the first is
    counted and none is extracted, and the script does not report the
    missing mates: it ends on the division of the summary when the
    first line of the first file is blank, and on the sum of line 132,
    with no file written, when it is not. *)
Theorem X8_second_file_is_not_checked a1 a2 a2' gRNA1_list gRNA2_list
        ref_sgRNA_df output_dir :
  (exists acc acc',
      extraction_loop a1 a2 gRNA1_list gRNA2_list = Some acc
      /\ extraction_loop a1 a2' gRNA1_list gRNA2_list = Some acc'
      /\ total_reads acc' = total_reads acc)
  /\ (exists acc0,
         extraction_loop a1 [] gRNA1_list gRNA2_list = Some acc0
         /\ total_reads acc0 = length (records a1 a2)
         /\ extracted_reads acc0 = 0
         /\ forall sample_id, Final_df_of sample_id acc0 = [])
  /\ (rstrip (nth 0 a1 []) = [] ->
      dual_guide_parsing.main a1 [] ref_sgRNA_df output_dir
      = Some (Raise ZeroDivisionError))
  /\ (rstrip (nth 0 a1 []) <> [] ->
      dual_guide_parsing.main a1 [] ref_sgRNA_df output_dir
      = Some (Raise TypeError)).
Proof.
  assert (Hlen : forall b b', length (records a1 b) = length (records a1 b')).
  { intros b b'; unfold records; apply records_from_length;
      rewrite !next_record_eq; reflexivity. }
  assert (Hrows : forall l1 l2 sample_id,
             extracted l1 l2 sample_id (records a1 []) = []).
  { intros l1 l2 sample_id; apply extracted_nil; intros c Hc.
    apply records_from_no_mate2 in Hc;
      [|rewrite next_record_eq; reflexivity ..].
    unfold extract; rewrite Hc.
    destruct (search temp_pattern1 (seq1 c)); reflexivity. }
  split; [|split; [|split]].
  - do 2 eexists; rewrite !extraction_loop_run.
    split; [reflexivity|]; split; [reflexivity|].
    rewrite !run_total_reads; simpl; apply Hlen.
  - eexists; rewrite extraction_loop_run; split; [reflexivity|].
    split; [rewrite run_total_reads; simpl; apply Hlen|].
    split.
    + destruct (run_counters gRNA1_list gRNA2_list [] (records a1 [])
                             collected_init) as [He _].
      rewrite He, Hrows; reflexivity.
    + intros sample_id; rewrite Final_df_run; apply Hrows.
  - intros Hblank; apply main_raises_iff, first_line_blank, Hblank.
  - intros Hline.
    pose proof (main_outcome a1 [] ref_sgRNA_df output_dir) as Hout.
    rewrite Hrows in Hout.
    destruct (records a1 []) eqn:E; [|exact Hout].
    now apply first_line_blank in E.
Qed.

Lemma X8_witness :
  dual_guide_parsing.main Fixtures.fastq1 [] Fixtures.reference (py "out/S1")
  = Some (Raise TypeError).
Proof.
  refine (proj2 (proj2 (proj2 (@X8_second_file_is_not_checked Fixtures.fastq1
                   Fixtures.fastq2 [] [] [] Fixtures.reference
                   (py "out/S1")))) _).
  vm_compute; discriminate.
Defined.

(** X9.  When the reference table has no row for position G1, or none
    for position G2, no read is expected: every extracted read goes to
    the table of unexpected reads, the intermediate table is empty and
    no bartender file is written. *)
Theorem X9_no_reference_no_expected_read a1 a2 ref_sgRNA_df output_dir o :
  gRNA_list "G1" ref_sgRNA_df = [] \/ gRNA_list "G2" ref_sgRNA_df = [] ->
  dual_guide_parsing.main a1 a2 ref_sgRNA_df output_dir = Some (Ok o) ->
  Intermediate_df_csv o = []
  /\ bartender_files o = [] /\ Bartender_input_address o = []
  /\ summary_matched (stdout o) = 0
  /\ Unexpected_reads_csv o
     = extracted (gRNA_list "G1" ref_sgRNA_df) (gRNA_list "G2" ref_sgRNA_df)
                 (sample_id_of output_dir) (records a1 a2).
Proof.
  intros Href Hmain; pose proof Hmain as Hinv.
  apply main_Ok_inv in Hinv; cbv zeta in Hinv.
  destruct Hinv as (Hsum & Hun & Hint & Hfiles & Haddr).
  set (rows := extracted _ _ _ _) in *.
  assert (Hall : forall r, In r rows -> is_Unexpected r = true).
  { intros r Hr; apply extracted_In in Hr as (c & _ & Hex).
    unfold extract in Hex.
    destruct (search temp_pattern1 _); [|discriminate].
    destruct (search temp_pattern2 _); [|discriminate].
    injection Hex as <-; unfold is_Unexpected; simpl.
    destruct Href as [-> | ->]; simpl; rewrite ?andb_false_r; reflexivity. }
  assert (Hnone : filter (fun r => negb (is_Unexpected r)) rows = []).
  { apply filter_none; intros r Hr; now rewrite Hall. }
  rewrite Hnone in Hint; rewrite Hint in Hfiles; simpl in Hfiles.
  rewrite Hfiles in Haddr; simpl in Haddr.
  repeat split; auto.
  - unfold print_summary in Hsum.
    destruct (truediv _ _); simpl in Hsum; [|discriminate].
    destruct (truediv _ _); simpl in Hsum; [|discriminate].
    injection Hsum as <-; simpl.
    destruct (run_counters (gRNA_list "G1" ref_sgRNA_df)
                (gRNA_list "G2" ref_sgRNA_df) (sample_id_of output_dir)
                (records a1 a2) collected_init) as [_ Hm].
    fold rows in Hm; rewrite Hm, Hnone; reflexivity.
  - rewrite Hun; now apply filter_every.
Qed.

Lemma X9_witness :
  exists o,
    dual_guide_parsing.main Fixtures.fastq1 Fixtures.fastq2
      [ {| Position := py "G1"; gRNA_complete := Fixtures.tag1 |};
        {| Position := py "g2"; gRNA_complete := Fixtures.tag2 |} ]
      (py "out/S1") = Some (Ok o)
    /\ Intermediate_df_csv o = [] /\ length (Unexpected_reads_csv o) = 1.
Proof.
  set (ref := [ {| Position := py "G1"; gRNA_complete := Fixtures.tag1 |};
                {| Position := py "g2"; gRNA_complete := Fixtures.tag2 |} ]).
  assert (Href : gRNA_list "G1" ref = [] \/ gRNA_list "G2" ref = [])
    by (right; reflexivity).
  destruct (dual_guide_parsing.main Fixtures.fastq1 Fixtures.fastq2 ref
                                    (py "out/S1"))
    as [[o|e]|] eqn:Hmain;
    try (vm_compute in Hmain; discriminate Hmain).
  exists o; split; [reflexivity|].
  destruct (X9_no_reference_no_expected_read Href Hmain)
    as (Hi & _ & _ & _ & Hu).
  split; [exact Hi | rewrite Hu; reflexivity].
Defined.

Lemma split_cons sep s :
  exists w ws, dual_guide_parsing.split sep s = w :: ws.
Proof.
  induction s as [|c s (w & ws & IH)]; simpl; [eauto|].
  destruct (Ascii.eqb c sep); [eauto|]; rewrite IH; eauto.
Qed.

Lemma split_app sep d rest :
  dual_guide_parsing.split sep (d ++ sep :: rest)
  = dual_guide_parsing.split sep d ++ dual_guide_parsing.split sep rest.
Proof.
  induction d as [|c d IH]; simpl.
  - now rewrite Ascii.eqb_refl.
  - destruct (Ascii.eqb c sep); [now rewrite IH|].
    rewrite IH; destruct (split_cons sep d) as (w & ws & ->); reflexivity.
Qed.

Lemma split_no_sep sep name :
  ~ In sep name -> dual_guide_parsing.split sep name = [name].
Proof.
  induction name as [|c name IH]; intros H; simpl; [reflexivity|].
  destruct (Ascii.eqb c sep) eqn:E.
  - apply Ascii.eqb_eq in E; subst; exfalso; apply H; now left.
  - rewrite IH; [reflexivity | intros Hin; apply H; now right].
Qed.

Lemma join_split sep s :
  join [sep] (dual_guide_parsing.split sep s) = s.
Proof.
  induction s as [|c s IH]; simpl; [reflexivity|].
  destruct (split_cons sep s) as (w & ws & E); rewrite E in IH |- *.
  destruct (Ascii.eqb c sep) eqn:Ec.
  - apply Ascii.eqb_eq in Ec; subst c.
    change (join [sep] ([] :: w :: ws))
      with ([] ++ [sep] ++ join [sep] (w :: ws)).
    now rewrite IH.
  - destruct ws as [|w' ws]; [simpl in *; now subst|].
    change (join [sep] ((c :: w) :: w' :: ws))
      with (c :: (w ++ [sep] ++ join [sep] (w' :: ws))).
    f_equal; exact IH.
Qed.

(** X10.  The sample identifier is what follows the last slash of the
    output directory: the whole path when it has no slash, and the
    empty string when it ends in one.  Splitting at the slashes loses
    nothing: joining the parts with slashes gives the path back. *)
Theorem X10_sample_id_is_last_component (d name : str) :
  ~ In "/"%char name ->
  sample_id_of (d ++ py "/" ++ name) = name
  /\ sample_id_of name = name
  /\ sample_id_of (d ++ py "/") = []
  /\ join (py "/") (dual_guide_parsing.split "/"%char (d ++ py "/" ++ name))
     = d ++ py "/" ++ name.
Proof.
  intros Hname; unfold sample_id_of; simpl app.
  split; [|split; [|split]].
  - now rewrite split_app, (split_no_sep Hname), last_last.
  - now rewrite (split_no_sep Hname).
  - rewrite split_app; simpl; apply last_last.
  - apply join_split.
Qed.

Lemma X10_witness :
  sample_id_of (py "/data/out" ++ py "/" ++ py "Mouse_7") = py "Mouse_7".
Proof.
  refine (proj1 (@X10_sample_id_is_last_component (py "/data/out")
                   (py "Mouse_7") _)).
  simpl; intuition discriminate.
Defined.

(** X11.  How the script ends.  It raises [ZeroDivisionError] exactly
    when the first line of the first file is missing or blank once
    stripped; it raises [TypeError] exactly when that line is not
    blank and no read is extracted; it returns its summary and tables
    exactly when at least one read is extracted. *)
Theorem X11_how_the_script_ends a1 a2 ref_sgRNA_df output_dir :
  let rows :=
    extracted (gRNA_list "G1" ref_sgRNA_df) (gRNA_list "G2" ref_sgRNA_df)
              (sample_id_of output_dir) (records a1 a2) in
  (dual_guide_parsing.main a1 a2 ref_sgRNA_df output_dir
   = Some (Raise ZeroDivisionError)
   <-> rstrip (nth 0 a1 []) = [])
  /\ (dual_guide_parsing.main a1 a2 ref_sgRNA_df output_dir
      = Some (Raise TypeError)
      <-> rstrip (nth 0 a1 []) <> [] /\ rows = [])
  /\ ((exists o, dual_guide_parsing.main a1 a2 ref_sgRNA_df output_dir
                 = Some (Ok o))
      <-> rows <> []).
Proof.
  intros rows.
  pose proof (main_outcome a1 a2 ref_sgRNA_df output_dir) as Hout.
  pose proof (first_line_blank a1 a2) as Hrec.
  fold rows in Hout.
  destruct (records a1 a2) as [|c recs] eqn:E.
  - assert (Hblank : rstrip (nth 0 a1 []) = []) by now apply Hrec.
    assert (Hrows : rows = []) by reflexivity.
    rewrite Hout, Hrows; split; [tauto|]; split.
    + split; [discriminate | intros [H _]; contradiction].
    + split; [intros [o H]; discriminate | congruence].
  - assert (Hline : rstrip (nth 0 a1 []) <> [])
      by (intros H; apply Hrec in H; discriminate).
    destruct rows as [|r rows'].
    + rewrite Hout; split; [split; [discriminate | contradiction]|]; split.
      * tauto.
      * split; [intros [o H]; discriminate | congruence].
    + destruct Hout as [o Hout]; rewrite Hout.
      split; [split; [discriminate | contradiction]|]; split.
      * split; [discriminate | intros [_ H]; discriminate].
      * split; [discriminate | eauto].
Qed.

(** * Further properties of the aggregation *)

(** ** When the aggregation raises *)

Lemma unified_table_result input_folder :
  match barcode_files input_folder with
  | [] => unified_table input_folder = Raise ValueError
  | _ :: _ => exists final_df, unified_table input_folder = Ok final_df
  end.
Proof.
  unfold unified_table; destruct (barcode_files input_folder); simpl; eauto.
Qed.

Lemma for_subfolders_result subfolders :
  (Forall (fun f => barcode_files f <> []) subfolders ->
   exists done dfs,
     for_subfolders subfolders = Ok (done, dfs)
     /\ length done = length subfolders /\ length dfs = length subfolders)
  /\ (Exists (fun f => barcode_files f = []) subfolders ->
      for_subfolders subfolders = Raise ValueError).
Proof.
  induction subfolders as [|sub rest [IHok IHbad]]; split.
  - intros _; exists [], []; auto.
  - intros H; inversion H.
  - intros H; inversion H as [|? ? Hsub Hrest]; subst.
    destruct (IHok Hrest) as (done & dfs & E & L1 & L2).
    pose proof (unified_table_result sub) as U.
    destruct (barcode_files sub); [congruence|].
    destruct U as [final_df U]; simpl.
    unfold combine_sgRNA_barcode_from_same_mouse; rewrite U, E; simpl.
    do 2 eexists; split; [reflexivity|]; simpl; auto.
  - intros H; simpl.
    pose proof (unified_table_result sub) as U.
    unfold combine_sgRNA_barcode_from_same_mouse.
    destruct (barcode_files sub) eqn:B.
    + now rewrite U.
    + destruct U as [final_df U]; rewrite U; simpl.
      inversion H as [? ? Hsub|? ? Hrest]; subst; [congruence|].
      now rewrite (IHbad Hrest).
Qed.

(** X12.  The aggregation returns its tables when there is at least
    one sample folder and every folder has at least one cluster file;
    with no folder, or with a folder without a cluster file, it raises
    [ValueError] and no final table is written. *)
Theorem X12_aggregation_raises_without_input subfolders :
  (subfolders <> [] ->
   Forall (fun f => barcode_files f <> []) subfolders ->
   exists out,
     dual_guide_aggregate.main subfolders = Ok out
     /\ map sample_id (per_sample out) = map basename subfolders)
  /\ (subfolders = [] \/ Exists (fun f => barcode_files f = []) subfolders ->
      dual_guide_aggregate.main subfolders = Raise ValueError).
Proof.
  unfold dual_guide_aggregate.main; split.
  - intros Hne Hall.
    destruct (proj1 (for_subfolders_result subfolders) Hall)
      as (done & dfs & E & _ & L).
    rewrite E; simpl.
    destruct dfs as [|d dfs];
      [destruct subfolders; [congruence | discriminate]|].
    simpl; eexists; split; [reflexivity|]; simpl.
    apply for_subfolders_Ok in E as [_ HF].
    clear -HF; induction HF as [|sub s subs ss [Hid _] _ IH]; simpl;
      congruence.
  - intros [-> | Hbad]; [reflexivity|].
    now rewrite (proj2 (for_subfolders_result subfolders) Hbad).
Qed.

Lemma X12_witness :
  dual_guide_aggregate.main
    [folder (py "S1");
     {| basename := py "S2"; barcode_files := []; ref_file := [] |}]
  = Raise ValueError.
Proof.
  apply (proj2 (X12_aggregation_raises_without_input _)).
  right; apply Exists_cons_tl, Exists_cons_hd; reflexivity.
Defined.

(** ** The right join and the counts *)

Lemma bartender_join_cons merged_df p pairs :
  bartender_join merged_df (p :: pairs)
  = match filter (fun j => str_eqb (j_Clonal_barcode j) (bt_Clonal_barcode p))
                 merged_df with
    | [] => [ {| m_Clonal_barcode_center := None;
                 m_Clonal_barcode := bt_Clonal_barcode p;
                 m_Read_ID := bt_Read_ID p |} ]
    | partners =>
        map (fun j => {| m_Clonal_barcode_center :=
                           Some (j_Clonal_barcode_center j);
                         m_Clonal_barcode := bt_Clonal_barcode p;
                         m_Read_ID := bt_Read_ID p |})
            partners
    end ++ bartender_join merged_df pairs.
Proof. reflexivity. Qed.

(** X13.  The right join keeps every bartender pair, in the order of
    the file: the merged table lists, for each pair in turn, one row
    for every joined row that has its barcode, and one row when none
    has.  It has at least as many rows as the bartender file. *)
Theorem X13_right_join_keeps_every_pair barcode_file cluster_file pairs :
  let joined := cluster_join (map drop_Frequency barcode_file)
                             (map drop_Score_time cluster_file) in
  let merged := merge_barcode_and_sgRNA_output barcode_file cluster_file
                                               pairs in
  map (fun m => (m_Clonal_barcode m, m_Read_ID m)) merged
  = flat_map
      (fun p =>
         repeat (bt_Clonal_barcode p, bt_Read_ID p)
                (Nat.max 1
                   (length (filter (fun j => str_eqb (j_Clonal_barcode j)
                                                     (bt_Clonal_barcode p))
                                   joined))))
      pairs
  /\ length pairs <= length merged.
Proof.
  intros joined merged; unfold merged, merge_barcode_and_sgRNA_output.
  fold joined.
  induction pairs as [|p pairs [IH1 IH2]]; [split; [reflexivity | simpl; lia]|].
  rewrite bartender_join_cons, map_app, length_app; cbn [flat_map length].
  rewrite IH1; split.
  - f_equal.
    destruct (filter _ joined) as [|j js]; [reflexivity|].
    change (Nat.max 1 (length (j :: js))) with (length (j :: js)).
    rewrite map_map; cbn [m_Clonal_barcode m_Read_ID].
    generalize (j :: js); intros l.
    induction l as [|a l IHl]; simpl; [reflexivity | now rewrite IHl].
  - destruct (filter _ joined); simpl; lia.
Qed.

(** ** The rows of the frequency tables *)

Lemma bearing_raw_In k r final_df :
  In r final_df -> raw_key_of r = Some k -> In r (bearing_raw k final_df).
Proof.
  intros Hr Hk; apply filter_In; split; [exact Hr|].
  rewrite Hk; unfold raw_key_eqb; now destruct (raw_key_eq_dec k k).
Qed.

Lemma bearing_complete_In k r final_df :
  In r final_df -> complete_key_of r = Some k ->
  In r (bearing_complete k final_df).
Proof.
  intros Hr Hk; apply filter_In; split; [exact Hr|].
  rewrite Hk; unfold complete_key_eqb; now destruct (complete_key_eq_dec k k).
Qed.

Lemma raw_row_In x final_df :
  In x (deduplicate_raw final_df) ->
  exists r k, In r final_df /\ raw_key_of r = Some k
              /\ x = mk_raw_row k (length (bearing_raw k final_df)).
Proof.
  rewrite deduplicate_raw_eq; intros H.
  apply in_map_iff in H as (k & <- & Hk).
  apply group_keys_In, non_null_keys_In in Hk as (r & Hr & Hkey); eauto.
Qed.

Lemma complete_row_In y final_df :
  In y (deduplicate_complete final_df) ->
  exists r k, In r final_df /\ complete_key_of r = Some k
              /\ y = mk_complete_row k (length (bearing_complete k final_df)).
Proof.
  rewrite deduplicate_complete_eq; intros H.
  apply in_map_iff in H as (k & <- & Hk).
  apply group_keys_In, non_null_keys_In in Hk as (r & Hr & Hkey); eauto.
Qed.

Lemma In_length_pos {A} (x : A) l : In x l -> 1 <= length l.
Proof. destruct l; simpl; [intros [] | lia]. Qed.

Lemma non_null_keys_complete final_df :
  non_null_keys complete_key_of final_df
  = map drop_barcode (non_null_keys raw_key_of final_df).
Proof.
  induction final_df as [|r l IH]; simpl; [reflexivity|].
  rewrite complete_key_of_raw_key.
  destruct (raw_key_of r); simpl; now rewrite IH.
Qed.

Lemma non_null_keys_length final_df :
  length (non_null_keys raw_key_of final_df)
  = length (filter has_full_key final_df).
Proof.
  induction final_df as [|r l IH]; simpl; [reflexivity|].
  rewrite <- has_full_key_raw_key, length_app.
  destruct (raw_key_of r); simpl; lia.
Qed.

Lemma group_keys_length {K} (K_eq_dec : forall a b : K, {a = b} + {a <> b})
      K_leb (l : list K) :
  length (group_keys K_eq_dec K_leb l) = length (nodup K_eq_dec l).
Proof.
  unfold group_keys; symmetry; apply Permutation_length, sort_keys_perm.
Qed.

(** X14.  No row of a frequency table has a zero count, and no table
    has two rows for one key.  The complete table has at most as many
    rows as the raw table, which has at most as many as there are
    unified rows with a cluster center; the frequencies of the two
    tables add up to the same number. *)
Theorem X14_frequency_tables_are_consistent (final_df : list final_row) :
  (forall x, In x (deduplicate_raw final_df) -> 1 <= raw_Frequency x)
  /\ (forall y, In y (deduplicate_complete final_df) -> 1 <= cp_Frequency y)
  /\ NoDup (map key_of_raw_row (deduplicate_raw final_df))
  /\ NoDup (map key_of_complete_row (deduplicate_complete final_df))
  /\ length (deduplicate_complete final_df)
     <= length (deduplicate_raw final_df)
  /\ length (deduplicate_raw final_df) <= length (filter has_center final_df)
  /\ total_Frequency_raw (deduplicate_raw final_df)
     = total_Frequency_complete (deduplicate_complete final_df).
Proof.
  split; [|split; [|split; [|split; [|split; [|split]]]]].
  - intros x Hx; apply raw_row_In in Hx as (r & k & Hr & Hk & ->).
    rewrite Frequency_mk_raw_row.
    eapply In_length_pos, bearing_raw_In; eassumption.
  - intros y Hy; apply complete_row_In in Hy as (r & k & Hr & Hk & ->).
    rewrite Frequency_mk_complete_row.
    eapply In_length_pos, bearing_complete_In; eassumption.
  - rewrite deduplicate_raw_eq, map_map.
    rewrite map_ext with (g := fun k => k)
      by (intros k; apply key_of_mk_raw_row).
    rewrite map_id; apply group_keys_NoDup.
  - rewrite deduplicate_complete_eq, map_map.
    rewrite map_ext with (g := fun k => k)
      by (intros k; apply key_of_mk_complete_row).
    rewrite map_id; apply group_keys_NoDup.
  - rewrite deduplicate_raw_eq, deduplicate_complete_eq, !length_map.
    rewrite !group_keys_length, non_null_keys_complete.
    rewrite <- (length_map drop_barcode
                  (nodup raw_key_eq_dec (non_null_keys raw_key_of final_df))).
    apply NoDup_incl_length; [apply NoDup_nodup|].
    intros k Hk; apply nodup_In, in_map_iff in Hk as (k' & <- & Hk').
    apply in_map, nodup_In, Hk'.
  - apply Nat.le_trans with (length (filter has_full_key final_df));
      [|apply filter_implies_length, has_full_key_center].
    rewrite deduplicate_raw_eq, length_map, group_keys_length.
    rewrite <- non_null_keys_length.
    apply NoDup_incl_length; [apply NoDup_nodup|].
    intros k Hk; now apply nodup_In in Hk.
  - now rewrite total_Frequency_raw_eq, total_Frequency_complete_eq.
Qed.

(** ** Unique keys: no read is counted twice *)

Lemma filter_NoDup_le1 {A B} (f : A -> B) (p : A -> bool) (v : B) l :
  NoDup (map f l) ->
  (forall x, In x l -> p x = true -> f x = v) ->
  length (filter p l) <= 1.
Proof.
  induction l as [|x l IH]; simpl; intros Hnd Hp; [lia|].
  inversion Hnd as [|? ? Hx Hnd']; subst.
  destruct (p x) eqn:Px.
  - rewrite filter_none; [simpl; lia|].
    intros y Hy; destruct (p y) eqn:Py; [|reflexivity].
    exfalso; apply Hx.
    rewrite (Hp x (or_introl eq_refl) Px), <- (Hp y (or_intror Hy) Py).
    now apply in_map.
  - apply IH; auto.
Qed.

Lemma filter_flat_map_le1 {A B V} (key : A -> V) (key' : B -> V)
      (p : B -> bool) (v : V) (g : A -> list B) l :
  NoDup (map key l) ->
  (forall x y, In x l -> In y (g x) -> key' y = key x) ->
  (forall y, p y = true -> key' y = v) ->
  (forall x, In x l -> length (g x) <= 1) ->
  length (filter p (flat_map g l)) <= 1.
Proof.
  induction l as [|x l IH]; simpl; intros Hnd Hkey Hp Hlen; [lia|].
  inversion Hnd as [|? ? Hx Hnd']; subst.
  rewrite filter_app, length_app.
  destruct (filter p (g x)) as [|y ys] eqn:E.
  - simpl; apply IH; auto.
  - assert (Hy : In y (filter p (g x))) by (rewrite E; now left).
    apply filter_In in Hy as [Hy Py].
    rewrite filter_none.
    + rewrite <- E; pose proof (filter_length_le p (g x)).
      specialize (Hlen x (or_introl eq_refl)); simpl; lia.
    + intros y' Hy'; destruct (p y') eqn:Py'; [|reflexivity].
      apply in_flat_map in Hy' as (x' & Hx' & Hy').
      exfalso; apply Hx.
      rewrite <- (Hkey x y (or_introl eq_refl) Hy), (Hp y Py),
        <- (Hp y' Py'), (Hkey x' y' (or_intror Hx') Hy').
      now apply in_map.
Qed.

Lemma cluster_join_partners barcode_file cluster_file b :
  NoDup (map bc_Unique_reads barcode_file) ->
  NoDup (map cl_Cluster_ID cluster_file) ->
  length (filter (fun j => str_eqb (j_Clonal_barcode j) b)
                 (cluster_join (map drop_Frequency barcode_file)
                               (map drop_Score_time cluster_file))) <= 1.
Proof.
  intros Hb Hc; unfold cluster_join.
  apply filter_flat_map_le1
    with (key := bd_Unique_reads) (key' := j_Clonal_barcode) (v := b).
  - now rewrite map_map.
  - intros x y _ Hy; apply in_map_iff in Hy as (c & <- & _); reflexivity.
  - intros y Hy; now apply str_eqb_eq in Hy.
  - intros x _; rewrite length_map.
    apply filter_NoDup_le1 with (f := cd_Cluster_ID) (v := bd_Cluster_ID x).
    + now rewrite map_map.
    + intros c _ Hcid; apply Z.eqb_eq in Hcid; congruence.
Qed.

Lemma merge_length barcode_file cluster_file pairs :
  NoDup (map bc_Unique_reads barcode_file) ->
  NoDup (map cl_Cluster_ID cluster_file) ->
  length (merge_barcode_and_sgRNA_output barcode_file cluster_file pairs)
  = length pairs.
Proof.
  intros Hb Hc; unfold merge_barcode_and_sgRNA_output.
  induction pairs as [|p pairs IH]; [reflexivity|].
  rewrite bartender_join_cons, length_app, IH.
  pose proof (cluster_join_partners (bt_Clonal_barcode p) Hb Hc) as Hle.
  destruct (filter _ _) as [|j [|j' js]]; simpl in *; lia.
Qed.

Lemma merge_pairs barcode_file cluster_file pairs :
  NoDup (map bc_Unique_reads barcode_file) ->
  NoDup (map cl_Cluster_ID cluster_file) ->
  map (fun m => (m_Read_ID m, m_Clonal_barcode m))
      (merge_barcode_and_sgRNA_output barcode_file cluster_file pairs)
  = map (fun t => (bt_Read_ID t, bt_Clonal_barcode t)) pairs.
Proof.
  intros Hb Hc; unfold merge_barcode_and_sgRNA_output.
  induction pairs as [|p pairs IH]; [reflexivity|].
  rewrite bartender_join_cons, map_app, IH.
  pose proof (cluster_join_partners (bt_Clonal_barcode p) Hb Hc) as Hle.
  destruct (filter _ _) as [|j [|j' js]]; simpl in *; [reflexivity ..|lia].
Qed.

Lemma reference_join_matches (m : merged_row) sgRNA_ref_df :
  NoDup (map (fun r => (rf_Read_ID r, rf_Clonal_barcode r)) sgRNA_ref_df) ->
  length (filter (fun r => str_eqb (m_Read_ID m) (rf_Read_ID r)
                           && str_eqb (m_Clonal_barcode m)
                                      (rf_Clonal_barcode r))
                 sgRNA_ref_df) <= 1.
Proof.
  intros Hnd.
  apply filter_NoDup_le1
    with (f := fun r => (rf_Read_ID r, rf_Clonal_barcode r))
         (v := (m_Read_ID m, m_Clonal_barcode m)); [exact Hnd|].
  intros r _ H; apply andb_true_iff in H as [H1 H2].
  apply str_eqb_eq in H1, H2; congruence.
Qed.

Lemma reference_join_length combined_df sgRNA_ref_df :
  NoDup (map (fun r => (rf_Read_ID r, rf_Clonal_barcode r)) sgRNA_ref_df) ->
  length (reference_join combined_df sgRNA_ref_df) <= length combined_df.
Proof.
  intros Hnd; unfold reference_join.
  induction combined_df as [|m l IH]; simpl; [lia|].
  rewrite length_app, length_map.
  pose proof (reference_join_matches m Hnd); lia.
Qed.

Lemma reference_join_key f combined_df sgRNA_ref_df :
  In f (reference_join combined_df sgRNA_ref_df) ->
  In (f_Read_ID f, f_Clonal_barcode f)
     (map (fun m => (m_Read_ID m, m_Clonal_barcode m)) combined_df).
Proof.
  unfold reference_join; rewrite in_flat_map; intros (m & Hm & Hf).
  apply in_map_iff in Hf as (r & <- & _); simpl.
  apply in_map_iff; exists m; auto.
Qed.

Lemma reference_join_NoDup combined_df sgRNA_ref_df :
  NoDup (map (fun r => (rf_Read_ID r, rf_Clonal_barcode r)) sgRNA_ref_df) ->
  NoDup (map (fun m => (m_Read_ID m, m_Clonal_barcode m)) combined_df) ->
  NoDup (map (fun f => (f_Read_ID f, f_Clonal_barcode f))
             (reference_join combined_df sgRNA_ref_df)).
Proof.
  intros Href; induction combined_df as [|m l IH]; intros Hnd;
    [constructor|].
  inversion Hnd as [|? ? Hm Hnd']; subst.
  specialize (IH Hnd').
  pose proof (reference_join_matches m Href) as Hle.
  assert (Hkey : forall f, In f (reference_join l sgRNA_ref_df) ->
                           (f_Read_ID f, f_Clonal_barcode f)
                           <> (m_Read_ID m, m_Clonal_barcode m)).
  { intros f Hf E; apply reference_join_key in Hf.
    rewrite E in Hf; exact (Hm Hf). }
  unfold reference_join in IH, Hkey |- *; cbn [flat_map].
  destruct (filter _ sgRNA_ref_df) as [|r [|r' rs]]; simpl in *;
    [exact IH| |lia].
  constructor; [|exact IH].
  intros Hin; apply in_map_iff in Hin as (f & E & Hf).
  exact (Hkey f Hf E).
Qed.

Lemma NoDup_filter_le1 {A B} (key : A -> B) (p : A -> bool) (v : B) l :
  NoDup (map key l) ->
  (forall x, p x = true -> key x = v) ->
  length (filter p l) <= 1.
Proof.
  intros Hnd Hp; apply filter_NoDup_le1 with (f := key) (v := v); auto.
Qed.

(** X15.  When, in every partition, no barcode occurs twice in the
    barcode file and no cluster identifier twice in the cluster file,
    when no (read, barcode) pair occurs twice in the intermediate
    table, and none twice in the bartender files of the sample, no
    read is counted twice: no two unified rows have the same read
    identifier and barcode, so that a read contributes at most one
    unit to the frequencies of either table.  Each partition is
    merged into as many rows as it has bartender pairs, and the
    unified table, hence the frequencies of either table together, do
    not exceed the number of bartender pairs of the sample. *)
Theorem X15_no_read_is_counted_twice input_folder final_df :
  Forall (fun p => NoDup (map bc_Unique_reads (barcode_file p))
                   /\ NoDup (map cl_Cluster_ID (cluster_file p)))
         (barcode_files input_folder) ->
  NoDup (map (fun r => (rf_Read_ID r, rf_Clonal_barcode r))
             (ref_file input_folder)) ->
  NoDup (concat (map (fun p => map (fun t => (bt_Read_ID t,
                                              bt_Clonal_barcode t))
                                   (bartender_input_file p))
                     (barcode_files input_folder))) ->
  unified_table input_folder = Ok final_df ->
  let pairs := list_sum (map (fun p => length (bartender_input_file p))
                             (barcode_files input_folder)) in
  NoDup (map (fun f => (f_Read_ID f, f_Clonal_barcode f)) final_df)
  /\ (forall read barcode,
        length (filter (fun f => str_eqb (f_Read_ID f) read
                                 && str_eqb (f_Clonal_barcode f) barcode)
                       final_df) <= 1)
  /\ Forall (fun p => length (merge_barcode_and_sgRNA_output
                                (barcode_file p) (cluster_file p)
                                (bartender_input_file p))
                      = length (bartender_input_file p))
            (barcode_files input_folder)
  /\ length final_df <= pairs
  /\ total_Frequency_raw (deduplicate_raw final_df) <= pairs
  /\ total_Frequency_complete (deduplicate_complete final_df) <= pairs.
Proof.
  intros Hparts Href Hpairs Hu pairs.
  assert (Hmerge : Forall (fun p => length (merge_barcode_and_sgRNA_output
                                              (barcode_file p) (cluster_file p)
                                              (bartender_input_file p))
                                    = length (bartender_input_file p))
                          (barcode_files input_folder)).
  { eapply Forall_impl; [|exact Hparts].
    intros p [Hb Hc]; now apply merge_length. }
  unfold unified_table in Hu.
  destruct (pd_concat _) as [combined|] eqn:Ec; simpl in Hu; [|discriminate].
  apply pd_concat_Ok in Ec; injection Hu as <-; subst combined.
  set (combined :=
         concat (map (fun p => merge_barcode_and_sgRNA_output
                                 (barcode_file p) (cluster_file p)
                                 (bartender_input_file p))
                     (barcode_files input_folder))) in *.
  assert (Hkeys : map (fun m => (m_Read_ID m, m_Clonal_barcode m)) combined
                  = concat (map (fun p => map (fun t => (bt_Read_ID t,
                                                         bt_Clonal_barcode t))
                                              (bartender_input_file p))
                                (barcode_files input_folder))).
  { unfold combined; rewrite concat_map, map_map; f_equal.
    clear -Hparts; induction Hparts as [|p ps [Hb Hc] _ IH]; simpl;
      [reflexivity|].
    now rewrite merge_pairs, IH. }
  assert (Hnd : NoDup (map (fun f => (f_Read_ID f, f_Clonal_barcode f))
                           (reference_join combined (ref_file input_folder)))).
  { apply reference_join_NoDup; [exact Href | now rewrite Hkeys]. }
  assert (Hlen : length (reference_join combined (ref_file input_folder))
                 <= pairs).
  { etransitivity; [apply reference_join_length, Href|].
    unfold pairs, combined; clear -Hmerge.
    induction Hmerge as [|p ps Hp _ IH]; simpl; [lia|].
    rewrite length_app; lia. }
  pose proof (filter_length_le has_full_key
                (reference_join combined (ref_file input_folder))) as Hc.
  rewrite total_Frequency_raw_eq, total_Frequency_complete_eq.
  split; [exact Hnd|]; split; [|repeat split; auto; lia].
  intros read barcode.
  apply NoDup_filter_le1
    with (key := fun f => (f_Read_ID f, f_Clonal_barcode f))
         (v := (read, barcode)); [exact Hnd|].
  intros f H; apply andb_true_iff in H as [H1 H2].
  apply str_eqb_eq in H1, H2; congruence.
Qed.

Lemma X15_witness :
  exists final_df,
    unified_table (folder (py "S1")) = Ok final_df
    /\ NoDup (map (fun f => (f_Read_ID f, f_Clonal_barcode f)) final_df)
    /\ length final_df <= 3
    /\ total_Frequency_raw (deduplicate_raw final_df) <= 3.
Proof.
  destruct (unified_table (folder (py "S1"))) as [final_df|e] eqn:Hu;
    [|vm_compute in Hu; discriminate Hu].
  exists final_df; split; [reflexivity|].
  assert (Hparts :
            Forall (fun p => NoDup (map bc_Unique_reads (barcode_file p))
                             /\ NoDup (map cl_Cluster_ID (cluster_file p)))
                   (barcode_files (folder (py "S1")))).
  { repeat constructor; simpl; intuition discriminate. }
  assert (Href : NoDup (map (fun r => (rf_Read_ID r, rf_Clonal_barcode r))
                            (ref_file (folder (py "S1"))))).
  { repeat constructor; simpl; intuition discriminate. }
  assert (Hpairs :
            NoDup (concat (map (fun p => map (fun t => (bt_Read_ID t,
                                                        bt_Clonal_barcode t))
                                             (bartender_input_file p))
                               (barcode_files (folder (py "S1")))))).
  { repeat constructor; simpl; intuition discriminate. }
  destruct (X15_no_read_is_counted_twice Hparts Href Hpairs Hu)
    as (H0 & _ & _ & H1 & H2 & _).
  split; [exact H0|]; split; [exact H1 | exact H2].
Defined.

(** ** The order of the rows *)

Lemma nat_of_ascii_inj a b : nat_of_ascii a = nat_of_ascii b -> a = b.
Proof.
  intros H; rewrite <- (ascii_nat_embedding a), <- (ascii_nat_embedding b).
  now rewrite H.
Qed.

Lemma str_leb_total_order : total_order str_leb.
Proof.
  split; [|split].
  - induction a as [|x a IH]; intros [|y b]; simpl; auto.
    destruct (Nat.ltb_spec (nat_of_ascii x) (nat_of_ascii y));
      destruct (Nat.ltb_spec (nat_of_ascii y) (nat_of_ascii x)); auto.
  - induction a as [|x a IH]; intros [|y b]; simpl; try discriminate; auto.
    destruct (Nat.ltb_spec (nat_of_ascii x) (nat_of_ascii y));
      destruct (Nat.ltb_spec (nat_of_ascii y) (nat_of_ascii x));
      try discriminate; try lia.
    intros Hab Hba; f_equal; [|now apply IH].
    apply nat_of_ascii_inj; lia.
  - induction a as [|x a IH]; intros [|y b] [|z c]; simpl;
      try discriminate; auto.
    destruct (Nat.ltb_spec (nat_of_ascii x) (nat_of_ascii y));
      destruct (Nat.ltb_spec (nat_of_ascii y) (nat_of_ascii x));
      destruct (Nat.ltb_spec (nat_of_ascii y) (nat_of_ascii z));
      destruct (Nat.ltb_spec (nat_of_ascii z) (nat_of_ascii y));
      destruct (Nat.ltb_spec (nat_of_ascii x) (nat_of_ascii z));
      destruct (Nat.ltb_spec (nat_of_ascii z) (nat_of_ascii x));
      try discriminate; try lia; auto.
    apply IH.
Qed.

Lemma pair_leb_total_order {A B} (A_eq_dec : forall a b : A, {a = b} + {a <> b})
      (A_leb : A -> A -> bool) (B_leb : B -> B -> bool) :
  total_order A_leb -> total_order B_leb ->
  total_order (pair_leb A_eq_dec A_leb B_leb).
Proof.
  intros (At & Aa & Atr) (Bt & Ba & Btr); unfold pair_leb.
  split; [|split].
  - intros [a1 b1] [a2 b2]; simpl.
    destruct (A_eq_dec a1 a2) as [->|N].
    + destruct (A_eq_dec a2 a2); [apply Bt | congruence].
    + destruct (A_eq_dec a2 a1); [congruence | apply At].
  - intros [a1 b1] [a2 b2]; simpl.
    destruct (A_eq_dec a1 a2) as [->|N].
    + destruct (A_eq_dec a2 a2); [|congruence].
      intros H1 H2; f_equal; now apply Ba.
    + destruct (A_eq_dec a2 a1); [congruence|].
      intros H1 H2; exfalso; apply N; now apply Aa.
  - intros [a1 b1] [a2 b2] [a3 b3]; simpl.
    destruct (A_eq_dec a1 a2) as [E12|N12];
      destruct (A_eq_dec a2 a3) as [E23|N23];
      destruct (A_eq_dec a1 a3) as [E13|N13];
      try congruence; intros H1 H2; subst; eauto.
Qed.

Lemma raw_key_leb_total_order : total_order raw_key_leb.
Proof.
  unfold raw_key_leb, complete_key_leb, key4_leb.
  repeat (apply pair_leb_total_order); apply str_leb_total_order.
Qed.

Lemma complete_key_leb_total_order : total_order complete_key_leb.
Proof.
  unfold complete_key_leb, key4_leb.
  repeat (apply pair_leb_total_order); apply str_leb_total_order.
Qed.

Section CanonicalOrder.
Variables (K : Type) (K_eq_dec : forall a b : K, {a = b} + {a <> b})
          (K_leb : K -> K -> bool).
Hypothesis K_order : total_order K_leb.

Lemma insert_sorted_ascending k l :
  ascending K_leb l -> ascending K_leb (insert_sorted K_leb k l).
Proof.
  destruct K_order as (Ht & _ & Htr); unfold ascending.
  induction 1 as [|x l Hl IH Hx]; simpl; [repeat constructor|].
  destruct (K_leb k x) eqn:E.
  - constructor; [now constructor|].
    constructor; [exact E|].
    eapply Forall_impl; [|exact Hx]; intros y Hy; eapply Htr; eauto.
  - constructor; [exact IH|].
    apply Forall_forall; intros y Hy.
    apply (Permutation_in _ (Permutation_sym (insert_sorted_perm K_leb k l)))
      in Hy.
    destruct Hy as [<-|Hy].
    + destruct (Ht k x); congruence.
    + rewrite Forall_forall in Hx; now apply Hx.
Qed.

Lemma sort_keys_ascending l : ascending K_leb (sort_keys K_leb l).
Proof.
  induction l as [|x l IH]; simpl; [constructor|].
  now apply insert_sorted_ascending.
Qed.

Lemma ascending_unique l : forall l',
  ascending K_leb l -> ascending K_leb l' -> Permutation l l' -> l = l'.
Proof.
  destruct K_order as (_ & Ha & _); unfold ascending.
  induction l as [|x l IH]; intros [|y l'] Hl Hl' Hp.
  - reflexivity.
  - apply Permutation_nil in Hp; discriminate.
  - apply Permutation_sym, Permutation_nil in Hp; discriminate.
  - inversion Hl as [|? ? Hs Hx]; inversion Hl' as [|? ? Hs' Hy]; subst.
    assert (E : x = y).
    { assert (Hxy : In x (y :: l'))
        by (eapply Permutation_in; [exact Hp | now left]).
      assert (Hyx : In y (x :: l))
        by (eapply Permutation_in; [symmetry; exact Hp | now left]).
      destruct Hxy as [->|Hxy]; [reflexivity|].
      destruct Hyx as [->|Hyx]; [reflexivity|].
      rewrite Forall_forall in Hx, Hy; apply Ha; auto. }
    subst y; f_equal; apply IH; auto.
    eapply Permutation_cons_inv; exact Hp.
Qed.

Lemma group_keys_permutation l l' :
  Permutation l l' ->
  group_keys K_eq_dec K_leb l = group_keys K_eq_dec K_leb l'.
Proof.
  intros Hp; unfold group_keys.
  apply ascending_unique; try apply sort_keys_ascending.
  rewrite <- !sort_keys_perm.
  apply NoDup_Permutation; try apply NoDup_nodup.
  intros k; rewrite !nodup_In; split; apply Permutation_in;
    [exact Hp | symmetry; exact Hp].
Qed.
End CanonicalOrder.

Lemma filter_length_permutation {A} (f : A -> bool) l l' :
  Permutation l l' -> length (filter f l) = length (filter f l').
Proof.
  induction 1 as [|x l l' _ IH|x y l|l l' l'' _ IH1 _ IH2]; simpl;
    [reflexivity | | | congruence].
  - destruct (f x); simpl; congruence.
  - destruct (f x), (f y); reflexivity.
Qed.

Lemma non_null_keys_permutation {K A} (key : A -> option K) l l' :
  Permutation l l' ->
  Permutation (non_null_keys key l) (non_null_keys key l').
Proof. intros H; unfold non_null_keys; now apply Permutation_flat_map. Qed.

Lemma deduplicate_permutation final_df final_df' :
  Permutation final_df final_df' ->
  deduplicate_raw final_df = deduplicate_raw final_df'
  /\ deduplicate_complete final_df = deduplicate_complete final_df'.
Proof.
  intros Hp; rewrite !deduplicate_raw_eq, !deduplicate_complete_eq; split.
  - rewrite (group_keys_permutation raw_key_eq_dec raw_key_leb_total_order
               (non_null_keys_permutation raw_key_of Hp)).
    apply map_ext; intros k; f_equal.
    now apply filter_length_permutation.
  - rewrite (group_keys_permutation complete_key_eq_dec
               complete_key_leb_total_order
               (non_null_keys_permutation complete_key_of Hp)).
    apply map_ext; intros k; f_equal.
    now apply filter_length_permutation.
Qed.

Lemma concat_permutation {A} (l l' : list (list A)) :
  Permutation l l' -> Permutation (concat l) (concat l').
Proof.
  induction 1; simpl; auto.
  - now apply Permutation_app_head.
  - rewrite !app_assoc; apply Permutation_app_tail, Permutation_app_comm.
  - etransitivity; eassumption.
Qed.

Lemma pd_concat_permutation {A} (l l' : list (list A)) :
  Permutation l l' ->
  (pd_concat l = Raise ValueError /\ pd_concat l' = Raise ValueError)
  \/ exists t t', pd_concat l = Ok t /\ pd_concat l' = Ok t'
                  /\ Permutation t t'.
Proof.
  intros Hp; destruct l as [|x l].
  - apply Permutation_nil in Hp; subst; now left.
  - destruct l' as [|x' l'].
    + apply Permutation_sym, Permutation_nil in Hp; discriminate.
    + right; do 2 eexists; repeat split.
      now apply concat_permutation.
Qed.

(** X16.  The two frequency tables of a sample do not depend on the
    order of the unified rows, nor on the order in which the cluster
    files of the sample are found; their rows are in ascending order
    of the key columns. *)
Theorem X16_tables_do_not_depend_on_order :
  (forall final_df final_df',
      Permutation final_df final_df' ->
      deduplicate_raw final_df = deduplicate_raw final_df'
      /\ deduplicate_complete final_df = deduplicate_complete final_df')
  /\ (forall input_folder input_folder',
        Permutation (barcode_files input_folder)
                    (barcode_files input_folder') ->
        ref_file input_folder = ref_file input_folder' ->
        combine_sgRNA_barcode_from_same_mouse input_folder
        = combine_sgRNA_barcode_from_same_mouse input_folder')
  /\ (forall final_df,
        ascending raw_key_leb
                  (map key_of_raw_row (deduplicate_raw final_df))
        /\ ascending complete_key_leb
                     (map key_of_complete_row
                          (deduplicate_complete final_df))).
Proof.
  split; [exact deduplicate_permutation|]; split.
  - intros f f' Hp Href.
    unfold combine_sgRNA_barcode_from_same_mouse, unified_table.
    rewrite <- Href.
    destruct (pd_concat_permutation
                (Permutation_map
                   (fun p => merge_barcode_and_sgRNA_output
                               (barcode_file p) (cluster_file p)
                               (bartender_input_file p)) Hp))
      as [[-> ->]|(t & t' & -> & -> & Ht)]; [reflexivity|].
    cbn [bind].
    assert (Hu : Permutation (reference_join t (ref_file f))
                             (reference_join t' (ref_file f)))
      by (unfold reference_join; now apply Permutation_flat_map).
    destruct (deduplicate_permutation Hu) as [-> ->]; reflexivity.
  - intros final_df; split.
    + rewrite deduplicate_raw_eq, map_map.
      rewrite map_ext with (g := fun k => k)
        by (intros k; apply key_of_mk_raw_row).
      rewrite map_id; apply sort_keys_ascending, raw_key_leb_total_order.
    + rewrite deduplicate_complete_eq, map_map.
      rewrite map_ext with (g := fun k => k)
        by (intros k; apply key_of_mk_complete_row).
      rewrite map_id; apply sort_keys_ascending, complete_key_leb_total_order.
Qed.

Lemma X16_witness :
  combine_sgRNA_barcode_from_same_mouse
    {| basename := py "S1";
       barcode_files :=
         [ {| barcode_file := matched_entries; cluster_file := clusters;
              bartender_input_file := bartender |};
           {| barcode_file := [unmatched_entry]; cluster_file := [];
              bartender_input_file := [] |} ];
       ref_file := ref_file (folder (py "S1")) |}
  = combine_sgRNA_barcode_from_same_mouse
      {| basename := py "S1";
         barcode_files :=
           [ {| barcode_file := [unmatched_entry]; cluster_file := [];
                bartender_input_file := [] |};
             {| barcode_file := matched_entries; cluster_file := clusters;
                bartender_input_file := bartender |} ];
         ref_file := ref_file (folder (py "S1")) |}.
Proof.
  apply (proj1 (proj2 X16_tables_do_not_depend_on_order));
    [apply perm_swap | reflexivity].
Defined.

(** ** From the extraction to the aggregation *)

Lemma reference_join_In f combined_df sgRNA_ref_df :
  In f (reference_join combined_df sgRNA_ref_df) ->
  exists m r,
    In m combined_df /\ In r sgRNA_ref_df
    /\ rf_Read_ID r = m_Read_ID m /\ rf_Clonal_barcode r = m_Clonal_barcode m
    /\ f = {| f_Clonal_barcode_center := m_Clonal_barcode_center m;
              f_Clonal_barcode := m_Clonal_barcode m;
              f_Read_ID := m_Read_ID m;
              f_gRNA1 := rf_gRNA1 r; f_gRNA2 := rf_gRNA2 r;
              f_Sample_ID := rf_Sample_ID r; f_Class := rf_Class r;
              f_gRNA_combination := rf_gRNA_combination r |}.
Proof.
  unfold reference_join; rewrite in_flat_map; intros (m & Hm & Hf).
  apply in_map_iff in Hf as (r & <- & Hr).
  apply filter_In in Hr as [Hr E]; apply andb_true_iff in E as [E1 E2].
  apply str_eqb_eq in E1, E2; exists m, r; auto.
Qed.

(** X17.  When [pd.read_csv] returns every cell of the intermediate
    table of an extraction as the text that was written (no cell is
    taken for a number or for a missing value) and that table is the
    reference file of a sample folder, every row of the two frequency
    tables carries the sample identifier of the extraction, the last
    component of its output directory, a raw barcode of 16 characters
    in the raw table, and two tags of 16 to 21 characters that are in
    the G1 and G2 reference lists and make up the combination key. *)
Theorem X17_tables_inherit_the_extraction
        a1 a2 ref_sgRNA_df output_dir o input_folder raw complete :
  dual_guide_parsing.main a1 a2 ref_sgRNA_df output_dir = Some (Ok o) ->
  ref_file input_folder = map read_as_written (Intermediate_df_csv o) ->
  combine_sgRNA_barcode_from_same_mouse input_folder = Ok (raw, complete) ->
  (forall x, In x raw ->
     raw_Sample_ID x = sample_id_of output_dir
     /\ capture 16 16 (raw_Clonal_barcode x)
     /\ In (raw_gRNA1 x) (gRNA_list "G1" ref_sgRNA_df)
     /\ In (raw_gRNA2 x) (gRNA_list "G2" ref_sgRNA_df)
     /\ capture 16 21 (raw_gRNA1 x) /\ capture 16 21 (raw_gRNA2 x)
     /\ raw_gRNA_combination x = raw_gRNA1 x ++ py "_" ++ raw_gRNA2 x)
  /\ (forall y, In y complete ->
        cp_Sample_ID y = sample_id_of output_dir
        /\ In (cp_gRNA1 y) (gRNA_list "G1" ref_sgRNA_df)
        /\ In (cp_gRNA2 y) (gRNA_list "G2" ref_sgRNA_df)
        /\ capture 16 21 (cp_gRNA1 y) /\ capture 16 21 (cp_gRNA2 y)
        /\ cp_gRNA_combination y = cp_gRNA1 y ++ py "_" ++ cp_gRNA2 y).
Proof.
  intros Hmain Href Hcombine.
  apply main_Ok_inv in Hmain; cbv zeta in Hmain.
  destruct Hmain as (_ & _ & Hint & _).
  unfold combine_sgRNA_barcode_from_same_mouse in Hcombine.
  destruct (unified_table input_folder) as [final_df|] eqn:Hu;
    simpl in Hcombine; [|discriminate].
  injection Hcombine as <- <-.
  assert (Hrows : forall f, In f final_df ->
            exists g1 g2,
              f_gRNA1 f = Some g1 /\ f_gRNA2 f = Some g2
              /\ f_Sample_ID f = Some (sample_id_of output_dir)
              /\ f_gRNA_combination f = Some (g1 ++ py "_" ++ g2)
              /\ capture 16 16 (f_Clonal_barcode f)
              /\ In g1 (gRNA_list "G1" ref_sgRNA_df)
              /\ In g2 (gRNA_list "G2" ref_sgRNA_df)
              /\ capture 16 21 g1 /\ capture 16 21 g2).
  { intros f Hf; unfold unified_table in Hu.
    destruct (pd_concat _) as [combined|]; simpl in Hu; [|discriminate].
    injection Hu as <-.
    apply reference_join_In in Hf as (m & r & _ & Hr & _ & Hbar & ->).
    rewrite Href in Hr; apply in_map_iff in Hr as (w & <- & Hw).
    rewrite Hint in Hw; apply filter_In in Hw as [Hw Hclass].
    destruct (extracted_row_well_formed Hw)
      as (Hb & Hg1 & Hg2 & Hkey & Hs & _ & _ & Hlabel & Hexp).
    assert (Hin : In (gRNA1 w) (gRNA_list "G1" ref_sgRNA_df)
                  /\ In (gRNA2 w) (gRNA_list "G2" ref_sgRNA_df)).
    { apply Hexp; destruct Hlabel as [E|E]; [exact E|].
      unfold is_Unexpected in Hclass; rewrite E, str_eqb_refl in Hclass.
      discriminate. }
    exists (gRNA1 w), (gRNA2 w).
    cbn [f_Sample_ID f_Clonal_barcode f_gRNA1 f_gRNA2 f_gRNA_combination
         read_as_written rf_gRNA1 rf_gRNA2 rf_Sample_ID rf_gRNA_combination
         rf_Clonal_barcode] in *.
    rewrite <- Hbar, Hkey, Hs; tauto. }
  split.
  - intros x Hx; apply raw_row_In in Hx as (f & k & Hf & Hk & ->).
    destruct (Hrows f Hf)
      as (g1 & g2 & E1 & E2 & E3 & E4 & H1 & H2 & H3 & H4 & H5).
    unfold raw_key_of in Hk; rewrite E1, E2, E3, E4 in Hk.
    destruct (f_Clonal_barcode_center f); [|discriminate].
    injection Hk as <-; simpl; tauto.
  - intros y Hy; apply complete_row_In in Hy as (f & k & Hf & Hk & ->).
    destruct (Hrows f Hf)
      as (g1 & g2 & E1 & E2 & E3 & E4 & H1 & H2 & H3 & H4 & H5).
    unfold complete_key_of in Hk; rewrite E1, E2, E3, E4 in Hk.
    destruct (f_Clonal_barcode_center f); [|discriminate].
    injection Hk as <-; simpl; tauto.
Qed.

Lemma X17_witness :
  exists o raw complete,
    dual_guide_parsing.main Fixtures.fastq1 Fixtures.fastq2 Fixtures.reference
                            (py "out/S1") = Some (Ok o)
    /\ combine_sgRNA_barcode_from_same_mouse
         {| basename := py "S1";
            barcode_files :=
              [ {| barcode_file := matched_entries; cluster_file := clusters;
                   bartender_input_file :=
                     [ {| bt_Clonal_barcode := Fixtures.barcode;
                          bt_Read_ID := py "@read1" |} ] |} ];
            ref_file := map read_as_written (Intermediate_df_csv o) |}
       = Ok (raw, complete)
    /\ length complete = 1
    /\ forall y, In y complete -> cp_Sample_ID y = py "S1".
Proof.
  destruct (dual_guide_parsing.main Fixtures.fastq1 Fixtures.fastq2
              Fixtures.reference (py "out/S1")) as [[o|e]|] eqn:Hmain;
    try (vm_compute in Hmain; discriminate Hmain).
  pose proof Hmain as Ho; vm_compute in Ho; injection Ho as Ho.
  pose (input_folder :=
          {| basename := py "S1";
             barcode_files :=
               [ {| barcode_file := matched_entries;
                    cluster_file := clusters;
                    bartender_input_file :=
                      [ {| bt_Clonal_barcode := Fixtures.barcode;
                           bt_Read_ID := py "@read1" |} ] |} ];
             ref_file := map read_as_written (Intermediate_df_csv o) |}).
  assert (Href : ref_file input_folder
                 = map read_as_written (Intermediate_df_csv o))
    by reflexivity.
  destruct (combine_sgRNA_barcode_from_same_mouse input_folder)
    as [[raw complete]|e] eqn:Hc;
    [|unfold input_folder in Hc; rewrite <- Ho in Hc; vm_compute in Hc;
      discriminate Hc].
  exists o, raw, complete; split; [reflexivity|]; split; [exact Hc|].
  split.
  - pose proof Hc as Hc'; unfold input_folder in Hc'.
    rewrite <- Ho in Hc'; vm_compute in Hc'.
    injection Hc' as _ <-; reflexivity.
  - intros y Hy.
    exact (proj1 (proj2 (X17_tables_inherit_the_extraction Hmain Href Hc)
                        y Hy)).
Defined.

(** ** The paths of the files of a partition *)

Lemma replace_from_skip old new a : forall b,
  replace_from old new (length a) (a ++ b) = replace_from old new 0 b.
Proof.
  induction a as [|c a IH]; intros b; simpl; [|apply IH].
  destruct b; reflexivity.
Qed.

Lemma replace_from_hit old new b :
  old <> [] ->
  replace_from old new 0 (old ++ b) = new ++ replace_from old new 0 b.
Proof.
  destruct old as [|c old]; [congruence|]; intros _.
  pose proof (startswith_app (c :: old) b) as Hs.
  simpl in Hs |- *; rewrite Hs; f_equal.
  rewrite Nat.sub_0_r; apply (replace_from_skip (c :: old) new old).
Qed.

Lemma occurs_before_false old s n :
  occurs_before old s n = false ->
  forall i, i < n -> startswith old (skipn i s) = false.
Proof.
  unfold occurs_before; intros H i Hi.
  destruct (startswith old (skipn i s)) eqn:E; [|reflexivity].
  assert (T : existsb (fun i => startswith old (skipn i s)) (seq 0 n) = true).
  { apply existsb_exists; exists i; split; [apply in_seq; lia | exact E]. }
  congruence.
Qed.

Lemma replace_from_miss old new a : forall b,
  (forall i, i < length a -> startswith old (skipn i (a ++ b)) = false) ->
  replace_from old new 0 (a ++ b) = a ++ replace_from old new 0 b.
Proof.
  induction a as [|c a IH]; intros b H; [reflexivity|].
  assert (H0 := H 0 ltac:(simpl; lia)).
  simpl in H0 |- *; rewrite H0.
  f_equal; apply IH; intros i Hi.
  apply (H (S i)); simpl; lia.
Qed.

Lemma replace_first old new a b :
  old <> [] ->
  occurs_before old (a ++ old ++ b) (length a) = false ->
  replace old new (a ++ old ++ b) = a ++ new ++ replace old new b.
Proof.
  intros Hold Hocc; unfold replace.
  destruct old as [|c old']; [congruence|].
  rewrite replace_from_miss by now apply occurs_before_false.
  now rewrite replace_from_hit.
Qed.

(** X18.  The barcode file of a cluster file is found by replacing
    every occurrence of "cluster" in its path, also in the name of a
    folder; the bartender file by replacing every "_cluster.csv".
    When the only occurrence is the one at the end of the path, the
    barcode file is the sibling that ends in "_barcode.csv", and the
    bartender file, for a cluster file next to a bartender file that
    the extraction wrote, is that file. *)
Theorem X18_paths_of_a_partition (pre rest output_dir key : str) :
  (occurs_before (py "cluster") (pre ++ py "cluster" ++ rest) (length pre)
   = false ->
   barcode_file_of (pre ++ py "cluster" ++ rest)
   = pre ++ py "barcode" ++ barcode_file_of rest)
  /\ (occurs_before (py "cluster") (pre ++ py "cluster" ++ py ".csv")
                    (length pre) = false ->
      barcode_file_of (pre ++ py "cluster.csv") = pre ++ py "barcode.csv")
  /\ (occurs_before (py "_cluster.csv")
                    (output_dir ++ py "/Clonal_barcode/" ++ key
                                ++ py "_cluster.csv")
                    (length (output_dir ++ py "/Clonal_barcode/" ++ key))
      = false ->
      bartender_input_file_of
        (output_dir ++ py "/Clonal_barcode/" ++ key ++ py "_cluster.csv")
      = out_filename output_dir key).
Proof.
  split; [|split].
  - intros H; unfold barcode_file_of; apply replace_first; [discriminate|].
    exact H.
  - intros H; unfold barcode_file_of.
    change (py "cluster.csv") with (py "cluster" ++ py ".csv").
    rewrite replace_first; [reflexivity | discriminate | exact H].
  - unfold bartender_input_file_of, out_filename.
    replace (output_dir ++ py "/Clonal_barcode/" ++ key ++ py "_cluster.csv")
      with ((output_dir ++ py "/Clonal_barcode/" ++ key)
              ++ py "_cluster.csv" ++ [])
      by (now rewrite app_nil_r, <- !app_assoc).
    intros H; rewrite replace_first;
      [now rewrite <- !app_assoc | discriminate | exact H].
Qed.

Lemma X18_witness :
  barcode_file_of (py "in/S1/Clonal_barcode/AC_GT_" ++ py "cluster.csv")
  = py "in/S1/Clonal_barcode/AC_GT_" ++ py "barcode.csv".
Proof.
  apply (proj1 (proj2 (X18_paths_of_a_partition
                         (py "in/S1/Clonal_barcode/AC_GT_") [] [] []))).
  reflexivity.
Defined.

(** ** The order of the manifest *)

(** X19.  The manifest lists the bartender files in ascending order of
    their combination key, one for each key of the intermediate
    table. *)
Theorem X19_manifest_is_in_key_order a1 a2 ref_sgRNA_df output_dir o :
  dual_guide_parsing.main a1 a2 ref_sgRNA_df output_dir = Some (Ok o) ->
  exists keys,
    Bartender_input_address o = map (out_filename output_dir) keys
    /\ ascending str_leb keys
    /\ (forall k, In k keys <->
                  exists r, In r (Intermediate_df_csv o)
                            /\ gRNA_combination r = k).
Proof.
  intros Hmain; apply main_Ok_inv in Hmain; cbv zeta in Hmain.
  destruct Hmain as (_ & _ & _ & Hfiles & Haddr).
  exists (group_keys str_eq_dec str_leb
            (map gRNA_combination (Intermediate_df_csv o))).
  split; [|split].
  - rewrite Haddr, Hfiles; unfold groupby.
    now rewrite !map_map, non_null_keys_total.
  - apply sort_keys_ascending, str_leb_total_order.
  - intros k; rewrite group_keys_In, in_map_iff.
    split; intros (r & H1 & H2); exists r; auto.
Qed.

Lemma X19_witness :
  exists o keys,
    dual_guide_parsing.main Fixtures.fastq1 Fixtures.fastq2 Fixtures.reference
                            (py "out/S1") = Some (Ok o)
    /\ Bartender_input_address o = map (out_filename (py "out/S1")) keys
    /\ ascending str_leb keys.
Proof.
  destruct (dual_guide_parsing.main Fixtures.fastq1 Fixtures.fastq2
              Fixtures.reference (py "out/S1")) as [[o|e]|] eqn:Hmain;
    try (vm_compute in Hmain; discriminate Hmain).
  destruct (X19_manifest_is_in_key_order Hmain) as (keys & Ha & Hs & _).
  exists o, keys; split; [reflexivity|]; split; assumption.
Defined.

(** ** Rows with a null key cell *)

Lemma deduplicate_no_key final_df :
  filter has_full_key final_df = [] ->
  deduplicate_raw final_df = [] /\ deduplicate_complete final_df = [].
Proof.
  intros H.
  now rewrite deduplicate_raw_dropna, deduplicate_complete_dropna, H.
Qed.

(** X20.  A unified row with a null in one of the five key columns
    read from the files (combination, cluster center, tag 1, tag 2,
    sample) is in neither frequency table: both tables are those of
    the rows none of whose key columns is null.  When the [Sample_ID]
    cell of every row of the reference table is null, both tables are
    empty. *)
Theorem X20_null_key_rows_are_dropped :
  (forall r,
      has_full_key r = false
      <-> f_gRNA_combination r = None \/ f_Clonal_barcode_center r = None
          \/ f_gRNA1 r = None \/ f_gRNA2 r = None \/ f_Sample_ID r = None)
  /\ (forall r, has_full_key r = false ->
                raw_key_of r = None /\ complete_key_of r = None)
  /\ (forall final_df,
        deduplicate_raw final_df
        = deduplicate_raw (filter has_full_key final_df)
        /\ deduplicate_complete final_df
           = deduplicate_complete (filter has_full_key final_df))
  /\ (forall input_folder,
        barcode_files input_folder <> [] ->
        (forall r, In r (ref_file input_folder) -> rf_Sample_ID r = None) ->
        combine_sgRNA_barcode_from_same_mouse input_folder = Ok ([], [])).
Proof.
  split; [|split; [|split]].
  - intros r; unfold has_full_key.
    destruct (f_gRNA_combination r), (f_Clonal_barcode_center r),
      (f_gRNA1 r), (f_gRNA2 r), (f_Sample_ID r); simpl;
      split; try discriminate; try tauto;
      intros [H|[H|[H|[H|H]]]]; discriminate.
  - intros r H.
    pose proof (has_full_key_raw_key r) as Hr.
    pose proof (has_full_key_complete_key r) as Hc.
    rewrite H in Hr, Hc.
    destruct (raw_key_of r); [discriminate|].
    destruct (complete_key_of r); [discriminate|]; auto.
  - intros final_df; split;
      [apply deduplicate_raw_dropna | apply deduplicate_complete_dropna].
  - intros input_folder Hfiles Hnull.
    destruct (proj1 (combine_returns input_folder) Hfiles)
      as (final_df & Hu & ->).
    assert (Hnone : filter has_full_key final_df = []).
    { apply filter_none; intros f Hf.
      unfold unified_table in Hu.
      destruct (pd_concat _) as [combined|]; simpl in Hu; [|discriminate].
      injection Hu as <-.
      apply reference_join_In in Hf as (m & r & _ & Hr & _ & _ & ->).
      unfold has_full_key; cbn [f_Sample_ID]; rewrite (Hnull r Hr).
      apply andb_false_r. }
    destruct (deduplicate_no_key Hnone) as [-> ->]; reflexivity.
Qed.

Lemma X20_witness :
  combine_sgRNA_barcode_from_same_mouse
    {| basename := [];
       barcode_files :=
         [ {| barcode_file := matched_entries; cluster_file := clusters;
              bartender_input_file := bartender |} ];
       ref_file := [ nameless_row barcode_a (py "@read1");
                     nameless_row barcode_b (py "@read2") ] |}
  = Ok ([], []).
Proof.
  apply (proj2 (proj2 (proj2 X20_null_key_rows_are_dropped))).
  - discriminate.
  - intros r [<-|[<-|[]]]; reflexivity.
Defined.

(** ** Instances of the statements without a premise *)

Lemma X1_witness :
  find_reverse_complementary (py "AACG" ++ py "TTN")
  = find_reverse_complementary (py "TTN")
    ++ find_reverse_complementary (py "AACG").
Proof.
  exact (proj1 (proj2 (X1_reverse_complement_composes (py "AACG") (py "TTN")))).
Defined.

Lemma X11_witness :
  dual_guide_parsing.main [py " " ++ ["010"%char]; py "ACGT"] [] [] (py "out")
  = Some (Raise ZeroDivisionError)
  /\ dual_guide_parsing.main
       [py "@read1"; py "ACGT"; py "+"; py "IIII"]
       [py "@read1"; py "ACGT"; py "+"; py "IIII"]
       Fixtures.reference (py "out/S1")
     = Some (Raise TypeError).
Proof.
  split.
  - apply (proj2 (proj1 (X11_how_the_script_ends
                           [py " " ++ ["010"%char]; py "ACGT"] [] []
                           (py "out")))).
    reflexivity.
  - apply (proj2 (proj1 (proj2 (X11_how_the_script_ends
                                  [py "@read1"; py "ACGT"; py "+"; py "IIII"]
                                  [py "@read1"; py "ACGT"; py "+"; py "IIII"]
                                  Fixtures.reference (py "out/S1"))))).
    split; [discriminate | reflexivity].
Defined.

Lemma X13_witness :
  length bartender
  <= length (merge_barcode_and_sgRNA_output
               (matched_entries ++ [unmatched_entry]) clusters bartender).
Proof.
  exact (proj2 (X13_right_join_keeps_every_pair
                  (matched_entries ++ [unmatched_entry]) clusters bartender)).
Defined.

Lemma X14_witness :
  Forall (fun x => 1 <= raw_Frequency x)
         (deduplicate_raw
            [ {| f_Clonal_barcode_center := Some barcode_a;
                 f_Clonal_barcode := barcode_b; f_Read_ID := py "@read2";
                 f_gRNA1 := Some tag1; f_gRNA2 := Some tag2;
                 f_Sample_ID := Some (py "S1");
                 f_Class := Some (py "Expected");
                 f_gRNA_combination := Some (tag1 ++ py "_" ++ tag2) |};
              {| f_Clonal_barcode_center := None;
                 f_Clonal_barcode := barcode_c; f_Read_ID := py "@read3";
                 f_gRNA1 := Some tag1; f_gRNA2 := Some tag2;
                 f_Sample_ID := Some (py "S1");
                 f_Class := Some (py "Expected");
                 f_gRNA_combination := Some (tag1 ++ py "_" ++ tag2) |} ]).
Proof.
  apply Forall_forall; intros x Hx.
  exact (proj1 (X14_frequency_tables_are_consistent _) x Hx).
Defined.
